(** * Workflow engine of the sales chatbot: graph walk, routing and guards

    Shallow embedding of [WorkflowEngine] (the class of
    [src/core/workflow-engine.js]), of the fallbacks of
    [ProductRecommender] and [ImageProcessor], and of the response
    extraction of the [/api/test-chat] route.

    Conventions of the embedding:
    - a JavaScript value that may be [undefined] is an [option];
      truthiness is written out ([truthy], [js_or]);
    - JavaScript numbers that carry a confidence or a score are binary64
      floats ([PrimFloat]); token counts are natural numbers;
    - strings are byte strings: [length] and [substring] agree with
      JavaScript on ASCII text;
    - [Map] objects are [gmap string _], [Set] objects are [gset string];
    - calls that leave the process (OpenAI, Prisma, axios) are fields of
      an [Adapters] record: each returns either a value or the message of
      the exception it raised. *)

From Stdlib Require Import Floats Sorted.
From stdpp Require Import gmap strings list pretty.

Open Scope string_scope.
Open Scope nat_scope.

(** ** JavaScript values *)

(** [if (s)] on a value that is a string or [undefined]. *)
Definition truthy (o : option string) : bool :=
  match o with
  | Some s => negb (String.eqb s "")
  | None => false
  end.

(** [a || b] on values that are strings or [undefined]. *)
Definition js_or (a b : option string) : option string :=
  if truthy a then a else b.

(** The confidence constants of the engine. *)
#[warnings="-inexact-float"]
Definition c0_7 : float := 0.7%float.
#[warnings="-inexact-float"]
Definition c0_6 : float := 0.6%float.
#[warnings="-inexact-float"]
Definition c0_3 : float := 0.3%float.
Definition c0_5 : float := 0.5%float.

(** [x >= 0.7] and [x < 0.7]; both are false on [undefined] (it converts
    to NaN). *)
Definition ge_07 (c : option float) : bool :=
  match c with
  | Some x => PrimFloat.leb c0_7 x
  | None => false
  end.

Definition lt_07 (c : option float) : bool :=
  match c with
  | Some x => PrimFloat.ltb x c0_7
  | None => false
  end.

(** [x || d] on a number or [undefined]: 0, -0 and NaN are falsy. *)
Definition num_or (x : option float) (d : float) : float :=
  match x with
  | Some v => if PrimFloat.eqb v 0%float || PrimFloat.is_nan v then d else v
  | None => d
  end.

(** [n || d] on a count or [undefined]. *)
Definition nat_or (n : option nat) (d : nat) : nat :=
  match n with
  | Some 0 | None => d
  | Some v => v
  end.

(** [b || false] on a boolean or [undefined]. *)
Definition bool_or_false (b : option bool) : bool := default false b.

(** The key a property access uses: [o[undefined]] reads the key
    ["undefined"]. *)
Definition js_key (k : option string) : string := default "undefined" k.

(** The message of the [TypeError] raised by reading a property of
    [undefined]. *)
Definition typeError (prop : string) : string :=
  "Cannot read properties of undefined (reading '" ++ prop ++ "')".

(** ** Graph model *)

(** One entry of [config.classify] and of [config.routes]. *)
Record ClassifyRoute := {
  cr_type : option string;
  cr_next : option string
}.

Record IntentRoute := {
  ir_intent : option string;
  ir_next : option string
}.

(** [node.config]: the routing fields read by [getNextNode] and the
    fields read by the handlers. Prompt, model and temperature are only
    handed to the adapters and are left to them. *)
Record Config := {
  cfg_next : option string;
  cfg_next_high_confidence : option string;
  cfg_next_low_confidence : option string;
  cfg_next_found : option string;
  cfg_next_not_found : option string;
  cfg_fallback : option string;
  cfg_classify : option (list ClassifyRoute);
  cfg_routes : option (list IntentRoute);
  cfg_operation : option string;
  cfg_template : option string;
  cfg_top_n : option nat;
  cfg_max_tokens : option nat;
  cfg_limit : option nat;
  cfg_include_context : bool;
  cfg_language : option string;
  cfg_category : option string
}.

(** [{}] *)
Definition emptyConfig : Config :=
  {| cfg_next := None; cfg_next_high_confidence := None;
     cfg_next_low_confidence := None; cfg_next_found := None;
     cfg_next_not_found := None; cfg_fallback := None;
     cfg_classify := None; cfg_routes := None; cfg_operation := None;
     cfg_template := None; cfg_top_n := None; cfg_max_tokens := None;
     cfg_limit := None; cfg_include_context := false;
     cfg_language := None; cfg_category := None |}.

Record Node := {
  node_id : string;
  node_name : string;
  node_type : string;
  node_config : option Config
}.

(** A template of [workflow.templates]: a text, or one text per language
    ([typeof t === 'object']). *)
Inductive Template :=
| TText (s : string)
| TLang (byLanguage : gmap string string).

(** The parsed [workflow.json]. *)
Record Workflow := {
  wf_nodes : list Node;
  wf_templates : option (gmap string Template)
}.

(** The engine object: [this.nodes] and [this.workflow.templates]. *)
Record WorkflowEngine := {
  nodes : gmap string Node;
  templates : option (gmap string Template)
}.

(** [constructor()]: [this.nodes.set(node.id, node)] for each node in
    order, so a later node replaces an earlier one with the same id. *)
Definition newWorkflowEngine (wf : Workflow) : WorkflowEngine :=
  {| nodes := foldl (λ m n, <[node_id n := n]> m) ∅ (wf_nodes wf);
     templates := wf_templates wf |}.

(** ** Payloads *)

Record Features := {
  f_model : option string;
  f_engineSize : option string;
  f_type : option string;
  f_locations : option (list string)
}.

(** A row of the [Product] table, with the two fields a ranking adds. *)
Record Product := {
  p_id : string;
  p_name : string;
  p_brand : option string;
  p_subcategory : option string;
  p_price : option float;
  p_features : option Features;
  p_popularity : nat;
  p_relevance_score : option float;
  p_reasoning : option string
}.

(** [entities] of the language-understanding reply. *)
Record Entities := {
  e_budget : option string;
  e_area : option string;
  e_model : option string;
  e_brand : option string;
  e_type : option string;
  e_category : option string;
  e_product_name : option string
}.

Definition noEntities : Entities :=
  {| e_budget := None; e_area := None; e_model := None; e_brand := None;
     e_type := None; e_category := None; e_product_name := None |}.

(** What [ImageProcessor.processImage] resolves to. *)
Record Analysis := {
  a_success : bool;
  a_error : option string;
  a_tokensUsed : nat;
  a_product_name : option string;
  a_category : option string;
  a_brand : option string
}.

(** [context.metadata] *)
Record Metadata := {
  message_type : option string;
  media_url : option string;
  image_url : option string;
  voice_url : option string;
  audio_url : option string
}.

(** The values stored under the keys of a step's [data] object. *)
Inductive Value :=
| VStr (s : string)
| VNum (x : float)
| VBool (b : bool)
| VProducts (l : list Product)
| VProduct (p : option Product)
| VEntities (e : Entities)
| VAnalysis (a : Analysis)
| VMetadata (m : option Metadata)
| VClassifyRoute (r : option ClassifyRoute)
| VIntentRoute (r : option IntentRoute).

(** A [data] object; a key whose value is [undefined] is left out. *)
Abbreviation Data := (gmap string Value).

Definition get_str (d : option Data) (k : string) : option string :=
  match d with
  | Some m => match m !! k with Some (VStr s) => Some s | _ => None end
  | None => None
  end.

Definition get_products (d : option Data) : option (list Product) :=
  match d with
  | Some m => match m !! "products" with Some (VProducts l) => Some l | _ => None end
  | None => None
  end.

Definition get_entities (d : option Data) : option Entities :=
  match d with
  | Some m => match m !! "entities" with Some (VEntities e) => Some e | _ => None end
  | None => None
  end.

Definition get_analysis (d : option Data) : option Analysis :=
  match d with
  | Some m => match m !! "analysis" with Some (VAnalysis a) => Some a | _ => None end
  | None => None
  end.

(** [{ ...d, k: v }] where [v] may be [undefined]. *)
Definition set_opt (k : string) (v : option string) (d : Data) : Data :=
  match v with
  | Some s => <[k := VStr s]> d
  | None => d
  end.

(** The uniform result of a node dispatch. *)
Record StepResult := {
  data : option Data;
  next : option string;
  confidence : option float;
  found : option bool;
  tokensUsed : nat;
  error : option string
}.

(** One entry of [workflowSteps]: the metadata of a step, without its
    payload. *)
Record StepTrace := {
  node : string;
  nodeName : string;
  hasData : bool;
  hasError : bool;
  trace_confidence : option float;
  trace_found : option bool;
  trace_tokensUsed : nat
}.

(** What the caller hands to [execute]: the fields of its argument that
    the engine reads. The callers pass no [lastResult]. *)
Record Input := {
  in_user_message : option string;
  in_metadata : option Metadata;
  in_language : option string
}.

(** The [executionContext] object of one run. *)
Record ExecutionContext := {
  user_message : option string;
  metadata : option Metadata;
  language : option string;
  messageType : option string;
  transcribed : bool;
  ctx_tokensUsed : nat;
  workflowSteps : list StepTrace;
  errors : list string;
  allResults : list StepResult;
  finalResponse : option string;
  visitedNodes : gset string;
  maxIterations : nat;
  iterationCount : nat;
  lastResult : option StepResult
}.

(** ** Next-node resolution *)

(** [this.nodes.get(ref)] for a reference that may be [undefined]. *)
Definition nodes_get (engine : WorkflowEngine) (ref : option string) : option Node :=
  ref ≫= λ i, nodes engine !! i.

(** One priority of the resolver:
    [if (cond) { const nextNode = this.nodes.get(ref); if (nextNode) return nextNode; }]
    followed by the rest of the chain. *)
Definition priority (engine : WorkflowEngine) (cond : bool) (ref : option string)
    (rest : option Node) : option Node :=
  if cond
  then match nodes_get engine ref with
       | Some nextNode => Some nextNode
       | None => rest
       end
  else rest.

(** [getNextNode(currentNode, result, context)]; [None] is [undefined]
    (no node with id [end]). [result.found] and [!result.found] are the
    truthiness of a boolean or [undefined]. *)
Definition getNextNode (engine : WorkflowEngine) (currentNode : Node)
    (result : StepResult) : option Node :=
  let config := default emptyConfig (node_config currentNode) in
  let isFound := bool_decide (found result = Some true) in
  priority engine (truthy (next result)) (next result)
 (priority engine (truthy (cfg_next config)) (cfg_next config)
 (priority engine (truthy (cfg_next_high_confidence config) && ge_07 (confidence result))
           (cfg_next_high_confidence config)
 (priority engine (truthy (cfg_next_low_confidence config) && lt_07 (confidence result))
           (cfg_next_low_confidence config)
 (priority engine (truthy (cfg_next_found config) && isFound)
           (cfg_next_found config)
 (priority engine (truthy (cfg_next_not_found config) && negb isFound)
           (cfg_next_not_found config)
 (priority engine (truthy (cfg_fallback config)) (cfg_fallback config)
           (nodes engine !! "end"))))))).

(** ** The world outside the engine *)

(** A call that may raise: the value it resolves to, or the message of
    the exception. *)
Inductive Attempt (A : Type) :=
| Resolved (a : A)
| Rejected (message : string).
Arguments Resolved {A} a.
Arguments Rejected {A} message.

(** The parsed reply of the language-understanding completion, with
    [completion.usage.total_tokens]. *)
Record NlpReply := {
  nlp_intent : option string;
  nlp_entities : option Entities;
  nlp_confidence : option float;
  nlp_requires_product_search : option bool;
  nlp_requires_agent_escalation : option bool;
  nlp_total_tokens : nat
}.

(** One entry of [content.products] in a ranking reply. The ranker
    nodes name a product by [id] or [name], the recommender by a 1-based
    [index]. *)
Record Ranked := {
  rk_id : option string;
  rk_name : option string;
  rk_index : option nat;
  rk_relevance_score : option float;
  rk_reasoning : option string
}.

Record RankReply := {
  rank_products : option (list Ranked);
  rank_overall_reasoning : option string;
  rank_reasoning : option string;
  rank_confidence : option float;
  rank_total_tokens : nat
}.

(** What the image completion yields: the fields of the parsed JSON and
    the tokens of the call. *)
Record ImageReply := {
  img_product_name : option string;
  img_category : option string;
  img_brand : option string;
  img_total_tokens : nat
}.

Record Transcript := {
  t_text : option string;
  t_language : option string
}.

(** The adapters (OpenAI, Prisma, axios) and the string built-ins of the
    runtime whose result the engine only passes on. Every adapter is
    given the execution context at the time of the call (its iteration
    counter differs from pass to pass), so two calls in one run need not
    agree. *)
Record Adapters := {
  (** [openai.chat.completions.create] and [JSON.parse] in [handleNLP] *)
  nlp_complete : Node → string → ExecutionContext → Attempt NlpReply;
  (** the same two calls in the ranker branch of [handleML] *)
  rank_complete : Node → list Product → ExecutionContext → Attempt RankReply;
  (** the same two calls in [ProductRecommender.rankProducts] *)
  recommender_complete : ExecutionContext → string → list Product → Attempt RankReply;
  (** [prisma.product.findMany] in [ProductRecommender.searchProducts] *)
  searchProducts_findMany : ExecutionContext → string → nat → Attempt (list Product);
  (** [prisma.product.findMany] in [semanticProductSearch] *)
  semantic_findMany : Node → ExecutionContext → Attempt (list Product);
  (** [prisma.product.findFirst] in [getProductPrice] *)
  price_findFirst : ExecutionContext → option string → Attempt (option Product);
  (** download and vision completion in [ImageProcessor.processImage] *)
  image_complete : ExecutionContext → string → Attempt ImageReply;
  (** download and transcription in [VoiceProcessor.transcribe] *)
  voice_transcribe : ExecutionContext → string → option string → Attempt Transcript;
  (** [loc.toLowerCase().includes(area.toLowerCase())] *)
  lower_includes : string → string → bool;
  (** [s.replace(pattern, replacement)] with a string pattern *)
  str_replace : string → string → string → string;
  (** [s.replace(/\n{3,}/g, '\n\n').trim()] *)
  squeeze_trim : string → string;
  (** [s.trim()] *)
  str_trim : string → string;
  (** the numbered product list rendered by [handleFormatter] *)
  productsText : list Product → string
}.

(** What a handler does: it returns a step result, possibly after
    writing to the context, or it raises. *)
Inductive Outcome :=
| Returns (result : StepResult) (context : ExecutionContext)
| Throws (message : string).

(** [{ data, tokensUsed: 0 }] *)
Definition plainResult (d : Data) : StepResult :=
  {| data := Some d; next := None; confidence := None; found := None;
     tokensUsed := 0; error := None |}.

(** [context.lastResult?.data] *)
Definition lastData (context : ExecutionContext) : option Data :=
  lastResult context ≫= data.

(** [context.language || context.lastResult?.data?.language || 'english'] *)
Definition languageOf (context : ExecutionContext) : string :=
  default "english"
    (js_or (language context) (js_or (get_str (lastData context) "language") (Some "english"))).

(** The template lookup shared by the formatter, the handler and the
    action node:
    [typeof t[key] === 'object' ? t[key][language] || t[key]['english'] || '' : t[key] || '']. *)
Definition lookupTemplate (tpls : gmap string Template) (key : string)
    (lang : string) : string :=
  match tpls !! key with
  | Some (TLang m) => default "" (js_or (m !! lang) (js_or (m !! "english") (Some "")))
  | Some (TText s) => s
  | None => ""
  end.

(** ** Writes to the execution context *)

(** [context.messageType = t] *)
Definition with_messageType (t : string) (c : ExecutionContext) : ExecutionContext :=
  {| user_message := user_message c; metadata := metadata c; language := language c;
     messageType := Some t; transcribed := transcribed c;
     ctx_tokensUsed := ctx_tokensUsed c; workflowSteps := workflowSteps c;
     errors := errors c; allResults := allResults c;
     finalResponse := finalResponse c; visitedNodes := visitedNodes c;
     maxIterations := maxIterations c; iterationCount := iterationCount c;
     lastResult := lastResult c |}.

(** [context.user_message = text; context.transcribed = true] *)
Definition with_transcription (text : option string) (c : ExecutionContext)
    : ExecutionContext :=
  {| user_message := text; metadata := metadata c; language := language c;
     messageType := messageType c; transcribed := true;
     ctx_tokensUsed := ctx_tokensUsed c; workflowSteps := workflowSteps c;
     errors := errors c; allResults := allResults c;
     finalResponse := finalResponse c; visitedNodes := visitedNodes c;
     maxIterations := maxIterations c; iterationCount := iterationCount c;
     lastResult := lastResult c |}.

(** [executionContext.iterationCount++] *)
Definition incrIteration (c : ExecutionContext) : ExecutionContext :=
  {| user_message := user_message c; metadata := metadata c; language := language c;
     messageType := messageType c; transcribed := transcribed c;
     ctx_tokensUsed := ctx_tokensUsed c; workflowSteps := workflowSteps c;
     errors := errors c; allResults := allResults c;
     finalResponse := finalResponse c; visitedNodes := visitedNodes c;
     maxIterations := maxIterations c; iterationCount := S (iterationCount c);
     lastResult := lastResult c |}.

(** [executionContext.errors.push(msg)] *)
Definition pushError (msg : string) (c : ExecutionContext) : ExecutionContext :=
  {| user_message := user_message c; metadata := metadata c; language := language c;
     messageType := messageType c; transcribed := transcribed c;
     ctx_tokensUsed := ctx_tokensUsed c; workflowSteps := workflowSteps c;
     errors := errors c ++ [msg]; allResults := allResults c;
     finalResponse := finalResponse c; visitedNodes := visitedNodes c;
     maxIterations := maxIterations c; iterationCount := iterationCount c;
     lastResult := lastResult c |}.

(** [executionContext.workflowSteps.push(step)] *)
Definition pushStep (step : StepTrace) (c : ExecutionContext) : ExecutionContext :=
  {| user_message := user_message c; metadata := metadata c; language := language c;
     messageType := messageType c; transcribed := transcribed c;
     ctx_tokensUsed := ctx_tokensUsed c; workflowSteps := workflowSteps c ++ [step];
     errors := errors c; allResults := allResults c;
     finalResponse := finalResponse c; visitedNodes := visitedNodes c;
     maxIterations := maxIterations c; iterationCount := iterationCount c;
     lastResult := lastResult c |}.

(** ** Node handlers *)

(** [handleTrigger]; [metadata: context.metadata || {}]. *)
Definition handleTrigger (node : Node) (context : ExecutionContext) : Outcome :=
  Returns
    (plainResult
       (set_opt "message" (user_message context)
          {[ "metadata" := VMetadata (metadata context) ]}))
    context.

(** [handleClassifier]; reading [classify] of a missing config, or
    calling [find] on a missing list, raises before the context is
    written. *)
Definition handleClassifier (node : Node) (context : ExecutionContext) : Outcome :=
  let messageType :=
    default "text" (js_or (metadata context ≫= message_type) (Some "text")) in
  match node_config node with
  | None => Throws (typeError "classify")
  | Some config =>
    match cfg_classify config with
    | None => Throws (typeError "find")
    | Some classify =>
      let route := List.find (λ r, bool_decide (cr_type r = Some messageType)) classify in
      Returns
        {| data := Some {[ "messageType" := VStr messageType;
                           "route" := VClassifyRoute route ]};
           next := route ≫= cr_next;
           confidence := None; found := None; tokensUsed := 0; error := None |}
        (with_messageType messageType context)
    end
  end.

(** The degraded payload of [handleNLP], returned when there is no
    message and when the completion fails. *)
Definition nlpFallbackData : Data :=
  {[ "intent" := VStr "general_question";
     "entities" := VEntities noEntities;
     "confidence" := VNum c0_3;
     "requires_product_search" := VBool false;
     "requires_agent_escalation" := VBool false ]}.

Definition nlpFallback (message : string) : StepResult :=
  {| data := Some nlpFallbackData; next := None; confidence := Some c0_3;
     found := None; tokensUsed := 0; error := Some message |}.

(** [handleNLP]; [node.config.system_prompt] is read before the [try]. *)
Definition handleNLP (ad : Adapters) (node : Node) (context : ExecutionContext) : Outcome :=
  let message := js_or (user_message context) (get_str (lastData context) "message") in
  if negb (truthy message) then Returns (nlpFallback "No message to process") context
  else
    match node_config node with
    | None => Throws (typeError "system_prompt")
    | Some _ =>
      match nlp_complete ad node (default "" message) context with
      | Resolved content =>
        let conf := num_or (nlp_confidence content) c0_5 in
        Returns
          {| data := Some
               (set_opt "intent" (nlp_intent content)
                  {[ "entities" := VEntities (default noEntities (nlp_entities content));
                     "confidence" := VNum conf;
                     "requires_product_search" :=
                       VBool (bool_or_false (nlp_requires_product_search content));
                     "requires_agent_escalation" :=
                       VBool (bool_or_false (nlp_requires_agent_escalation content)) ]});
             next := None;
             confidence := Some conf;
             found := None;
             tokensUsed := nlp_total_tokens content;
             error := None |}
          context
      | Rejected message => Returns (nlpFallback message) context
      end
    end.

(** [handleRouter]; [r.intent === intent] also matches two [undefined]. *)
Definition handleRouter (node : Node) (context : ExecutionContext) : Outcome :=
  let intent := get_str (lastData context) "intent" in
  match node_config node with
  | None => Throws (typeError "routes")
  | Some config =>
    match cfg_routes config with
    | None => Throws (typeError "find")
    | Some routes =>
      let route := List.find (λ r, bool_decide (ir_intent r = intent)) routes in
      Returns
        {| data := Some (set_opt "intent" intent {[ "route" := VIntentRoute route ]});
           next := js_or (route ≫= ir_next) (cfg_fallback config);
           confidence := None; found := None; tokensUsed := 0; error := None |}
        context
    end
  end.

(** [{ data, tokensUsed: 0, found }] *)
Definition foundResult (d : Data) (f : bool) : StepResult :=
  {| data := Some d; next := None; confidence := None; found := Some f;
     tokensUsed := 0; error := None |}.

(** [semanticProductSearch]: the query, then the filter on
    [features.locations] when an area was extracted. *)
Definition semanticProductSearch (ad : Adapters) (node : Node)
    (context : ExecutionContext) (lastResultData : option Data) : Attempt StepResult :=
  let entities := default noEntities (get_entities lastResultData) in
  match semantic_findMany ad node context with
  | Rejected message => Rejected message
  | Resolved products =>
    let filteredProducts :=
      match e_area entities with
      | Some area =>
        if truthy (Some area) then
          let kept :=
            List.filter
              (λ p, let locations := default [] (p_features p ≫= f_locations) in
                    bool_decide (length locations = 0)
                    || existsb (λ loc, lower_includes ad loc area) locations)
              products in
          if bool_decide (length kept = 0) then products else kept
        else products
      | None => products
      end in
    Resolved
      (foundResult {[ "products" := VProducts filteredProducts ]}
                   (negb (bool_decide (length filteredProducts = 0))))
  end.

(** [getProductPrice] *)
Definition getProductPrice (ad : Adapters) (context : ExecutionContext)
    (lastResultData : option Data) : Attempt StepResult :=
  let productName :=
    js_or (get_entities lastResultData ≫= e_product_name) (user_message context) in
  match price_findFirst ad context productName with
  | Rejected message => Rejected message
  | Resolved product =>
    let d : Data := {[ "product" := VProduct product ]} in
    let d := match product ≫= p_price with
             | Some price => <["price" := VNum price]> d
             | None => d
             end in
    Resolved (foundResult d (bool_decide (is_Some product)))
  end.

(** [getOrderStatus] *)
Definition getOrderStatus : StepResult :=
  foundResult {[ "status" := VStr "pending" ]} false.

(** [ProductRecommender.searchProducts(query, limit)], called while the
    context is [now]; the query is lower-cased before the database call,
    which raises on [undefined]. *)
Definition searchProducts (ad : Adapters) (now : ExecutionContext)
    (query : option string) (limit : nat) : Attempt (list Product) :=
  match query with
  | None => Rejected (typeError "toLowerCase")
  | Some q => searchProducts_findMany ad now q limit
  end.

(** [[a, b, c].filter(Boolean).join(' ')] *)
Definition joinTruthy (parts : list (option string)) : string :=
  String.concat " " (omap (λ o, if truthy o then o else None) parts).

(** [visualProductSearch] *)
Definition visualProductSearch (ad : Adapters) (node : Node) (config : Config)
    (context : ExecutionContext) : Attempt StepResult :=
  let noProducts := foundResult {[ "products" := VProducts [] ]} false in
  match get_analysis (lastData context) with
  | None => Resolved noProducts
  | Some analysis =>
    if negb (a_success analysis) then Resolved noProducts
    else
      let searchTerms :=
        joinTruthy [a_product_name analysis; a_category analysis; a_brand analysis] in
      if negb (truthy (Some searchTerms)) then Resolved noProducts
      else
        match searchProducts ad context (Some searchTerms) (nat_or (cfg_limit config) 10) with
        | Rejected message => Rejected message
        | Resolved products =>
          Resolved
            (foundResult {[ "products" := VProducts products;
                            "analysis" := VAnalysis analysis ]}
                         (negb (bool_decide (length products = 0))))
        end
  end.

(** [logConversation]: carries the response of the previous step over. *)
Definition logConversation (context : ExecutionContext) : StepResult :=
  let d := lastData context in
  let previousResponse :=
    js_or (get_str d "finalResponse")
      (js_or (get_str d "optimized")
         (js_or (get_str d "response") (get_str d "formatted"))) in
  plainResult
    (set_opt "finalResponse" previousResponse
       (set_opt "response" previousResponse
          (set_opt "optimized" previousResponse {[ "logged" := VBool true ]}))).

(** The cases of the [switch] on [config.operation]. *)
Inductive Operation :=
| SemanticSearch | GetPrice | GetOrderStatus | Log | VisualSearch | OtherOperation.

Definition operationOf (operation : option string) : Operation :=
  match operation with
  | None => OtherOperation
  | Some op =>
    if String.eqb op "semantic_search" then SemanticSearch
    else if String.eqb op "get_price" then GetPrice
    else if String.eqb op "get_order_status" then GetOrderStatus
    else if String.eqb op "log" then Log
    else if String.eqb op "visual_search" then VisualSearch
    else OtherOperation
  end.

(** [handleDatabase]: the [switch] on [config.operation] runs inside the
    [try]; reading [operation] of a missing config does not. *)
Definition handleDatabase (ad : Adapters) (node : Node) (context : ExecutionContext) : Outcome :=
  match node_config node with
  | None => Throws (typeError "operation")
  | Some config =>
    let lastResultData := lastData context in
    let attempt :=
      match operationOf (cfg_operation config) with
      | SemanticSearch => semanticProductSearch ad node context lastResultData
      | GetPrice => getProductPrice ad context lastResultData
      | GetOrderStatus => Resolved getOrderStatus
      | Log => Resolved (logConversation context)
      | VisualSearch => visualProductSearch ad node config context
      | OtherOperation => Resolved (foundResult ∅ false)
      end in
    match attempt with
    | Resolved result => Returns result context
    | Rejected message =>
      Returns
        {| data := Some ∅; next := None; confidence := None; found := Some false;
           tokensUsed := 0; error := Some message |}
        context
    end
  end.

(** [list.sort((a, b) => b.relevance_score - a.relevance_score)]: a
    stable sort, highest score first. [insertByScore] walks past the
    entries whose score is strictly higher. *)
Definition scoreOf (p : Product) : float := default c0_5 (p_relevance_score p).

Fixpoint insertByScore (x : Product) (l : list Product) : list Product :=
  match l with
  | [] => [x]
  | y :: rest =>
    if PrimFloat.ltb (scoreOf x) (scoreOf y)
    then y :: insertByScore x rest
    else x :: l
  end.

Definition sortByScore (l : list Product) : list Product :=
  foldr insertByScore [] l.

(** [{ ...product, relevance_score, reasoning }] *)
Definition scored (score : float) (reason : string) (p : Product) : Product :=
  {| p_id := p_id p; p_name := p_name p; p_brand := p_brand p;
     p_subcategory := p_subcategory p; p_price := p_price p;
     p_features := p_features p; p_popularity := p_popularity p;
     p_relevance_score := Some score; p_reasoning := Some reason |}.

(** What [rankProducts] resolves to; the empty case has no [tokensUsed]. *)
Record Ranking := {
  ranking_products : list Product;
  ranking_confidence : float;
  ranking_reasoning : string;
  ranking_tokensUsed : option nat
}.

(** [ProductRecommender.rankProducts(query, products, userContext)],
    called while the context is [now]. *)
Definition rankProducts (ad : Adapters) (now : ExecutionContext) (query : string)
    (products : list Product) : Ranking :=
  if bool_decide (length products = 0) then
    {| ranking_products := []; ranking_confidence := 0%float;
       ranking_reasoning := "No products to rank."; ranking_tokensUsed := None |}
  else
    let fallback :=
      {| ranking_products :=
           scored c0_5 "Fallback ranking by popularity" <$> take 3 products;
         ranking_confidence := c0_5;
         ranking_reasoning := "Used fallback ranking method";
         ranking_tokensUsed := Some 0 |} in
    match recommender_complete ad now query products with
    | Resolved result =>
      match rank_products result with
      | Some rankings =>
        let rankedProducts :=
          sortByScore
            (omap (λ ranked,
                     match rk_index ranked with
                     | Some (S i) =>
                       scored (num_or (rk_relevance_score ranked) c0_5)
                              (default "Relevant product"
                                 (js_or (rk_reasoning ranked) (Some "Relevant product")))
                         <$> products !! i
                     | _ => None
                     end)
                  rankings) in
        {| ranking_products := rankedProducts;
           ranking_confidence := num_or (rank_confidence result) c0_7;
           ranking_reasoning :=
             default "Products ranked by relevance"
               (js_or (rank_overall_reasoning result) (Some "Products ranked by relevance"));
           ranking_tokensUsed := Some (rank_total_tokens result) |}
      | None => fallback
      end
    | Rejected _ => fallback
    end.

(** What [recommend] resolves to; it has no [tokensUsed] field. *)
Record Recommendation := {
  rec_products : list Product;
  rec_confidence : float;
  rec_reasoning : string;
  rec_fallbackProducts : option (list Product)
}.

(** [ProductRecommender.recommend(query, userContext)], called while the
    context is [now]; the search is outside any [try]. *)
Definition recommend (ad : Adapters) (now : ExecutionContext) (query : option string)
    : Attempt Recommendation :=
  match searchProducts ad now query 10 with
  | Rejected message => Rejected message
  | Resolved products =>
    if bool_decide (length products = 0) then
      Resolved {| rec_products := []; rec_confidence := 0%float;
                  rec_reasoning := "No products found matching your query.";
                  rec_fallbackProducts := None |}
    else
      let ranked := rankProducts ad now (default "" query) products in
      let relevant :=
        List.filter (λ p, match p_relevance_score p with
                          | Some score => PrimFloat.leb c0_6 score
                          | None => false
                          end)
                    (ranking_products ranked) in
      if bool_decide (length relevant = 0) then
        Resolved {| rec_products := []; rec_confidence := ranking_confidence ranked;
                    rec_reasoning := "I found products, but none are highly relevant to your query. Would you like to see them anyway, or refine your search?";
                    rec_fallbackProducts := Some (take 3 (ranking_products ranked)) |}
      else
        Resolved {| rec_products := take 3 relevant;
                    rec_confidence := ranking_confidence ranked;
                    rec_reasoning := ranking_reasoning ranked;
                    rec_fallbackProducts := None |}
  end.

(** The product a ranking entry of the ranker names (a column without
    value is [null] in a database row):
    [p.id === ranked.id || p.name === ranked.name ||
     `${p.brand} ${p.features?.model || ''}`.trim() === ranked.name]. *)
Definition namedBy (ad : Adapters) (ranked : Ranked) (p : Product) : bool :=
  bool_decide (Some (p_id p) = rk_id ranked)
  || bool_decide (Some (p_name p) = rk_name ranked)
  || bool_decide
       (Some (str_trim ad (default "null" (p_brand p) ++ " "
                           ++ default "" (js_or (p_features p ≫= f_model) (Some ""))))
        = rk_name ranked).

(** The result of the [catch] of the ranker branch. *)
Definition rankerFallback (config : Config) (products : list Product) : StepResult :=
  {| data := Some {[ "products" := VProducts (take (nat_or (cfg_top_n config) 5) products);
                     "reasoning" := VStr "Fallback ranking by popularity" ]};
     next := None; confidence := Some c0_5; found := None;
     tokensUsed := 0; error := None |}.

(** [handleML] *)
Definition handleML (ad : Adapters) (node : Node) (context : ExecutionContext) : Outcome :=
  let products := default [] (get_products (lastData context)) in
  let userQuery := user_message context in
  if String.eqb (node_id node) "product_recommender" then
    match recommend ad context userQuery with
    | Rejected message => Throws message
    | Resolved recommendation =>
      let d : Data := {[ "products" := VProducts (rec_products recommendation);
                         "reasoning" := VStr (rec_reasoning recommendation) ]} in
      let d := match rec_fallbackProducts recommendation with
               | Some l => <["fallbackProducts" := VProducts l]> d
               | None => d
               end in
      Returns
        {| data := Some d; next := None;
           confidence := Some (rec_confidence recommendation);
           found := None; tokensUsed := 0; error := None |}
        context
    end
  else if String.eqb (node_id node) "bike_ranker"
          || String.eqb (node_id node) "product_ranker" then
    if bool_decide (length products = 0) then
      Returns
        {| data := Some {[ "products" := VProducts [];
                           "reasoning" := VStr "No products found" ]};
           next := None; confidence := Some 0%float; found := None;
           tokensUsed := 0; error := None |}
        context
    else
      match node_config node with
      | None => Throws (typeError "system_prompt")
      | Some config =>
        match rank_complete ad node products context with
        | Resolved content =>
          let rankedProducts :=
            take (nat_or (cfg_top_n config) 5)
              (sortByScore
                 (omap (λ ranked,
                          scored (num_or (rk_relevance_score ranked) c0_5)
                                 (default "Relevant product"
                                    (js_or (rk_reasoning ranked) (Some "Relevant product")))
                            <$> List.find (namedBy ad ranked) products)
                       (default [] (rank_products content)))) in
          Returns
            {| data := Some
                 (set_opt "reasoning"
                    (js_or (rank_overall_reasoning content) (rank_reasoning content))
                    {[ "products" := VProducts rankedProducts ]});
               next := None;
               confidence := Some (num_or (rank_confidence content) c0_7);
               found := None;
               tokensUsed := rank_total_tokens content;
               error := None |}
            context
        | Rejected _ => Returns (rankerFallback config products) context
        end
      end
  else
    Returns
      {| data := Some {[ "products" := VProducts []; "reasoning" := VStr "No results" ]};
         next := None; confidence := Some 0%float; found := None;
         tokensUsed := 0; error := None |}
      context.

(** The replacement of [{questions}], shared by the formatter and the
    handler node. No handler writes a [questions] key, so the text is
    a string whenever it is present. *)
Definition withQuestions (ad : Adapters) (config : Config) (context : ExecutionContext)
    (text : string) : string :=
  let questions := get_str (lastData context) "questions" in
  if cfg_include_context config && truthy questions
  then str_replace ad text "{questions}" (default "" questions)
  else text.

(** [handleFormatter] *)
Definition handleFormatter (ad : Adapters) (engine : WorkflowEngine) (node : Node)
    (context : ExecutionContext) : Outcome :=
  let products := default [] (get_products (lastData context)) in
  match node_config node with
  | None => Throws (typeError "template")
  | Some config =>
    match templates engine with
    | None => Throws (typeError (js_key (cfg_template config)))
    | Some tpls =>
      let template := lookupTemplate tpls (js_key (cfg_template config)) (languageOf context) in
      let formatted :=
        if bool_decide (length products = 0) then template
        else
          let text := productsText ad products in
          str_replace ad (str_replace ad template "{bikes}" text) "{products}" text in
      Returns
        (plainResult {[ "formatted" := VStr (withQuestions ad config context formatted);
                        "products" := VProducts products ]})
        context
    end
  end.

(** [handleOptimizer]; [Math.ceil(response.length / 4)] is
    [(length + 3) / 4]. *)
Definition handleOptimizer (ad : Adapters) (node : Node) (context : ExecutionContext)
    : Outcome :=
  let response :=
    squeeze_trim ad
      (default "" (js_or (get_str (lastData context) "formatted") (Some ""))) in
  let estimatedTokens := (String.length response + 3) / 4 in
  match node_config node with
  | None => Throws (typeError "max_tokens")
  | Some config =>
    let maxTokens := nat_or (cfg_max_tokens config) 500 in
    let response :=
      if bool_decide (maxTokens < estimatedTokens)
      then String.substring 0 (maxTokens * 4) response ++ "..."
      else response in
    Returns (plainResult {[ "optimized" := VStr response ]}) context
  end.

(** [handleHandler] *)
Definition handleHandler (ad : Adapters) (engine : WorkflowEngine) (node : Node)
    (context : ExecutionContext) : Outcome :=
  match node_config node with
  | None => Throws (typeError "template")
  | Some config =>
    match templates engine with
    | None => Throws (typeError (js_key (cfg_template config)))
    | Some tpls =>
      let template := lookupTemplate tpls (js_key (cfg_template config)) (languageOf context) in
      let response := withQuestions ad config context template in
      Returns
        (plainResult {[ "response" := VStr response;
                        "formatted" := VStr response;
                        "finalResponse" := VStr response ]})
        context
    end
  end.

(** [handleEscalation]: the transfer message, and an explicit [next]. *)
Definition handleEscalation (engine : WorkflowEngine) (node : Node)
    (context : ExecutionContext) : Outcome :=
  let lang := languageOf context in
  let literal := "I'm connecting you with a human agent..." in
  match templates engine with
  | None => Throws (typeError "agent_transfer")
  | Some tpls =>
    let response :=
      match tpls !! "agent_transfer" with
      | Some (TLang m) =>
        default literal (js_or (m !! lang) (js_or (m !! "english") (Some literal)))
      | Some (TText s) => default literal (js_or (Some s) (Some literal))
      | None => literal
      end in
    match node_config node with
    | None => Throws (typeError "next")
    | Some config =>
      let nextNodeId := js_or (cfg_next config) (Some "response_sender") in
      Returns
        {| data := Some {[ "escalated" := VBool true;
                           "response" := VStr response;
                           "formatted" := VStr response;
                           "finalResponse" := VStr response ]};
           next := nextNodeId;
           confidence := None; found := None; tokensUsed := 0; error := None |}
        context
    end
  end.

(** [d.optimized || d.response || d.formatted || d.finalResponse] *)
Definition responseIn (d : option Data) : option string :=
  js_or (get_str d "optimized")
    (js_or (get_str d "response")
       (js_or (get_str d "formatted") (get_str d "finalResponse"))).

(** The backward scan of [handleAction] over [context.allResults]: the
    response of the most recent result that has one. *)
Definition scanResults (results : list StepResult) : option string :=
  List.find (λ r, truthy r) (responseIn ∘ data <$> reverse results) ≫= id.

Definition apology : string :=
  "I apologize, I couldn't process that request. Please try rephrasing your question.".

(** [handleAction]. The scan over [context.workflowSteps] reads
    [step.result?.data], which no trace entry has, and finds nothing; it
    is left out. *)
Definition handleAction (engine : WorkflowEngine) (node : Node)
    (context : ExecutionContext) : Outcome :=
  let response := responseIn (lastData context) in
  let response := if truthy response then response else scanResults (allResults context) in
  if truthy response then
    Returns (plainResult (set_opt "finalResponse" response ∅)) context
  else
    let intent :=
      default "greeting" (js_or (get_str (lastData context) "intent") (Some "greeting")) in
    let lang := languageOf context in
    let templateKey :=
      if String.eqb intent "greeting" then "greeting" else intent ++ "_response" in
    match templates engine with
    | None => Throws (typeError templateKey)
    | Some tpls =>
      let template := lookupTemplate tpls templateKey lang in
      let template :=
        if truthy (Some template) then template else lookupTemplate tpls "greeting" lang in
      let response := if truthy (Some template) then template else apology in
      Returns (plainResult {[ "finalResponse" := VStr response ]}) context
    end.

(** [ImageProcessor.processImage(imageUrl)], called while the context is
    [now]: every failure is caught. *)
Definition processImage (ad : Adapters) (now : ExecutionContext) (imageUrl : string)
    : Analysis :=
  match image_complete ad now imageUrl with
  | Resolved analysis =>
    {| a_success := true; a_error := None;
       a_tokensUsed := img_total_tokens analysis;
       a_product_name := img_product_name analysis;
       a_category := img_category analysis;
       a_brand := img_brand analysis |}
  | Rejected message =>
    {| a_success := false; a_error := Some message; a_tokensUsed := 0;
       a_product_name := None; a_category := None; a_brand := None |}
  end.

(** [{ data: { error }, tokensUsed, error }] *)
Definition errorResult (message : option string) (tokens : nat) : StepResult :=
  {| data := Some (set_opt "error" message ∅); next := None; confidence := None;
     found := None; tokensUsed := tokens; error := message |}.

(** [handleVision] *)
Definition handleVision (ad : Adapters) (node : Node) (context : ExecutionContext)
    : Outcome :=
  let imageUrl := js_or (metadata context ≫= media_url) (metadata context ≫= image_url) in
  if negb (truthy imageUrl) then
    Returns
      {| data := Some {[ "error" := VStr "No image URL provided" ]};
         next := None; confidence := None; found := None; tokensUsed := 0;
         error := Some "Missing image URL" |}
      context
  else
    let analysis := processImage ad context (default "" imageUrl) in
    if negb (a_success analysis) then
      Returns (errorResult (a_error analysis) (nat_or (Some (a_tokensUsed analysis)) 0)) context
    else
      Returns
        {| data := Some
             (set_opt "product_name" (a_product_name analysis)
                (set_opt "category" (a_category analysis)
                   (set_opt "brand" (a_brand analysis)
                      {[ "analysis" := VAnalysis analysis ]})));
           next := None; confidence := None; found := None;
           tokensUsed := nat_or (Some (a_tokensUsed analysis)) 0;
           error := None |}
        context.

(** What [VoiceProcessor.transcribe] resolves to. *)
Record Transcription := {
  tr_text : option string;
  tr_language : option string;
  tr_success : bool;
  tr_error : option string
}.

(** [VoiceProcessor.transcribe(audioUrl, language)], called while the
    context is [now]: every failure is caught. *)
Definition transcribe (ad : Adapters) (now : ExecutionContext) (audioUrl : string)
    (lang : option string) : Transcription :=
  match voice_transcribe ad now audioUrl lang with
  | Resolved t =>
    {| tr_text := t_text t; tr_language := t_language t;
       tr_success := true; tr_error := None |}
  | Rejected message =>
    {| tr_text := Some ""; tr_language := None;
       tr_success := false; tr_error := Some message |}
  end.

(** [handleSpeech]; [node.config.language] is read inside the [try]. *)
Definition handleSpeech (ad : Adapters) (node : Node) (context : ExecutionContext)
    : Outcome :=
  let audioUrl := js_or (metadata context ≫= voice_url) (metadata context ≫= audio_url) in
  if negb (truthy audioUrl) then
    Returns
      {| data := Some {[ "error" := VStr "No audio URL provided" ]};
         next := None; confidence := None; found := None; tokensUsed := 0;
         error := Some "Missing audio URL" |}
      context
  else
    match node_config node with
    | None => Returns (errorResult (Some (typeError "language")) 0) context
    | Some config =>
      let transcription :=
        transcribe ad context (default "" audioUrl)
          (if truthy (cfg_language config) then cfg_language config else None) in
      if negb (tr_success transcription) then
        Returns (errorResult (tr_error transcription) 0) context
      else
        Returns
          (plainResult
             (set_opt "text" (tr_text transcription)
                (set_opt "language" (tr_language transcription) ∅)))
          (with_transcription (tr_text transcription) context)
    end.

(** The cases of the [switch] on [node.type]; [Unknown] is its
    [default]. *)
Inductive NodeKind :=
| Trigger | Classifier | Nlp | Router | Database | Ml | Formatter | Optimizer
| Handler | Escalation | Action | Vision | Speech | Unknown.

Definition kindOf (type : string) : NodeKind :=
  if String.eqb type "trigger" then Trigger
  else if String.eqb type "classifier" then Classifier
  else if String.eqb type "nlp" then Nlp
  else if String.eqb type "router" then Router
  else if String.eqb type "database" then Database
  else if String.eqb type "ml" then Ml
  else if String.eqb type "formatter" then Formatter
  else if String.eqb type "optimizer" then Optimizer
  else if String.eqb type "handler" then Handler
  else if String.eqb type "escalation" then Escalation
  else if String.eqb type "action" then Action
  else if String.eqb type "vision" then Vision
  else if String.eqb type "speech" then Speech
  else Unknown.

(** [executeNode(node, context)]: the dispatch on [node.type]. *)
Definition executeNode (ad : Adapters) (engine : WorkflowEngine) (node : Node)
    (context : ExecutionContext) : Outcome :=
  match kindOf (node_type node) with
  | Trigger => handleTrigger node context
  | Classifier => handleClassifier node context
  | Nlp => handleNLP ad node context
  | Router => handleRouter node context
  | Database => handleDatabase ad node context
  | Ml => handleML ad node context
  | Formatter => handleFormatter ad engine node context
  | Optimizer => handleOptimizer ad node context
  | Handler => handleHandler ad engine node context
  | Escalation => handleEscalation engine node context
  | Action => handleAction engine node context
  | Vision => handleVision ad node context
  | Speech => handleSpeech ad node context
  | Unknown =>
    Returns
      {| data := lastData context; next := None; confidence := None;
         found := None; tokensUsed := 0; error := None |}
      context
  end.

(** ** The run driver *)

(** A call of [executeNode] during a run: the step result it returned,
    or the message it raised. The engine keeps no such list; the run
    state carries it so that properties of a run can count the
    dispatches. *)
Inductive Dispatch :=
| Returned (id : string) (result : StepResult)
| Raised (id : string) (message : string).

(** The state of the [while] loop of [execute]. *)
Record Run := {
  currentNode : option Node;
  context : ExecutionContext;
  dispatches : list Dispatch
}.

(** One pass through the loop body ends in [continue] (or falls off the
    end of the body), or in [break]. *)
Inductive Pass :=
| Continue (r : Run)
| Break (r : Run).

(** The entry of [workflowSteps] for a step. *)
Definition traceOf (currentNode : Node) (result : StepResult) : StepTrace :=
  {| node := node_id currentNode;
     nodeName := node_name currentNode;
     hasData := bool_decide (is_Some (data result));
     hasError := truthy (error result);
     trace_confidence := confidence result;
     trace_found := found result;
     trace_tokensUsed := tokensUsed result |}.

(** The bookkeeping of a step without error: the token counter,
    [lastResult], [allResults] and the tracked [finalResponse]. *)
Definition recordResult (result : StepResult) (c : ExecutionContext) : ExecutionContext :=
  let d := data result in
  let response :=
    js_or (get_str d "finalResponse") (js_or (get_str d "optimized") (get_str d "response")) in
  {| user_message := user_message c; metadata := metadata c; language := language c;
     messageType := messageType c; transcribed := transcribed c;
     ctx_tokensUsed := ctx_tokensUsed c + nat_or (Some (tokensUsed result)) 0;
     workflowSteps := workflowSteps c;
     errors := errors c;
     allResults := allResults c ++ [result];
     finalResponse := if truthy response then response else finalResponse c;
     visitedNodes := visitedNodes c;
     maxIterations := maxIterations c; iterationCount := iterationCount c;
     lastResult := Some result |}.

(** Where a fault sends the run:
    [visitedNodes.has('agent_escalation') ? nodes.get('response_sender')
                                          : nodes.get('agent_escalation')]. *)
Definition afterFault (engine : WorkflowEngine) (c : ExecutionContext) : option Node :=
  if bool_decide ("agent_escalation" ∈ visitedNodes c)
  then nodes engine !! "response_sender"
  else nodes engine !! "agent_escalation".

(** [workflowSteps.filter(s => s.node === currentNode.id).length] *)
Definition visitCount (c : ExecutionContext) (id : string) : nat :=
  length (List.filter (λ s, String.eqb (node s) id) (workflowSteps c)).

(** The body of the [while] loop for the node [node]. *)
Definition pass (ad : Adapters) (engine : WorkflowEngine) (node : Node)
    (c : ExecutionContext) (log : list Dispatch) : Pass :=
  let c := incrIteration c in
  if (maxIterations c <? iterationCount c)%nat then
    Break {| currentNode := Some node;
             context := pushError ("Workflow loop detected after "
                                   ++ pretty (iterationCount c) ++ " iterations") c;
             dispatches := log |}
  else if (3 <? visitCount c (node_id node))%nat then
    Break {| currentNode :=
               match nodes engine !! "response_sender" with
               | Some sender => Some sender
               | None => nodes engine !! "end"
               end;
             context := pushError ("Infinite loop detected at node " ++ node_id node) c;
             dispatches := log |}
  else
    match executeNode ad engine node c with
    | Returns result c =>
      let c := pushStep (traceOf node result) c in
      let log := (log ++ [Returned (node_id node) result])%list in
      if truthy (error result) then
        let errorMsg :=
          "Error in node " ++ node_id node ++ " (" ++ node_name node ++ "): "
          ++ default "" (error result) in
        let c := pushError errorMsg c in
        Continue {| currentNode := afterFault engine c; context := c; dispatches := log |}
      else
        let c := recordResult result c in
        Continue {| currentNode := getNextNode engine node result;
                    context := c; dispatches := log |}
    | Throws message =>
      let c := pushError ("Fatal error in " ++ node_id node ++ ": " ++ message) c in
      Continue {| currentNode := afterFault engine c; context := c;
                  dispatches := log ++ [Raised (node_id node) message] |}
    end.

(** [while (currentNode && currentNode.type !== 'end')]: the node the
    next pass runs, if the loop goes on. *)
Definition running (r : Run) : option Node :=
  match currentNode r with
  | Some n => if String.eqb (node_type n) "end" then None else Some n
  | None => None
  end.

(** The loop, for at most [fuel] passes; [None] when the passes run out
    before the loop has ended. *)
Fixpoint loop (ad : Adapters) (engine : WorkflowEngine) (fuel : nat) (r : Run)
    : option Run :=
  match running r with
  | None => Some r
  | Some n =>
    match fuel with
    | 0 => None
    | S fuel =>
      match pass ad engine n (context r) (dispatches r) with
      | Continue r' => loop ad engine fuel r'
      | Break r' => Some r'
      end
    end
  end.

(** The context [execute] starts from. *)
Definition initialContext (input : Input) : ExecutionContext :=
  {| user_message := in_user_message input; metadata := in_metadata input;
     language := in_language input;
     messageType := None; transcribed := false;
     ctx_tokensUsed := 0; workflowSteps := []; errors := []; allResults := [];
     finalResponse := None; visitedNodes := ∅;
     maxIterations := 100; iterationCount := 0;
     lastResult := None |}.

Definition initialRun (engine : WorkflowEngine) (input : Input) : Run :=
  {| currentNode := nodes engine !! "start";
     context := initialContext input;
     dispatches := [] |}.

(** The run of [execute]: one pass more than the ceiling is the most the
    loop can make, since the pass after the ceiling breaks. *)
Definition run (ad : Adapters) (engine : WorkflowEngine) (input : Input) : option Run :=
  loop ad engine (S (maxIterations (initialContext input))) (initialRun engine input).

(** [execute(context)]: the execution context after the loop. *)
Definition execute (ad : Adapters) (engine : WorkflowEngine) (input : Input)
    : option ExecutionContext :=
  context <$> run ad engine input.

(** ** The response extraction of the chat route *)

(** [POST /api/test-chat]: the text sent back for the context that
    [execute] returned. The scan over [workflowSteps] has an empty body
    and is left out. *)
Definition chatResponse (result : ExecutionContext) : string :=
  let d := lastData result in
  let response := get_str d "finalResponse" in
  let response :=
    if truthy response then response
    else
      List.find (λ r, truthy r)
        ((λ r, let rd := data r in
               js_or (get_str rd "finalResponse")
                 (js_or (get_str rd "optimized")
                    (js_or (get_str rd "response") (get_str rd "formatted"))))
           <$> reverse (allResults result)) ≫= id in
  let response :=
    if truthy response then response
    else js_or (get_str d "optimized") (js_or (get_str d "response") (get_str d "formatted")) in
  if truthy response then default "" response
  else
    match errors result with
    | first :: _ =>
      "I encountered an error: " ++ first ++ ". Please try again or contact support."
    | [] => apology
    end.

(** ** Runs *)

(** The states a run goes through: the initial one, and the one after
    each pass that did not break. *)
Inductive reachable (ad : Adapters) (engine : WorkflowEngine) (input : Input)
    : Run → Prop :=
| reachable_initial : reachable ad engine input (initialRun engine input)
| reachable_pass r n r' :
    reachable ad engine input r →
    running r = Some n →
    pass ad engine n (context r) (dispatches r) = Continue r' →
    reachable ad engine input r'.

(** The states of a run after each loop transition, the one [execute]
    returns included. *)
Definition duringRun (ad : Adapters) (engine : WorkflowEngine) (input : Input)
    (r : Run) : Prop :=
  reachable ad engine input r ∨ run ad engine input = Some r.

(** The step results the dispatcher returned, in order, and the ids of
    their nodes. *)
Definition returnedResults (log : list Dispatch) : list StepResult :=
  omap (λ d, match d with Returned _ result => Some result | Raised _ _ => None end) log.

Definition returnedIds (log : list Dispatch) : list string :=
  omap (λ d, match d with Returned id _ => Some id | Raised _ _ => None end) log.

(** The step results without error. *)
Definition withoutError (results : list StepResult) : list StepResult :=
  List.filter (λ result, negb (truthy (error result))) results.

(** The ids of the nodes dispatched, whether the call returned or
    raised. *)
Definition dispatchedIds (log : list Dispatch) : list string :=
  (λ d, match d with Returned id _ => id | Raised id _ => id end) <$> log.

(** How often [id] occurs in a list of ids. *)
Definition occurrences (id : string) (ids : list string) : nat :=
  length (List.filter (λ x, String.eqb x id) ids).

(** ** Fixtures: adapters and graphs used in the examples *)

(** Every service is down; the string built-ins return their argument. *)
Definition offline : Adapters :=
  {| nlp_complete := λ _ _ _, Rejected "connect ECONNREFUSED";
     rank_complete := λ _ _ _, Rejected "connect ECONNREFUSED";
     recommender_complete := λ _ _ _, Rejected "connect ECONNREFUSED";
     searchProducts_findMany := λ _ _ _, Rejected "connect ECONNREFUSED";
     semantic_findMany := λ _ _, Rejected "connect ECONNREFUSED";
     price_findFirst := λ _ _, Rejected "connect ECONNREFUSED";
     image_complete := λ _ _, Rejected "connect ECONNREFUSED";
     voice_transcribe := λ _ _ _, Rejected "connect ECONNREFUSED";
     lower_includes := λ _ _, false;
     str_replace := λ s _ _, s;
     squeeze_trim := λ s, s;
     str_trim := λ s, s;
     productsText := λ _, "" |}.

(** [{ next: target }] *)
Definition configNext (target : string) : Config :=
  {| cfg_next := Some target; cfg_next_high_confidence := None;
     cfg_next_low_confidence := None; cfg_next_found := None;
     cfg_next_not_found := None; cfg_fallback := None;
     cfg_classify := None; cfg_routes := None; cfg_operation := None;
     cfg_template := None; cfg_top_n := None; cfg_max_tokens := None;
     cfg_limit := None; cfg_include_context := false;
     cfg_language := None; cfg_category := None |}.

Definition mkNode (id type : string) (config : option Config) : Node :=
  {| node_id := id; node_name := id; node_type := type; node_config := config |}.

(** A text message without attachments. *)
Definition textMessage (text : string) : Input :=
  {| in_user_message := Some text;
     in_metadata := Some {| message_type := Some "text"; media_url := None;
                            image_url := None; voice_url := None; audio_url := None |};
     in_language := None |}.

(** Two trigger nodes that point at each other; no node [end]. *)
Definition twoNodeCycle : WorkflowEngine :=
  newWorkflowEngine
    {| wf_nodes := [mkNode "start" "trigger" (Some (configNext "echo"));
                    mkNode "echo" "trigger" (Some (configNext "start"))];
       wf_templates := Some ∅ |}.

(** A trigger, then the end. *)
Definition triggerOnly : WorkflowEngine :=
  newWorkflowEngine
    {| wf_nodes := [mkNode "start" "trigger" (Some (configNext "end"));
                    mkNode "end" "end" None];
       wf_templates := Some ∅ |}.

(** A vision node as entry; a text message has no image for it. *)
Definition imageOnly : WorkflowEngine :=
  newWorkflowEngine
    {| wf_nodes := [mkNode "start" "vision" (Some (configNext "end"));
                    mkNode "end" "end" None];
       wf_templates := Some ∅ |}.

(** An image check before and after the hand-over to an agent: the
    escalation node continues at a second vision node. *)
Definition imageChecks : WorkflowEngine :=
  newWorkflowEngine
    {| wf_nodes := [mkNode "start" "vision" (Some (configNext "response_sender"));
                    mkNode "agent_escalation" "escalation" (Some (configNext "photo_check"));
                    mkNode "photo_check" "vision" (Some (configNext "response_sender"));
                    mkNode "response_sender" "action" (Some (configNext "end"));
                    mkNode "end" "end" None];
       wf_templates := Some ∅ |}.

(** [{ routes, fallback }] of a router. *)
Definition configRoutes (routes : list IntentRoute) (fallback : string) : Config :=
  {| cfg_next := None; cfg_next_high_confidence := None;
     cfg_next_low_confidence := None; cfg_next_found := None;
     cfg_next_not_found := None; cfg_fallback := Some fallback;
     cfg_classify := None; cfg_routes := Some routes; cfg_operation := None;
     cfg_template := None; cfg_top_n := None; cfg_max_tokens := None;
     cfg_limit := None; cfg_include_context := false;
     cfg_language := None; cfg_category := None |}.

(** [{ template, next }] of a handler. *)
Definition configTemplate (template next : string) : Config :=
  {| cfg_next := Some next; cfg_next_high_confidence := None;
     cfg_next_low_confidence := None; cfg_next_found := None;
     cfg_next_not_found := None; cfg_fallback := None;
     cfg_classify := None; cfg_routes := None; cfg_operation := None;
     cfg_template := Some template; cfg_top_n := None; cfg_max_tokens := None;
     cfg_limit := None; cfg_include_context := false;
     cfg_language := None; cfg_category := None |}.

(** The text flow: language understanding, then a router whose
    [general_question] route and fallback lead to a clarification. *)
Definition textFlow : WorkflowEngine :=
  newWorkflowEngine
    {| wf_nodes :=
         [mkNode "start" "nlp" (Some (configNext "intent_router"));
          mkNode "intent_router" "router"
            (Some (configRoutes
                     [{| ir_intent := Some "greeting"; ir_next := Some "greeting_handler" |};
                      {| ir_intent := Some "general_question";
                         ir_next := Some "clarification_handler" |}]
                     "clarification_handler"));
          mkNode "greeting_handler" "handler"
            (Some (configTemplate "greeting" "response_sender"));
          mkNode "clarification_handler" "handler"
            (Some (configTemplate "clarification" "response_sender"));
          mkNode "agent_escalation" "escalation" (Some emptyConfig);
          mkNode "response_sender" "action" (Some (configNext "end"));
          mkNode "end" "end" None];
       wf_templates :=
         Some {[ "greeting" := TText "Hello! How can I help you?";
                 "clarification" := TText "Could you tell me your budget and area?";
                 "agent_transfer" := TText "Let me connect you to an agent." ]} |}.

(** [{ classify, next }] of a classifier. *)
Definition configClassify (classify : list ClassifyRoute) : Config :=
  {| cfg_next := None; cfg_next_high_confidence := None;
     cfg_next_low_confidence := None; cfg_next_found := None;
     cfg_next_not_found := None; cfg_fallback := None;
     cfg_classify := Some classify; cfg_routes := None; cfg_operation := None;
     cfg_template := None; cfg_top_n := None; cfg_max_tokens := None;
     cfg_limit := None; cfg_include_context := false;
     cfg_language := None; cfg_category := None |}.

(** The greeting path of the shop's flow, from the trigger to the end. *)
Definition greetingFlow : WorkflowEngine :=
  newWorkflowEngine
    {| wf_nodes :=
         [mkNode "start" "trigger" (Some (configNext "message_classifier"));
          mkNode "message_classifier" "classifier"
            (Some (configClassify
                     [{| cr_type := Some "text"; cr_next := Some "nlp_processor" |};
                      {| cr_type := Some "image"; cr_next := Some "image_analyzer" |}]));
          mkNode "nlp_processor" "nlp" (Some (configNext "intent_router"));
          mkNode "intent_router" "router"
            (Some (configRoutes
                     [{| ir_intent := Some "greeting"; ir_next := Some "greeting_handler" |}]
                     "clarification_handler"));
          mkNode "greeting_handler" "handler"
            (Some (configTemplate "greeting" "response_sender"));
          mkNode "clarification_handler" "handler"
            (Some (configTemplate "clarification" "response_sender"));
          mkNode "agent_escalation" "escalation" (Some emptyConfig);
          mkNode "response_sender" "action" (Some (configNext "end"));
          mkNode "end" "end" None];
       wf_templates :=
         Some {[ "greeting" := TText "Hello! How can I help you?";
                 "clarification" := TText "Could you tell me your budget and area?";
                 "agent_transfer" := TText "Let me connect you to an agent." ]} |}.

(** The language-understanding service answers every message with the
    intent [greeting] at confidence 0.9, for 42 tokens; the other
    services are down. *)
#[warnings="-inexact-float"]
Definition greets : Adapters :=
  {| nlp_complete := λ _ _ _,
       Resolved {| nlp_intent := Some "greeting"; nlp_entities := None;
                   nlp_confidence := Some 0.9%float;
                   nlp_requires_product_search := Some false;
                   nlp_requires_agent_escalation := Some false;
                   nlp_total_tokens := 42 |};
     rank_complete := rank_complete offline;
     recommender_complete := recommender_complete offline;
     searchProducts_findMany := searchProducts_findMany offline;
     semantic_findMany := semantic_findMany offline;
     price_findFirst := price_findFirst offline;
     image_complete := image_complete offline;
     voice_transcribe := voice_transcribe offline;
     lower_includes := lower_includes offline;
     str_replace := str_replace offline;
     squeeze_trim := squeeze_trim offline;
     str_trim := str_trim offline;
     productsText := productsText offline |}.

(** The search finds [threeBikes]; the ranking completion is down. *)
Definition searchOnly : Adapters :=
  {| nlp_complete := nlp_complete offline;
     rank_complete := rank_complete offline;
     recommender_complete := recommender_complete offline;
     searchProducts_findMany := λ _ _ _,
       Resolved [{| p_id := "p1"; p_name := "Yamaha Y15ZR"; p_brand := None;
                    p_subcategory := None; p_price := None; p_features := None;
                    p_popularity := 90; p_relevance_score := None;
                    p_reasoning := None |}];
     semantic_findMany := semantic_findMany offline;
     price_findFirst := price_findFirst offline;
     image_complete := image_complete offline;
     voice_transcribe := voice_transcribe offline;
     lower_includes := lower_includes offline;
     str_replace := str_replace offline;
     squeeze_trim := squeeze_trim offline;
     str_trim := str_trim offline;
     productsText := productsText offline |}.

(** [{ next_high_confidence, next_low_confidence }] *)
Definition configConfidence (high low : string) : Config :=
  {| cfg_next := None; cfg_next_high_confidence := Some high;
     cfg_next_low_confidence := Some low; cfg_next_found := None;
     cfg_next_not_found := None; cfg_fallback := None;
     cfg_classify := None; cfg_routes := None; cfg_operation := None;
     cfg_template := None; cfg_top_n := None; cfg_max_tokens := None;
     cfg_limit := None; cfg_include_context := false;
     cfg_language := None; cfg_category := None |}.

(** A node of [textFlow]'s graph that routes on the confidence alone. *)
Definition confidenceGate : Node :=
  mkNode "confidence_gate" "nlp"
    (Some (configConfidence "greeting_handler" "clarification_handler")).

(** [{ data: {}, tokensUsed: 0, next, confidence }] *)
Definition stepWith (explicitNext : option string) (conf : option float) : StepResult :=
  {| data := Some ∅; next := explicitNext; confidence := conf; found := None;
     tokensUsed := 0; error := None |}.

(** A trigger whose [next] names a node that does not exist. *)
Definition danglingNext : WorkflowEngine :=
  newWorkflowEngine
    {| wf_nodes := [mkNode "start" "trigger" (Some (configNext "nowhere"));
                    mkNode "end" "end" None];
       wf_templates := Some ∅ |}.

(** A row of the product table. *)
Definition bike (id name : string) (popularity : nat) : Product :=
  {| p_id := id; p_name := name; p_brand := None; p_subcategory := None;
     p_price := None; p_features := None; p_popularity := popularity;
     p_relevance_score := None; p_reasoning := None |}.

(** Three search hits, most popular first. *)
Definition threeBikes : list Product :=
  [bike "p1" "Yamaha Y15ZR" 90; bike "p2" "Honda RS150R" 70; bike "p3" "Modenas Kriss" 40].

(** [{ top_n, next }] of a ranker. *)
Definition configTopN (n : nat) (next : string) : Config :=
  {| cfg_next := Some next; cfg_next_high_confidence := None;
     cfg_next_low_confidence := None; cfg_next_found := None;
     cfg_next_not_found := None; cfg_fallback := None;
     cfg_classify := None; cfg_routes := None; cfg_operation := None;
     cfg_template := None; cfg_top_n := Some n; cfg_max_tokens := None;
     cfg_limit := None; cfg_include_context := false;
     cfg_language := None; cfg_category := None |}.

Definition bikeRanker : Node :=
  mkNode "bike_ranker" "ml" (Some (configTopN 2 "bike_response_formatter")).

(** The context after a search step that found [threeBikes]. *)
Definition afterSearch : ExecutionContext :=
  recordResult (foundResult {[ "products" := VProducts threeBikes ]} true)
    (initialContext (textMessage "bike below 5k in Puchong")).

(** A fault is a step result with an error, or a raised exception. *)
Definition isFault (d : Dispatch) : bool :=
  match d with
  | Returned _ result => truthy (error result)
  | Raised _ _ => true
  end.

(** The call raised instead of returning a step result. *)
Definition isRaised (d : Dispatch) : bool :=
  match d with
  | Returned _ _ => false
  | Raised _ _ => true
  end.

Definition dispatchedId (d : Dispatch) : string :=
  match d with
  | Returned id _ => id
  | Raised id _ => id
  end.

(** The ids of the nodes dispatched right after a fault. *)
Fixpoint faultSuccessors (log : list Dispatch) : list string :=
  match log with
  | [] => []
  | d :: rest =>
    match rest with
    | d' :: _ => if isFault d then dispatchedId d' :: faultSuccessors rest
                 else faultSuccessors rest
    | [] => []
    end
  end.

(** ** Vocabulary of the statements *)

(** The node a reference leads to: the reference is set (truthy) and a
    node has that id. *)
Definition resolves (engine : WorkflowEngine) (ref : option string) : option Node :=
  if truthy ref then nodes_get engine ref else None.

(** A reference with no node behind it, erased. *)
Definition pruneRef (engine : WorkflowEngine) (ref : option string) : option string :=
  match resolves engine ref with
  | Some _ => ref
  | None => None
  end.

(** The routing fields of a config with the unresolvable references
    erased. *)
Definition pruneConfig (engine : WorkflowEngine) (c : Config) : Config :=
  {| cfg_next := pruneRef engine (cfg_next c);
     cfg_next_high_confidence := pruneRef engine (cfg_next_high_confidence c);
     cfg_next_low_confidence := pruneRef engine (cfg_next_low_confidence c);
     cfg_next_found := pruneRef engine (cfg_next_found c);
     cfg_next_not_found := pruneRef engine (cfg_next_not_found c);
     cfg_fallback := pruneRef engine (cfg_fallback c);
     cfg_classify := cfg_classify c; cfg_routes := cfg_routes c;
     cfg_operation := cfg_operation c; cfg_template := cfg_template c;
     cfg_top_n := cfg_top_n c; cfg_max_tokens := cfg_max_tokens c;
     cfg_limit := cfg_limit c; cfg_include_context := cfg_include_context c;
     cfg_language := cfg_language c; cfg_category := cfg_category c |}.

Definition pruneNode (engine : WorkflowEngine) (n : Node) : Node :=
  {| node_id := node_id n; node_name := node_name n; node_type := node_type n;
     node_config := pruneConfig engine <$> node_config n |}.

Definition pruneResult (engine : WorkflowEngine) (r : StepResult) : StepResult :=
  {| data := data r; next := pruneRef engine (next r); confidence := confidence r;
     found := found r; tokensUsed := tokensUsed r; error := error r |}.

(** The priorities below the confidence branches: [next_found],
    [next_not_found], [fallback], and the node [end]. *)
Definition belowConfidence (engine : WorkflowEngine) (config : Config)
    (result : StepResult) : option Node :=
  let isFound := bool_decide (found result = Some true) in
  priority engine (truthy (cfg_next_found config) && isFound) (cfg_next_found config)
 (priority engine (truthy (cfg_next_not_found config) && negb isFound)
           (cfg_next_not_found config)
 (priority engine (truthy (cfg_fallback config)) (cfg_fallback config)
           (nodes engine !! "end"))).

(** The first of two candidates that is a node. *)
Definition orElse (first rest : option Node) : option Node :=
  match first with
  | Some n => Some n
  | None => rest
  end.

(** The fields of the context that the run driver owns agree. *)
Definition sameBookkeeping (c c' : ExecutionContext) : Prop :=
  ctx_tokensUsed c' = ctx_tokensUsed c ∧ workflowSteps c' = workflowSteps c
  ∧ errors c' = errors c ∧ allResults c' = allResults c
  ∧ finalResponse c' = finalResponse c ∧ visitedNodes c' = visitedNodes c
  ∧ maxIterations c' = maxIterations c ∧ iterationCount c' = iterationCount c
  ∧ lastResult c' = lastResult c.

(** What holds of a run state at every point of a run. *)
Record Invariant (r : Run) : Prop := {
  inv_steps : node <$> workflowSteps (context r) = returnedIds (dispatches r);
  inv_results : allResults (context r) = withoutError (returnedResults (dispatches r));
  inv_tokens : ctx_tokensUsed (context r) = sum_list_with tokensUsed (allResults (context r));
  inv_visited : visitedNodes (context r) = ∅;
  inv_ceiling : maxIterations (context r) = 100;
  inv_dispatches : length (dispatches r) ≤ iterationCount (context r)
                   ∧ length (dispatches r) ≤ maxIterations (context r);
  inv_visits : ∀ id, occurrences id (node <$> workflowSteps (context r)) ≤ 4;
  inv_error_tokens :
    Forall (λ result, truthy (error result) = true → tokensUsed result = 0)
           (returnedResults (dispatches r))
}.

(** The run state a pass leaves. *)
Definition stateAfter (p : Pass) : Run :=
  match p with
  | Continue r => r
  | Break r => r
  end.

(** Two products that are on sale in one town only. *)
Definition cityBikes : list Product :=
  [{| p_id := "p7"; p_name := "Honda Wave"; p_brand := Some "Honda";
      p_subcategory := None; p_price := None;
      p_features := Some {| f_model := Some "Wave 125"; f_engineSize := None;
                            f_type := None; f_locations := Some ["Puchong"] |};
      p_popularity := 80; p_relevance_score := None; p_reasoning := None |};
   {| p_id := "p8"; p_name := "Yamaha Lagenda"; p_brand := Some "Yamaha";
      p_subcategory := None; p_price := None;
      p_features := Some {| f_model := None; f_engineSize := None;
                            f_type := None; f_locations := Some ["Puchong"] |};
      p_popularity := 60; p_relevance_score := None; p_reasoning := None |}].

(** The entities of a message that names the town of Bahau. *)
Definition bahau : Entities :=
  {| e_budget := None; e_area := Some "Bahau"; e_model := None; e_brand := None;
     e_type := None; e_category := None; e_product_name := None |}.

(** The data store answers every search with [cityBikes]; the
    completions are down, and no location matches any area. *)
Definition catalogue : Adapters :=
  {| nlp_complete := nlp_complete offline;
     rank_complete := rank_complete offline;
     recommender_complete := recommender_complete offline;
     searchProducts_findMany := λ _ _ _, Resolved cityBikes;
     semantic_findMany := λ _ _, Resolved cityBikes;
     price_findFirst := price_findFirst offline;
     image_complete := image_complete offline;
     voice_transcribe := voice_transcribe offline;
     lower_includes := lower_includes offline;
     str_replace := str_replace offline;
     squeeze_trim := squeeze_trim offline;
     str_trim := str_trim offline;
     productsText := productsText offline |}.

(** A ranking entry that names a product by id, and one that names it by
    its 1-based position. *)
Definition rankedAs (id : string) (score : option float) : Ranked :=
  {| rk_id := Some id; rk_name := None; rk_index := None;
     rk_relevance_score := score; rk_reasoning := None |}.

Definition indexedAs (index : nat) (score : option float) : Ranked :=
  {| rk_id := None; rk_name := None; rk_index := Some index;
     rk_relevance_score := score; rk_reasoning := None |}.

(** A reply of the ranking completion about [threeBikes]: one entry
    names no candidate, one has no score. *)
Definition bikeReply : RankReply :=
  {| rank_products :=
       Some [rankedAs "p2" (Some 0.25%float); rankedAs "p9" (Some 1%float);
             rankedAs "p3" (Some 0.75%float); rankedAs "p1" None];
     rank_overall_reasoning := Some "Sorted by budget fit";
     rank_reasoning := None; rank_confidence := None; rank_total_tokens := 120 |}.

Definition indexReply : RankReply :=
  {| rank_products :=
       Some [indexedAs 2 (Some 0.75%float); indexedAs 1 None;
             indexedAs 7 (Some 1%float); indexedAs 3 (Some 0.625%float)];
     rank_overall_reasoning := None;
     rank_reasoning := None; rank_confidence := None; rank_total_tokens := 95 |}.

(** The data store finds [threeBikes] and both ranking completions
    answer. *)
Definition ranking : Adapters :=
  {| nlp_complete := nlp_complete offline;
     rank_complete := λ _ _ _, Resolved bikeReply;
     recommender_complete := λ _ _ _, Resolved indexReply;
     searchProducts_findMany := λ _ _ _, Resolved threeBikes;
     semantic_findMany := semantic_findMany offline;
     price_findFirst := price_findFirst offline;
     image_complete := image_complete offline;
     voice_transcribe := voice_transcribe offline;
     lower_includes := lower_includes offline;
     str_replace := str_replace offline;
     squeeze_trim := squeeze_trim offline;
     str_trim := str_trim offline;
     productsText := productsText offline |}.

(** No product is directly followed by one with a strictly higher
    score. *)
Definition byScore (l : list Product) : Prop :=
  Sorted (λ a b, PrimFloat.ltb (scoreOf a) (scoreOf b) = false) l.

(** An image message. *)
Definition imageMessage (url : string) : Input :=
  {| in_user_message := None;
     in_metadata := Some {| message_type := Some "image"; media_url := Some url;
                            image_url := None; voice_url := None; audio_url := None |};
     in_language := None |}.

(** What the image completion says of a photo of a scooter. *)
Definition scooterReply : ImageReply :=
  {| img_product_name := Some "Yamaha Y15ZR"; img_category := None;
     img_brand := Some "Yamaha"; img_total_tokens := 210 |}.

(** The image completion answers and the data store finds
    [threeBikes]. *)
Definition camera : Adapters :=
  {| nlp_complete := nlp_complete offline;
     rank_complete := rank_complete offline;
     recommender_complete := recommender_complete offline;
     searchProducts_findMany := λ _ _ _, Resolved threeBikes;
     semantic_findMany := semantic_findMany offline;
     price_findFirst := price_findFirst offline;
     image_complete := λ _ _, Resolved scooterReply;
     voice_transcribe := voice_transcribe offline;
     lower_includes := lower_includes offline;
     str_replace := str_replace offline;
     squeeze_trim := squeeze_trim offline;
     str_trim := str_trim offline;
     productsText := productsText offline |}.

(** The search terms taken from an image reply. *)
Definition searchTermsOf (reply : ImageReply) : string :=
  joinTruthy [img_product_name reply; img_category reply; img_brand reply].

(** ** The ledger of a run *)

(** The response text of a step result, as the run driver tracks it:
    [result.data?.finalResponse || result.data?.optimized ||
     result.data?.response]. *)
Definition responseOf (result : StepResult) : option string :=
  js_or (get_str (data result) "finalResponse")
    (js_or (get_str (data result) "optimized") (get_str (data result) "response")).

(** The response text of the most recent of [results] that has one. *)
Definition latestResponse (results : list StepResult) : option string :=
  List.find (λ o, truthy o) (responseOf <$> reverse results) ≫= id.

(** What a trace entry records of its step result. *)
Definition traceFacts (s : StepTrace) : bool * bool * nat * option float * option bool :=
  (hasData s, hasError s, trace_tokensUsed s, trace_confidence s, trace_found s).

Definition resultFacts (result : StepResult)
    : bool * bool * nat * option float * option bool :=
  (bool_decide (is_Some (data result)), truthy (error result), tokensUsed result,
   confidence result, found result).

(** The number of faults among the dispatches. *)
Definition faults (log : list Dispatch) : nat := length (List.filter isFault log).

(** How the context of a run state relates to the dispatches made so
    far and to the input of the run. *)
Record Ledger (input : Input) (r : Run) : Prop := {
  led_last : lastResult (context r) = last (allResults (context r));
  led_final : finalResponse (context r) = latestResponse (allResults (context r));
  led_errors : length (errors (context r)) + length (dispatches r)
               = faults (dispatches r) + iterationCount (context r);
  led_trace : traceFacts <$> workflowSteps (context r)
              = resultFacts <$> returnedResults (dispatches r);
  led_metadata : metadata (context r) = in_metadata input;
  led_language : language (context r) = in_language input;
  led_message : transcribed (context r) = false →
                user_message (context r) = in_user_message input
}.

(** ** Vocabulary of the fallbacks, the searches and the guards *)

(** No product is directly followed by a more popular one: the order of
    a query with [orderBy: { popularity: 'desc' }]. *)
Definition byPopularity (l : list Product) : Prop :=
  Sorted (λ a b, p_popularity b ≤ p_popularity a) l.

(** The callback of the area filter of [semanticProductSearch]:
    [locations.length === 0 || locations.some(loc => ...includes(area))]
    with [locations = p.features?.locations || []]. *)
Definition inArea (ad : Adapters) (area : string) (p : Product) : bool :=
  let locations := default [] (p_features p ≫= f_locations) in
  bool_decide (length locations = 0)
  || existsb (λ loc, lower_includes ad loc area) locations.





(** The chain of the resolver, priority by priority: a reference
    contributes the node it resolves to, and nothing when it is not set
    or names no node. *)
Definition resolverChain (engine : WorkflowEngine) (n : Node) (result : StepResult)
    : option Node :=
  let config := default emptyConfig (node_config n) in
  let isFound := bool_decide (found result = Some true) in
  orElse (resolves engine (next result))
 (orElse (resolves engine (cfg_next config))
 (orElse (if ge_07 (confidence result)
          then resolves engine (cfg_next_high_confidence config) else None)
 (orElse (if lt_07 (confidence result)
          then resolves engine (cfg_next_low_confidence config) else None)
 (orElse (if isFound then resolves engine (cfg_next_found config) else None)
 (orElse (if negb isFound then resolves engine (cfg_next_not_found config) else None)
 (orElse (resolves engine (cfg_fallback config))
         (nodes engine !! "end"))))))).

(** [{ next, fallback }] *)
Definition configNextFallback (next fallback : string) : Config :=
  {| cfg_next := Some next; cfg_next_high_confidence := None;
     cfg_next_low_confidence := None; cfg_next_found := None;
     cfg_next_not_found := None; cfg_fallback := Some fallback;
     cfg_classify := None; cfg_routes := None; cfg_operation := None;
     cfg_template := None; cfg_top_n := None; cfg_max_tokens := None;
     cfg_limit := None; cfg_include_context := false;
     cfg_language := None; cfg_category := None |}.

(** Two trigger nodes that point at each other, in a graph that has a
    response node and an end node. *)
Definition cycleWithSender : WorkflowEngine :=
  newWorkflowEngine
    {| wf_nodes := [mkNode "start" "trigger" (Some (configNext "echo"));
                    mkNode "echo" "trigger" (Some (configNext "start"));
                    mkNode "response_sender" "action" (Some (configNext "end"));
                    mkNode "end" "end" None];
       wf_templates := Some {[ "greeting" := TText "Hello! How can I help you?" ]} |}.

(** A voice message. *)
Definition voiceMessage (url : string) : Input :=
  {| in_user_message := None;
     in_metadata := Some {| message_type := Some "voice"; media_url := None;
                            image_url := None; voice_url := Some url; audio_url := None |};
     in_language := None |}.

(** The transcription answers; every other service is down. *)
Definition dictation : Adapters :=
  {| nlp_complete := nlp_complete offline;
     rank_complete := rank_complete offline;
     recommender_complete := recommender_complete offline;
     searchProducts_findMany := searchProducts_findMany offline;
     semantic_findMany := semantic_findMany offline;
     price_findFirst := price_findFirst offline;
     image_complete := image_complete offline;
     voice_transcribe := λ _ _ _,
       Resolved {| t_text := Some "bike below 5k"; t_language := Some "english" |};
     lower_includes := lower_includes offline;
     str_replace := str_replace offline;
     squeeze_trim := squeeze_trim offline;
     str_trim := str_trim offline;
     productsText := productsText offline |}.

(** ** The callers of the engine *)

(** [TerminalChatbot.processMessage]: the text the terminal prints for
    the context that [execute] returned. *)
Definition terminalResponse (result : ExecutionContext) : string :=
  let d := lastData result in
  default "I apologize, I couldn't process that request."
    (js_or (get_str d "finalResponse")
       (js_or (get_str d "optimized")
          (js_or (get_str d "response")
             (Some "I apologize, I couldn't process that request.")))).

(** What [ImageProcessor.searchProductsByImage] resolves to. *)
Record ImageSearch := {
  is_products : list Product;
  is_error : option string;
  is_analysis : option Analysis;
  is_searchTerms : option string
}.

(** [ImageProcessor.searchProductsByImage(imageUrl)], called while the
    context is [now]; the search is outside any [try] and uses the
    default limit of 10. *)
Definition searchProductsByImage (ad : Adapters) (now : ExecutionContext)
    (imageUrl : string) : Attempt ImageSearch :=
  let analysis := processImage ad now imageUrl in
  if negb (a_success analysis) then
    Resolved {| is_products := []; is_error := a_error analysis;
                is_analysis := None; is_searchTerms := None |}
  else
    let searchTerms :=
      joinTruthy [a_product_name analysis; a_category analysis; a_brand analysis] in
    match searchProducts ad now (Some searchTerms) 10 with
    | Rejected message => Rejected message
    | Resolved products =>
      Resolved {| is_products := products; is_error := None;
                  is_analysis := Some analysis; is_searchTerms := Some searchTerms |}
    end.

(** A message of a test session; its [timestamp] and the [debug] object
    of a bot message are left out. *)
Record ChatMessage := {
  cm_type : string;
  cm_content : option string
}.

(** A session of the test chat, without its clock fields [startTime]
    and [lastActivity]. *)
Record Session := {
  session_id : string;
  phoneNumber : string;
  messages : list ChatMessage;
  totalTokens : nat
}.

(** [req.body] of [POST /api/test-chat]. *)
Record ChatRequest := {
  rq_message : option string;
  rq_sessionId : option string;
  rq_clearSession : bool
}.

(** What [POST /api/test-chat] answers. *)
Inductive ChatReply :=
| SessionCleared (sessionId : string)
| Answered (sessionId : string) (response : string)
           (conversation : list ChatMessage) (totalMessages totalTokens : nat)
| ServerError.

(** [sessionId || `test-${Date.now()}`], with [clock] for [Date.now()]. *)
Definition currentSessionId (clock : nat) (rq : ChatRequest) : string :=
  default ("test-" ++ pretty clock)
    (js_or (rq_sessionId rq) (Some ("test-" ++ pretty clock))).

(** The context the route builds for [execute]. *)
Definition chatInput (rq : ChatRequest) : Input :=
  {| in_user_message := rq_message rq;
     in_metadata := Some {| message_type := Some "text"; media_url := None;
                            image_url := None; voice_url := None; audio_url := None |};
     in_language := None |}.

(** [sessions.get(id)], or the fresh session that the route stores when
    there is none. *)
Definition sessionOrNew (sessions : gmap string Session) (id : string) : Session :=
  match sessions !! id with
  | Some session => session
  | None => {| session_id := id; phoneNumber := "test-" ++ id;
               messages := []; totalTokens := 0 |}
  end.

(** [session.messages.push(m)] *)
Definition pushMessage (m : ChatMessage) (session : Session) : Session :=
  {| session_id := session_id session; phoneNumber := phoneNumber session;
     messages := messages session ++ [m]; totalTokens := totalTokens session |}.

(** [session.totalTokens += n] *)
Definition addTokens (n : nat) (session : Session) : Session :=
  {| session_id := session_id session; phoneNumber := phoneNumber session;
     messages := messages session; totalTokens := totalTokens session + n |}.

(** The handler of [POST /api/test-chat], on the [sessions] map: the map
    after the request, and the answer. [execute] raising is the [catch]
    of the route. *)
Definition postTestChat (ad : Adapters) (engine : WorkflowEngine) (clock : nat)
    (sessions : gmap string Session) (rq : ChatRequest)
    : gmap string Session * ChatReply :=
  let id := currentSessionId clock rq in
  if rq_clearSession rq then (delete id sessions, SessionCleared id)
  else
    let session :=
      pushMessage {| cm_type := "user"; cm_content := rq_message rq |}
        (sessionOrNew sessions id) in
    match execute ad engine (chatInput rq) with
    | None => (<[id := session]> sessions, ServerError)
    | Some result =>
      let response := chatResponse result in
      let session :=
        addTokens (nat_or (Some (ctx_tokensUsed result)) 0)
          (pushMessage {| cm_type := "bot"; cm_content := Some response |} session) in
      (<[id := session]> sessions,
       Answered id response (messages session) (length (messages session))
                (totalTokens session))
    end.

(** What [GET /api/test-chat/:sessionId] answers: the session, or
    nothing with status 404. *)
Definition getTestChat (sessions : gmap string Session) (sessionId : string)
    : option Session :=
  sessions !! sessionId.

(** What [GET /api/test-chat] answers: id, message count and tokens of
    every session, and their number. *)
Definition listTestChats (sessions : gmap string Session)
    : list (string * nat * nat) * nat :=
  let activeSessions :=
    (λ kv, (session_id kv.2, length (messages kv.2), totalTokens kv.2))
      <$> map_to_list sessions in
  (activeSessions, length activeSessions).

(** Every session is stored under its own id, as the route stores
    it. *)
Definition keyedById (sessions : gmap string Session) : Prop :=
  ∀ k s, sessions !! k = Some s → session_id s = k.

(** ** Node kinds and product ids *)

(** The node types that [executeNode] knows. *)
Definition knownTypes : list string :=
  ["trigger"; "classifier"; "nlp"; "router"; "database"; "ml"; "formatter";
   "optimizer"; "handler"; "escalation"; "action"; "vision"; "speech"].

(** The ids of the products of a list. *)
Definition productIds (l : list Product) : list string := p_id <$> l.

(** ** Properties of the handlers *)

Lemma truthy_Some_inv o : truthy o = true → ∃ s, o = Some s ∧ s ≠ "".
Proof.
  destruct o as [s|]; simpl; [|done].
  intros H. exists s. split; [done|].
  intros ->. done.
Qed.

Lemma sameBookkeeping_refl c : sameBookkeeping c c.
Proof. by repeat split. Qed.

(** No handler writes to a field that the run driver owns. *)
Lemma executeNode_bookkeeping ad engine n c result c' :
  executeNode ad engine n c = Returns result c' → sameBookkeeping c c'.
Proof.
  unfold executeNode, handleTrigger, handleClassifier, handleNLP, handleRouter,
    handleDatabase, handleML, handleFormatter, handleOptimizer, handleHandler,
    handleEscalation, handleAction, handleVision, handleSpeech.
  intros H.
  repeat case_match; simplify_eq; try apply sameBookkeeping_refl;
    by repeat split.
Qed.

(** A step result that carries an error reports no tokens: the failure
    branches of the handlers set [tokensUsed: 0], and [processImage]
    reports no tokens when it fails. *)
Lemma executeNode_error_tokens ad engine n c result c' :
  executeNode ad engine n c = Returns result c' →
  truthy (error result) = true →
  tokensUsed result = 0.
Proof.
  unfold executeNode, handleTrigger, handleClassifier, handleNLP, handleRouter,
    handleDatabase, handleML, handleFormatter, handleOptimizer, handleHandler,
    handleEscalation, handleAction, handleVision, handleSpeech,
    semanticProductSearch, getProductPrice, visualProductSearch, processImage.
  intros H He.
  repeat case_match; simplify_eq; simpl in *; try done.
Qed.

(** ** Properties of the run driver *)

Lemma returnedIds_snoc log d :
  returnedIds (log ++ [d])%list
  = (returnedIds log ++ match d with Returned id _ => [id] | Raised _ _ => [] end)%list.
Proof. unfold returnedIds. rewrite omap_app. by destruct d. Qed.

Lemma returnedResults_snoc log d :
  returnedResults (log ++ [d])%list
  = (returnedResults log ++ match d with Returned _ r => [r] | Raised _ _ => [] end)%list.
Proof. unfold returnedResults. rewrite omap_app. by destruct d. Qed.

Lemma withoutError_snoc results r :
  withoutError (results ++ [r])%list
  = (withoutError results ++ (if truthy (error r) then [] else [r]))%list.
Proof.
  unfold withoutError. rewrite List.filter_app. simpl.
  by destruct (truthy (error r)).
Qed.

Lemma occurrences_snoc id ids x :
  occurrences id (ids ++ [x])%list
  = occurrences id ids + (if String.eqb x id then 1 else 0).
Proof.
  unfold occurrences. rewrite List.filter_app, length_app. simpl.
  by destruct (String.eqb x id).
Qed.

Lemma visitCount_occurrences c id :
  visitCount c id = occurrences id (node <$> workflowSteps c).
Proof.
  unfold visitCount, occurrences.
  induction (workflowSteps c) as [|s l IH]; [done|].
  simpl. destruct (String.eqb (node s) id); simpl; by rewrite IH.
Qed.

Lemma nat_or_zero n : nat_or (Some n) 0 = n.
Proof. by destruct n. Qed.

Section Driver.
Context (ad : Adapters) (engine : WorkflowEngine).

(** From a dispatch that returned: the equations between the fields of
    the context before and after it. *)
Ltac bookkeeping He :=
  let Hb := fresh "Hb" in
  pose proof (executeNode_bookkeeping _ _ _ _ _ _ He) as Hb;
  destruct Hb as (Hb1 & Hb2 & Hb3 & Hb4 & Hb5 & Hb6 & Hb7 & Hb8 & Hb9).

(** The three ways a pass can go: a guard breaks the loop before any
    dispatch; the dispatch returns; the dispatch raises. *)
Lemma pass_cases n c log :
  let c0 := incrIteration c in
  (maxIterations c < S (iterationCount c)
   ∧ pass ad engine n c log
     = Break {| currentNode := Some n;
                context := pushError ("Workflow loop detected after "
                                      ++ pretty (iterationCount c0) ++ " iterations") c0;
                dispatches := log |})
  ∨ (S (iterationCount c) ≤ maxIterations c ∧ 3 < visitCount c (node_id n)
     ∧ pass ad engine n c log
       = Break {| currentNode :=
                    match nodes engine !! "response_sender" with
                    | Some sender => Some sender
                    | None => nodes engine !! "end"
                    end;
                  context := pushError ("Infinite loop detected at node " ++ node_id n) c0;
                  dispatches := log |})
  ∨ (S (iterationCount c) ≤ maxIterations c ∧ visitCount c (node_id n) ≤ 3
     ∧ ((∃ result c1,
           executeNode ad engine n c0 = Returns result c1
           ∧ truthy (error result) = true
           ∧ pass ad engine n c log
             = Continue
                 {| currentNode := afterFault engine c1;
                    context :=
                      pushError ("Error in node " ++ node_id n ++ " (" ++ node_name n
                                 ++ "): " ++ default "" (error result))
                        (pushStep (traceOf n result) c1);
                    dispatches := (log ++ [Returned (node_id n) result])%list |})
        ∨ (∃ result c1,
             executeNode ad engine n c0 = Returns result c1
             ∧ truthy (error result) = false
             ∧ pass ad engine n c log
               = Continue
                   {| currentNode := getNextNode engine n result;
                      context := recordResult result (pushStep (traceOf n result) c1);
                      dispatches := (log ++ [Returned (node_id n) result])%list |})
        ∨ (∃ message,
             executeNode ad engine n c0 = Throws message
             ∧ pass ad engine n c log
               = Continue
                   {| currentNode := afterFault engine c0;
                      context := pushError ("Fatal error in " ++ node_id n ++ ": " ++ message) c0;
                      dispatches := (log ++ [Raised (node_id n) message])%list |}))).
Proof.
  intros c0. unfold pass. fold c0.
  change (maxIterations c0) with (maxIterations c).
  change (iterationCount c0) with (S (iterationCount c)).
  change (visitCount c0 (node_id n)) with (visitCount c (node_id n)).
  destruct (Nat.ltb_spec (maxIterations c) (S (iterationCount c))) as [Hc|Hc].
  { left. split; [lia|done]. }
  destruct (Nat.ltb_spec 3 (visitCount c (node_id n))) as [Hv|Hv].
  { right. left. split; [lia|]. split; [lia|done]. }
  right. right. split; [lia|]. split; [lia|].
  destruct (executeNode ad engine n c0) as [result c1|message] eqn:He.
  - destruct (truthy (error result)) eqn:Ht.
    + left. by exists result, c1.
    + right. left. by exists result, c1.
  - right. right. by exists message.
Qed.

(** Every pass keeps the invariant. *)
Lemma pass_invariant n r :
  Invariant r →
  Invariant (stateAfter (pass ad engine n (context r) (dispatches r))).
Proof.
  intros [Hsteps Hresults Htokens Hvisited Hceiling [Hd1 Hd2] Hvisits Hzero].
  destruct (pass_cases n (context r) (dispatches r))
    as [[Hc ->]|[(Hc & Hv & ->)|(Hc & Hv & Hex)]]; simpl.
  - split; simpl; auto; split; lia.
  - split; simpl; auto; split; lia.
  - rewrite visitCount_occurrences in Hv.
    destruct Hex as [(result & c1 & He & Ht & ->)
                    |[(result & c1 & He & Ht & ->)|(message & He & ->)]]; simpl.
    + bookkeeping He.
      simpl in *.
      split; simpl.
      * rewrite Hb2, fmap_app, returnedIds_snoc, Hsteps. done.
      * rewrite Hb4, returnedResults_snoc, withoutError_snoc, Ht, app_nil_r. done.
      * rewrite Hb1, Hb4. done.
      * rewrite Hb6. done.
      * rewrite Hb7. done.
      * rewrite length_app, Hb8, Hb7. simpl. split; lia.
      * intros id. rewrite Hb2, fmap_app. simpl. rewrite occurrences_snoc.
        destruct (String.eqb_spec (node_id n) id) as [<-|Hne].
        -- lia.
        -- specialize (Hvisits id). lia.
      * rewrite returnedResults_snoc. apply Forall_app. split; [done|].
        apply Forall_singleton. intros Hr.
        by eapply executeNode_error_tokens.
    + bookkeeping He.
      simpl in *.
      split; simpl.
      * rewrite Hb2, fmap_app, returnedIds_snoc, Hsteps. done.
      * rewrite Hb4, returnedResults_snoc, withoutError_snoc, Ht, Hresults. done.
      * rewrite Hb1, Hb4, sum_list_with_app, Htokens. simpl.
        destruct (tokensUsed result); lia.
      * rewrite Hb6. done.
      * rewrite Hb7. done.
      * rewrite length_app, Hb8, Hb7. simpl. split; lia.
      * intros id. rewrite Hb2, fmap_app. simpl. rewrite occurrences_snoc.
        destruct (String.eqb_spec (node_id n) id) as [<-|Hne].
        -- lia.
        -- specialize (Hvisits id). lia.
      * rewrite returnedResults_snoc. apply Forall_app. split; [done|].
        apply Forall_singleton. intros Hr.
        by eapply executeNode_error_tokens.
    + split; simpl; auto.
      * rewrite returnedIds_snoc, app_nil_r. done.
      * rewrite returnedResults_snoc, app_nil_r. done.
      * rewrite length_app. simpl. split; lia.
      * rewrite returnedResults_snoc, app_nil_r. done.
Qed.

Lemma initial_invariant input : Invariant (initialRun engine input).
Proof. split; simpl; auto with lia. Qed.

Lemma reachable_invariant input r :
  reachable ad engine input r → Invariant r.
Proof.
  induction 1 as [|r n r' _ IH _ Hp]; [apply initial_invariant|].
  pose proof (pass_invariant n r IH) as Hi.
  by rewrite Hp in Hi.
Qed.

(** The state the loop returns is the state after a breaking pass from a
    reachable state, or a reachable state at which the loop condition
    fails. *)
Lemma loop_final input fuel r r' :
  reachable ad engine input r →
  loop ad engine fuel r = Some r' →
  (reachable ad engine input r' ∧ running r' = None)
  ∨ (∃ r0 n, reachable ad engine input r0 ∧ running r0 = Some n
             ∧ pass ad engine n (context r0) (dispatches r0) = Break r').
Proof.
  revert r. induction fuel as [|fuel IH]; intros r Hr; simpl.
  - destruct (running r) eqn:Hrun; [done|]. intros [= <-]. by left.
  - destruct (running r) as [n|] eqn:Hrun.
    + destruct (pass ad engine n (context r) (dispatches r)) as [r1|r1] eqn:Hp.
      * apply IH. by eapply reachable_pass.
      * intros [= <-]. right. by exists r, n.
    + intros [= <-]. by left.
Qed.

(** The invariant holds at every point of a run. *)
Lemma duringRun_invariant input r :
  duringRun ad engine input r → Invariant r.
Proof.
  intros [Hr|Hrun]; [by eapply reachable_invariant|].
  unfold run in Hrun.
  destruct (loop_final input _ _ _ (reachable_initial _ _ _) Hrun)
    as [[Hr _]|(r0 & n & Hr & _ & Hp)]; [by eapply reachable_invariant|].
  pose proof (pass_invariant n r0 (reachable_invariant _ _ Hr)) as Hi.
  by rewrite Hp in Hi.
Qed.

(** The loop ends: a state that has not passed the ceiling needs at most
    as many passes as separate it from the ceiling, and one more. *)
Lemma loop_returns fuel r :
  iterationCount (context r) ≤ maxIterations (context r) →
  S (maxIterations (context r)) ≤ fuel + iterationCount (context r) →
  is_Some (loop ad engine fuel r).
Proof.
  revert r. induction fuel as [|fuel IH]; intros r Hle Hfuel; [simpl in *; lia|].
  simpl. destruct (running r) as [n|]; [|done].
  destruct (pass_cases n (context r) (dispatches r))
    as [[Hc ->]|[(Hc & Hv & ->)|(Hc & Hv & Hex)]]; [done|done|].
  destruct Hex as [(result & c1 & He & Ht & ->)
                  |[(result & c1 & He & Ht & ->)|(message & He & ->)]].
  - bookkeeping He.
    apply IH; simpl in *; rewrite ?Hb7, ?Hb8; lia.
  - bookkeeping He.
    apply IH; simpl in *; rewrite ?Hb7, ?Hb8; lia.
  - apply IH; simpl in *; lia.
Qed.

(** [execute] returns. *)
Lemma run_returns input : is_Some (run ad engine input).
Proof. apply loop_returns; simpl; lia. Qed.

End Driver.

(** What a function of the final state evaluates to on a run. *)
Lemma run_observe {A} (f : Run → A) ad engine input r v :
  run ad engine input = Some r →
  f <$> run ad engine input = Some v →
  f r = v.
Proof. intros ->. simpl. congruence. Qed.

(** ** The next-node resolver *)

Lemma priority_resolves engine cond ref rest :
  priority engine (truthy ref && cond) ref rest
  = match (if cond then resolves engine ref else None) with
    | Some n => Some n
    | None => rest
    end.
Proof.
  unfold priority, resolves.
  destruct (truthy ref), cond; simpl; done.
Qed.

Lemma priority_resolves_plain engine ref rest :
  priority engine (truthy ref) ref rest
  = match resolves engine ref with
    | Some n => Some n
    | None => rest
    end.
Proof. unfold priority, resolves. by destruct (truthy ref). Qed.

Lemma resolves_pruneRef engine ref :
  resolves engine (pruneRef engine ref) = resolves engine ref.
Proof.
  unfold pruneRef. destruct (resolves engine ref) eqn:H; [done|].
  done.
Qed.

Lemma ge_07_boundary : ge_07 (Some c0_7) = true ∧ lt_07 (Some c0_7) = false.
Proof. split; reflexivity. Qed.

(** C6. The explicit [next] of a step result wins over every routing
    field of the node's config whenever its target exists; and at a
    confidence of exactly 0.7, with no explicit [next] and no
    [config.next] that resolves, the resolver takes the high-confidence
    branch: it returns the target of [next_high_confidence] if that
    exists, and otherwise goes on below the confidence branches without
    consulting [next_low_confidence]. *)
Theorem explicit_next_wins_and_boundary_is_high engine currentNode result :
  (∀ target,
     resolves engine (next result) = Some target →
     getNextNode engine currentNode result = Some target)
  ∧ (∀ config,
       node_config currentNode = Some config →
       resolves engine (next result) = None →
       resolves engine (cfg_next config) = None →
       truthy (cfg_next_high_confidence config) = true →
       truthy (cfg_next_low_confidence config) = true →
       confidence result = Some c0_7 →
       getNextNode engine currentNode result
       = orElse (nodes_get engine (cfg_next_high_confidence config))
                (belowConfidence engine config result)).
Proof.
  split.
  - intros target Ht. unfold getNextNode.
    rewrite priority_resolves_plain, Ht. done.
  - intros config Hc Hn Hcn Hh Hl Hconf. unfold getNextNode.
    rewrite Hc. simpl.
    rewrite !priority_resolves_plain, Hn, Hcn.
    rewrite !priority_resolves, Hconf.
    destruct ge_07_boundary as [-> ->].
    unfold resolves at 1. rewrite Hh.
    unfold orElse, belowConfidence.
    rewrite !priority_resolves, !priority_resolves_plain. done.
Qed.

Lemma explicit_next_wins_and_boundary_is_high_witness :
  getNextNode textFlow confidenceGate (stepWith (Some "agent_escalation") (Some c0_7))
  = Some (mkNode "agent_escalation" "escalation" (Some emptyConfig))
  ∧ getNextNode textFlow confidenceGate (stepWith None (Some c0_7))
    = Some (mkNode "greeting_handler" "handler"
              (Some (configTemplate "greeting" "response_sender"))).
Proof.
  split.
  - apply (proj1 (explicit_next_wins_and_boundary_is_high textFlow confidenceGate
                    (stepWith (Some "agent_escalation") (Some c0_7)))).
    vm_compute. reflexivity.
  - rewrite (proj2 (explicit_next_wins_and_boundary_is_high textFlow confidenceGate
                      (stepWith None (Some c0_7)))
               (configConfidence "greeting_handler" "clarification_handler"));
      vm_compute; reflexivity.
Defined.

(** The resolver gives the same node when every reference without a
    node behind it is erased from the config and from the step result. *)
Lemma getNextNode_prune engine currentNode result :
  getNextNode engine currentNode result
  = getNextNode engine (pruneNode engine currentNode) (pruneResult engine result).
Proof.
  unfold getNextNode, pruneNode, pruneResult. simpl.
  destruct (node_config currentNode) as [config|]; simpl.
  - rewrite !priority_resolves, !priority_resolves_plain, !resolves_pruneRef. done.
  - rewrite !priority_resolves_plain, !resolves_pruneRef. done.
Qed.

Lemma getNextNode_chain engine n result :
  getNextNode engine n result = resolverChain engine n result.
Proof.
  unfold getNextNode, resolverChain. cbv zeta.
  rewrite !priority_resolves_plain, !priority_resolves.
  unfold orElse. reflexivity.
Qed.

(** C7. The resolver walks its priorities in order and a reference that
    is not set or names no node contributes nothing: the chain goes on
    with the next priority, down to the node [end]. So the resolver
    returns what it returns once such references are erased; a node
    whose [next] names a missing node and whose [fallback] names a node
    continues at the fallback; and for a node whose only routing field is
    a [next] naming a missing node, and a step result without error and
    without explicit [next], the resolver returns the node [end]: the
    pass records no error and hands that node to the loop, which stops
    there. *)
Theorem unresolvable_references_are_skipped ad engine :
  (∀ currentNode result,
     getNextNode engine currentNode result = resolverChain engine currentNode result)
  ∧ (∀ currentNode result,
       getNextNode engine currentNode result
       = getNextNode engine (pruneNode engine currentNode) (pruneResult engine result))
  ∧ (∀ n config result target,
       node_config n = Some config →
       resolves engine (next result) = None →
       resolves engine (cfg_next config) = None →
       cfg_next_high_confidence config = None →
       cfg_next_low_confidence config = None →
       cfg_next_found config = None →
       cfg_next_not_found config = None →
       resolves engine (cfg_fallback config) = Some target →
       getNextNode engine n result = Some target)
  ∧ (∀ n config missing c log result c1,
       node_config n = Some config →
       cfg_next config = Some missing →
       nodes engine !! missing = None →
       cfg_next_high_confidence config = None →
       cfg_next_low_confidence config = None →
       cfg_next_found config = None →
       cfg_next_not_found config = None →
       cfg_fallback config = None →
       S (iterationCount c) ≤ maxIterations c →
       visitCount c (node_id n) ≤ 3 →
       executeNode ad engine n (incrIteration c) = Returns result c1 →
       truthy (error result) = false →
       next result = None →
       (∀ e, nodes engine !! "end" = Some e → node_type e = "end") →
       getNextNode engine n result = nodes engine !! "end"
       ∧ ∃ r, pass ad engine n c log = Continue r
              ∧ currentNode r = nodes engine !! "end"
              ∧ errors (context r) = errors c
              ∧ ∀ fuel, loop ad engine fuel r = Some r).
Proof.
  split; [apply getNextNode_chain|].
  split; [apply getNextNode_prune|].
  split.
  { intros n config result target Hc Hn Hcn Hh Hl Hf Hnf Hfb.
    rewrite getNextNode_chain. unfold resolverChain. rewrite Hc.
    change (default emptyConfig (Some config)) with config.
    rewrite Hn, Hcn, Hh, Hl, Hf, Hnf, Hfb. unfold resolves. simpl.
    by repeat case_match. }
  intros n config missing c log result c1 Hc Hnext Hmiss Hh Hl Hf Hnf Hfb
    Hceil Hvisit He Herr Hrn Hend.
  assert (getNextNode engine n result = nodes engine !! "end") as Hres.
  { unfold getNextNode. rewrite Hc. simpl.
    rewrite Hrn, Hnext, Hh, Hl, Hf, Hnf, Hfb. simpl.
    unfold priority, nodes_get. simpl. rewrite Hmiss. by destruct (negb _). }
  split; [done|].
  destruct (pass_cases ad engine n c log)
    as [[Hc' _]|[(_ & Hv & _)|(_ & _ & Hex)]]; [lia|lia|].
  destruct Hex as [(result' & c1' & He' & Ht & _)
                  |[(result' & c1' & He' & Ht & Hp)|(message & He' & _)]];
    rewrite He in He'; simplify_eq; [congruence|].
  eexists. split; [done|]. simpl.
  apply executeNode_bookkeeping in He as Hb.
  destruct Hb as (Hb1 & Hb2 & Hb3 & Hb4 & Hb5 & Hb6 & Hb7 & Hb8 & Hb9).
  split; [done|]. split; [by rewrite Hb3|].
  intros fuel.
  assert (running
            {| currentNode := getNextNode engine n result';
               context := recordResult result' (pushStep (traceOf n result') c1');
               dispatches := (log ++ [Returned (node_id n) result'])%list |} = None) as Hrun.
  { unfold running. simpl. rewrite Hres.
    destruct (nodes engine !! "end") as [e|] eqn:Hlook; [|done].
    by rewrite (Hend e eq_refl). }
  destruct fuel; simpl; by rewrite Hrun.
Qed.

Lemma unresolvable_references_are_skipped_witness :
  (getNextNode danglingNext (mkNode "start" "trigger" (Some (configNext "nowhere")))
     (plainResult (<["message" := VStr "hello"]>
                     {[ "metadata" := VMetadata (in_metadata (textMessage "hello")) ]}))
   = Some (mkNode "end" "end" None)
   ∧ ∃ r, pass offline danglingNext (mkNode "start" "trigger" (Some (configNext "nowhere")))
            (initialContext (textMessage "hello")) [] = Continue r
          ∧ currentNode r = Some (mkNode "end" "end" None)
          ∧ errors (context r) = []
          ∧ ∀ fuel, loop offline danglingNext fuel r = Some r)
  ∧ getNextNode textFlow
      (mkNode "start" "trigger"
         (Some (configNextFallback "nowhere" "clarification_handler")))
      (stepWith (Some "nowhere_else") (Some c0_7))
    = Some (mkNode "clarification_handler" "handler"
              (Some (configTemplate "clarification" "response_sender"))).
Proof.
  split.
  - apply (proj2 (proj2 (proj2 (unresolvable_references_are_skipped offline danglingNext)))
             (mkNode "start" "trigger" (Some (configNext "nowhere")))
             (configNext "nowhere") "nowhere"
             (initialContext (textMessage "hello")) []
             (plainResult (<["message" := VStr "hello"]>
                             {[ "metadata" := VMetadata (in_metadata (textMessage "hello")) ]}))
             (incrIteration (initialContext (textMessage "hello"))));
      try (vm_compute; reflexivity); try (vm_compute; lia).
    intros e. vm_compute. intros [= <-]. reflexivity.
  - apply (proj1 (proj2 (proj2 (unresolvable_references_are_skipped offline textFlow)))
             (mkNode "start" "trigger"
                (Some (configNextFallback "nowhere" "clarification_handler")))
             (configNextFallback "nowhere" "clarification_handler"));
      vm_compute; reflexivity.
Defined.

(** C10. When the step result carries no confidence, both comparisons
    with 0.7 are false and the resolver takes neither confidence branch:
    after the explicit [next] and [config.next] it goes on below the
    confidence branches. With no other routing field than the two
    confidence branches and no explicit [next], it returns the node
    [end]. *)
Theorem undefined_confidence_takes_neither_branch engine currentNode config result :
  node_config currentNode = Some config →
  truthy (cfg_next_high_confidence config) = true →
  truthy (cfg_next_low_confidence config) = true →
  confidence result = None →
  ge_07 (confidence result) = false
  ∧ lt_07 (confidence result) = false
  ∧ getNextNode engine currentNode result
    = orElse (resolves engine (next result))
        (orElse (resolves engine (cfg_next config))
           (belowConfidence engine config result))
  ∧ (next result = None → cfg_next config = None →
     cfg_next_found config = None → cfg_next_not_found config = None →
     cfg_fallback config = None →
     getNextNode engine currentNode result = nodes engine !! "end").
Proof.
  intros Hc Hh Hl Hconf. rewrite Hconf.
  split; [done|]. split; [done|].
  assert (getNextNode engine currentNode result
          = orElse (resolves engine (next result))
              (orElse (resolves engine (cfg_next config))
                 (belowConfidence engine config result))) as Heq.
  { unfold getNextNode. rewrite Hc, Hconf. simpl.
    rewrite !andb_false_r. unfold orElse, belowConfidence.
    rewrite !priority_resolves_plain.
    unfold priority at 1 2. done. }
  split; [done|].
  intros Hn Hcn Hf Hnf Hfb. rewrite Heq.
  unfold belowConfidence. rewrite Hn, Hcn, Hf, Hnf, Hfb. done.
Qed.

Lemma undefined_confidence_takes_neither_branch_witness :
  getNextNode textFlow confidenceGate (stepWith None None)
  = Some (mkNode "end" "end" None).
Proof.
  pose proof (undefined_confidence_takes_neither_branch textFlow confidenceGate
                (configConfidence "greeting_handler" "clarification_handler")
                (stepWith None None) eq_refl eq_refl eq_refl eq_refl)
    as (_ & _ & _ & H).
  rewrite H; reflexivity.
Defined.

(** ** The execution context during and after a run *)

Lemma returned_lengths log :
  length (returnedIds log) = length (returnedResults log).
Proof.
  induction log as [|[id result|id message] log IH]; [done| |done].
  change (S (length (returnedIds log)) = S (length (returnedResults log))).
  by rewrite IH.
Qed.

Lemma returnedResults_length log :
  length (returnedResults log) ≤ length log.
Proof.
  induction log as [|[id result|id message] log IH]; [done| |].
  - change (S (length (returnedResults log)) ≤ S (length log)). lia.
  - change (length (returnedResults log) ≤ S (length log)). lia.
Qed.

Lemma withoutError_length results :
  length (withoutError results) ≤ length results.
Proof. unfold withoutError. apply List.filter_length_le. Qed.

Lemma withoutError_tokens results :
  Forall (λ result, truthy (error result) = true → tokensUsed result = 0) results →
  sum_list_with tokensUsed (withoutError results) = sum_list_with tokensUsed results.
Proof.
  unfold withoutError.
  induction 1 as [|result results Hzero _ IH]; [done|].
  simpl. destruct (truthy (error result)); simpl.
  - rewrite Hzero by done. done.
  - by rewrite IH.
Qed.

(** C9. When a run ends, the token counter of the execution context is
    the sum of [tokensUsed] over all the step results the dispatcher
    returned during the run, those with an error included (such a result
    reports no tokens). *)
Theorem tokens_used_is_sum_of_step_tokens ad engine input :
  ∃ r, run ad engine input = Some r
       ∧ execute ad engine input = Some (context r)
       ∧ ctx_tokensUsed (context r)
         = sum_list_with tokensUsed (returnedResults (dispatches r)).
Proof.
  destruct (run_returns ad engine input) as [r Hrun].
  exists r. split; [done|]. split; [unfold execute; by rewrite Hrun|].
  assert (Invariant r) as Hinv by (apply (duringRun_invariant ad engine input); by right).
  rewrite (inv_tokens r Hinv), (inv_results r Hinv).
  apply withoutError_tokens, (inv_error_tokens r Hinv).
Qed.

(** C3, as the code has it. At every point of a run, [workflowSteps] has
    one entry per dispatch that returned a step result, with or without
    error, and [allResults] has one entry per dispatch that returned a
    step result without error; so [allResults] is never longer than
    [workflowSteps]. A dispatch that raised is in neither list. *)
Theorem results_count_error_free_steps ad engine input r :
  duringRun ad engine input r →
  length (workflowSteps (context r)) = length (returnedResults (dispatches r))
  ∧ allResults (context r) = withoutError (returnedResults (dispatches r))
  ∧ length (allResults (context r)) ≤ length (workflowSteps (context r))
  ∧ length (workflowSteps (context r)) ≤ length (dispatches r).
Proof.
  intros Hr. apply duringRun_invariant in Hr as Hinv.
  assert (length (workflowSteps (context r)) = length (returnedResults (dispatches r)))
    as Hlen.
  { rewrite <- returned_lengths, <- (inv_steps r Hinv). by rewrite length_fmap. }
  split; [done|]. split; [apply (inv_results r Hinv)|].
  split.
  - rewrite Hlen, (inv_results r Hinv). apply withoutError_length.
  - rewrite Hlen. apply returnedResults_length.
Qed.

(** ** The fallback of the ranker *)

(** The recommender when its ranking completion fails: nothing is
    recommended, the first 3 candidates are offered as fallback. *)
Lemma recommend_outage ad now query products :
  searchProducts_findMany ad now query 10 = Resolved products →
  products ≠ [] →
  (∀ reply, recommender_complete ad now query products = Resolved reply →
            rank_products reply = None) →
  recommend ad now (Some query)
  = Resolved
      {| rec_products := [];
         rec_confidence := c0_5;
         rec_reasoning := "I found products, but none are highly relevant to your query. Would you like to see them anyway, or refine your search?";
         rec_fallbackProducts :=
           Some (scored c0_5 "Fallback ranking by popularity" <$> take 3 products) |}.
Proof.
  intros Hsearch Hne Hdown. unfold recommend, searchProducts. rewrite Hsearch.
  rewrite bool_decide_eq_false_2 by (by destruct products).
  change (default "" (Some query)) with query.
  assert (rankProducts ad now query products
          = {| ranking_products :=
                 scored c0_5 "Fallback ranking by popularity" <$> take 3 products;
               ranking_confidence := c0_5;
               ranking_reasoning := "Used fallback ranking method";
               ranking_tokensUsed := Some 0 |}) as ->.
  { unfold rankProducts. rewrite bool_decide_eq_false_2 by (by destruct products).
    destruct (recommender_complete ad now query products) as [reply|]; [|done].
    by rewrite (Hdown reply eq_refl). }
  cbn [ranking_products ranking_confidence ranking_reasoning].
  assert (∀ l : list Product,
            List.filter (λ p, match p_relevance_score p with
                              | Some score => PrimFloat.leb c0_6 score
                              | None => false
                              end)
                        (scored c0_5 "Fallback ranking by popularity" <$> l) = []) as ->.
  { induction l as [|x l IH]; [done|]. rewrite fmap_cons. simpl.
    change (PrimFloat.leb c0_6 c0_5) with false. exact IH. }
  rewrite bool_decide_eq_true_2 by done.
  by rewrite <- fmap_take, take_take.
Qed.


Lemma Sorted_take {A} (R : A → A → Prop) n (l : list A) :
  Sorted R l → Sorted R (take n l).
Proof.
  revert n. induction l as [|x l IH]; intros [|n] Hs; simpl; try constructor.
  - apply IH. by inversion Hs.
  - inversion Hs as [|? ? _ Hhd]; subst.
    destruct l as [|y l'], n as [|n']; simpl; constructor. by inversion Hhd.
Qed.

Lemma byPopularity_scored score reason l :
  byPopularity l → byPopularity (scored score reason <$> l).
Proof.
  unfold byPopularity. induction 1 as [|x l _ IH Hhd]; [constructor|].
  rewrite fmap_cons. constructor; [done|].
  destruct Hhd; [constructor|]. rewrite fmap_cons. by constructor.
Qed.

(** C8, as the code has it. When the ranking call of a ranker node
    ([bike_ranker], [product_ranker]) fails on a non-empty candidate
    list, the step still returns a result without error: the first
    [top_n] (default 5) candidates in the order in which the previous
    step stored them, with confidence 0.5 and the reasoning
    [Fallback ranking by popularity]. The handler does not sort: the
    result is in popularity order when the stored candidates are.
    [rankProducts] of the recommender has the same fallback, cut to 3 and
    scored 0.5; but the step of the node [product_recommender] then
    returns no products, because [recommend] drops the scores below 0.6:
    the first 3 candidates are only offered under [fallbackProducts]. *)
Theorem ranker_falls_back_to_stored_order ad c message :
  (∀ n config products,
     node_id n = "bike_ranker" ∨ node_id n = "product_ranker" →
     node_config n = Some config →
     get_products (lastData c) = Some products →
     products ≠ [] →
     rank_complete ad n products c = Rejected message →
     (∃ result,
        handleML ad n c = Returns result c
        ∧ data result
          = Some {[ "products" := VProducts (take (nat_or (cfg_top_n config) 5) products);
                    "reasoning" := VStr "Fallback ranking by popularity" ]}
        ∧ confidence result = Some c0_5
        ∧ tokensUsed result = 0
        ∧ error result = None)
     ∧ (∀ now query,
          recommender_complete ad now query products = Rejected message →
          rankProducts ad now query products
          = {| ranking_products :=
                 scored c0_5 "Fallback ranking by popularity" <$> take 3 products;
               ranking_confidence := c0_5;
               ranking_reasoning := "Used fallback ranking method";
               ranking_tokensUsed := Some 0 |})
     ∧ (byPopularity products →
        byPopularity (take (nat_or (cfg_top_n config) 5) products)
        ∧ byPopularity (scored c0_5 "Fallback ranking by popularity" <$> take 3 products)))
  ∧ (∀ recommender query candidates,
       node_id recommender = "product_recommender" →
       user_message c = Some query →
       searchProducts_findMany ad c query 10 = Resolved candidates →
       candidates ≠ [] →
       recommender_complete ad c query candidates = Rejected message →
       handleML ad recommender c
       = Returns
           {| data := Some
                (<["fallbackProducts" :=
                     VProducts (scored c0_5 "Fallback ranking by popularity"
                                  <$> take 3 candidates)]>
                   {[ "products" := VProducts [];
                      "reasoning" := VStr "I found products, but none are highly relevant to your query. Would you like to see them anyway, or refine your search?" ]});
              next := None; confidence := Some c0_5; found := None;
              tokensUsed := 0; error := None |}
           c).
Proof.
  split.
  - intros n config products Hid Hc Hp Hne Hrank. split; [|split].
    + exists (rankerFallback config products).
      split; [|by repeat split].
      unfold handleML. rewrite Hp, Hc. simpl. rewrite Hrank.
      assert (String.eqb (node_id n) "product_recommender" = false) as ->.
      { by destruct Hid as [-> | ->]. }
      assert (String.eqb (node_id n) "bike_ranker"
              || String.eqb (node_id n) "product_ranker" = true) as ->.
      { by destruct Hid as [-> | ->]. }
      rewrite bool_decide_eq_false_2; [done|].
      by destruct products.
    + intros now query Hq. unfold rankProducts. rewrite Hq.
      rewrite bool_decide_eq_false_2; [done|].
      by destruct products.
    + intros Hpop. split.
      * by apply Sorted_take.
      * by apply byPopularity_scored, Sorted_take.
  - intros recommender query candidates Hrid Hmsg Hsearch Hcne Hdown.
    unfold handleML. rewrite Hrid, Hmsg.
    change (String.eqb "product_recommender" "product_recommender") with true.
    cbv iota.
    rewrite (recommend_outage ad c query candidates Hsearch Hcne).
    + reflexivity.
    + intros reply Hreply. congruence.
Qed.

Lemma ranker_falls_back_to_stored_order_witness :
  (∃ result,
     handleML offline bikeRanker afterSearch = Returns result afterSearch
     ∧ data result
       = Some {[ "products" := VProducts [bike "p1" "Yamaha Y15ZR" 90; bike "p2" "Honda RS150R" 70];
                 "reasoning" := VStr "Fallback ranking by popularity" ]}
     ∧ confidence result = Some c0_5
     ∧ tokensUsed result = 0
     ∧ error result = None)
  ∧ byPopularity [bike "p1" "Yamaha Y15ZR" 90; bike "p2" "Honda RS150R" 70].
Proof.
  pose proof (proj1 (ranker_falls_back_to_stored_order offline afterSearch
                       "connect ECONNREFUSED")
                bikeRanker (configTopN 2 "bike_response_formatter") threeBikes
                (or_introl eq_refl) eq_refl eq_refl ltac:(discriminate) eq_refl)
    as (Hstep & _ & Hpop).
  split; [exact Hstep|].
  apply Hpop. unfold byPopularity, threeBikes. repeat constructor; simpl; lia.
Defined.

(** C8 does not hold for the ML node [product_recommender]: the search
    finds a candidate and the ranking completion fails, yet the step
    returns no products; the candidate is only offered as a fallback. *)
Lemma recommender_step_returns_no_candidates :
  searchProducts_findMany searchOnly (initialContext (textMessage "yamaha")) "yamaha" 10
  = Resolved [bike "p1" "Yamaha Y15ZR" 90]
  ∧ recommender_complete searchOnly (initialContext (textMessage "yamaha")) "yamaha"
      [bike "p1" "Yamaha Y15ZR" 90]
    = Rejected "connect ECONNREFUSED"
  ∧ ∃ result,
      handleML searchOnly (mkNode "product_recommender" "ml" (Some emptyConfig))
        (initialContext (textMessage "yamaha"))
      = Returns result (initialContext (textMessage "yamaha"))
      ∧ get_products (data result) = Some []
      ∧ confidence result = Some c0_5
      ∧ error result = None.
Proof.
  split; [reflexivity|]. split; [reflexivity|].
  eexists. split; [reflexivity|]. vm_compute. done.
Qed.

Lemma results_count_error_free_steps_witness :
  ∃ r, run offline imageChecks (textMessage "hello") = Some r
       ∧ length (workflowSteps (context r)) = length (returnedResults (dispatches r))
       ∧ allResults (context r) = withoutError (returnedResults (dispatches r))
       ∧ length (allResults (context r)) ≤ length (workflowSteps (context r))
       ∧ length (workflowSteps (context r)) ≤ length (dispatches r).
Proof.
  destruct (run_returns offline imageChecks (textMessage "hello")) as [r Hrun].
  exists r. split; [done|].
  apply (results_count_error_free_steps offline imageChecks (textMessage "hello")).
  by right.
Defined.

(** C3 does not hold as stated: a vision node that gets a text message
    returns a step result with an error; the step is dispatched and
    traced, and [allResults] stays empty. *)
Lemma error_step_is_traced_but_not_stored :
  ¬ (∀ r, duringRun offline imageOnly (textMessage "hello") r →
          length (allResults (context r)) = length (dispatches r)
          ∧ length (workflowSteps (context r)) ≤ length (allResults (context r))).
Proof.
  intros H.
  destruct (run_returns offline imageOnly (textMessage "hello")) as [r Hrun].
  destruct (H r (or_intror Hrun)) as [Hlen _].
  assert ((length (allResults (context r)), length (dispatches r)) = (0, 1)) as Hobs.
  { apply (run_observe (λ r, (length (allResults (context r)), length (dispatches r)))
             _ _ _ _ _ Hrun).
    vm_compute. reflexivity. }
  injection Hobs as Ha Hd. lia.
Qed.

(** ** The guards *)

Lemma length_le_occurrences (k : nat) (ids l : list string) :
  (∀ x, x ∈ l → x ∈ ids) →
  (∀ id, occurrences id l ≤ k) →
  length l ≤ k * length ids.
Proof.
  revert l. induction ids as [|a ids IH]; intros l Hin Hocc.
  - destruct l as [|x l]; [simpl; lia|].
    specialize (Hin x (list_elem_of_here _ _)). by apply elem_of_nil in Hin.
  - pose proof (List.filter_length (λ x, String.eqb x a) l) as Hsplit.
    specialize (Hocc a) as Ha. unfold occurrences in Ha.
    assert (length (List.filter (λ x, negb (String.eqb x a)) l) ≤ k * length ids) as Hrest.
    { apply IH.
      - intros x Hx. apply list_elem_of_In, List.filter_In in Hx as [Hx Hne].
        apply list_elem_of_In, Hin in Hx.
        apply elem_of_cons in Hx as [->|Hx]; [|done].
        by rewrite String.eqb_refl in Hne.
      - intros id. specialize (Hocc id). unfold occurrences in *.
        etrans; [|apply Hocc].
        clear. induction l as [|x l IHl]; [done|].
        simpl. destruct (String.eqb x a); simpl;
          destruct (String.eqb x id); simpl; lia. }
    simpl. lia.
Qed.

Lemma returnedIds_all_returned log :
  (∀ d, d ∈ log → isRaised d = false) →
  returnedIds log = dispatchedId <$> log.
Proof.
  induction log as [|d log IH]; intros Hall; [done|].
  assert (returnedIds log = dispatchedId <$> log) as IH'.
  { apply IH. intros d' Hd'. apply Hall. by right. }
  specialize (Hall d (list_elem_of_here _ _)).
  destruct d as [id result|id message]; [|done].
  change (id :: returnedIds log = id :: (dispatchedId <$> log)).
  by rewrite IH'.
Qed.

(** The repeated-visit guard. Before a dispatch the loop counts the
    entries of the step trace with the id of the current node; when
    there are more than 3 it records an error, sets the current node to
    [response_sender] (to [end] if there is none) and leaves the loop
    without dispatching. So an id occurs at most 4 times in the trace,
    and a run whose dispatches all return a step result and stay on a
    cycle of [k] nodes makes at most [(3 + 1) * k] dispatches. *)
Theorem repeated_visit_guard ad engine :
  (∀ n c log,
     S (iterationCount c) ≤ maxIterations c →
     3 < visitCount c (node_id n) →
     pass ad engine n c log
     = Break {| currentNode :=
                  orElse (nodes engine !! "response_sender") (nodes engine !! "end");
                context := pushError ("Infinite loop detected at node " ++ node_id n)
                             (incrIteration c);
                dispatches := log |})
  ∧ (∀ input r,
       duringRun ad engine input r →
       (∀ id, visitCount (context r) id ≤ 4)
       ∧ ∀ cycle,
           (∀ d, d ∈ dispatches r → isRaised d = false ∧ dispatchedId d ∈ cycle) →
           length (dispatches r) ≤ (3 + 1) * length cycle).
Proof.
  split.
  - intros n c log Hceil Hvisit.
    destruct (pass_cases ad engine n c log)
      as [[Hc' _]|[(_ & _ & ->)|(_ & Hv & _)]]; [lia|done|lia].
  - intros input r Hr. apply duringRun_invariant in Hr as Hinv.
    split.
    + intros id. rewrite visitCount_occurrences. apply (inv_visits r Hinv).
    + intros cycle Hall.
      assert (returnedIds (dispatches r) = dispatchedId <$> dispatches r) as Hids.
      { apply returnedIds_all_returned. intros d Hd. by apply Hall. }
      rewrite <- (length_fmap dispatchedId), <- Hids.
      apply length_le_occurrences.
      * intros x Hx. rewrite Hids in Hx.
        apply list_elem_of_fmap in Hx as (d & -> & Hd). by apply Hall.
      * intros id. rewrite <- (inv_steps r Hinv). apply (inv_visits r Hinv).
Qed.

Lemma repeated_visit_guard_witness :
  ∃ r, run offline twoNodeCycle (textMessage "hello") = Some r
       ∧ length (dispatches r) ≤ (3 + 1) * length ["start"; "echo"].
Proof.
  destruct (run_returns offline twoNodeCycle (textMessage "hello")) as [r Hrun].
  exists r. split; [done|].
  apply (proj2 (repeated_visit_guard offline twoNodeCycle) (textMessage "hello") r
           (or_intror Hrun)).
  assert (forallb (λ d, negb (isRaised d)
                        && bool_decide (dispatchedId d ∈ ["start"; "echo"]))
                  (dispatches r) = true) as Hall.
  { apply (run_observe
             (λ r, forallb (λ d, negb (isRaised d)
                                 && bool_decide (dispatchedId d ∈ ["start"; "echo"]))
                           (dispatches r))
             _ _ _ _ _ Hrun).
    vm_compute. reflexivity. }
  intros d Hd. apply list_elem_of_In in Hd.
  apply (proj1 (List.forallb_forall _ _) Hall) in Hd.
  apply andb_prop in Hd as [Hf Hc].
  split; [by apply negb_true_iff|by apply bool_decide_eq_true in Hc].
Defined.

(** The bound [threshold * cycle-length] does not hold: on a
    cycle of two trigger nodes the guard lets each node be dispatched 4
    times, 8 dispatches in all. *)
Lemma two_node_cycle_exceeds_six_dispatches :
  ¬ (∀ r, run offline twoNodeCycle (textMessage "hello") = Some r →
          length (dispatches r) ≤ 3 * 2).
Proof.
  intros H.
  destruct (run_returns offline twoNodeCycle (textMessage "hello")) as [r Hrun].
  specialize (H r Hrun).
  assert (length (dispatches r) = 8) as Hobs.
  { apply (run_observe (λ r, length (dispatches r)) _ _ _ _ _ Hrun).
    vm_compute. reflexivity. }
  lia.
Qed.

(** C5. The guard does not jump to the response node. On a cycle of two
    trigger nodes, in a graph that has a node [response_sender], each
    node of the cycle is dispatched 4 times (8 dispatches, not
    [3 * 2]); then the guard records its error, assigns
    [response_sender] to the current node and leaves the loop with
    [break]: the assigned node is never dispatched, the context has no
    [finalResponse], and the chat route answers with the error text. *)
Theorem guard_trip_never_dispatches_the_response_node :
  ∃ r sender,
    run offline cycleWithSender (textMessage "hello") = Some r
    ∧ dispatchedIds (dispatches r)
      = ["start"; "echo"; "start"; "echo"; "start"; "echo"; "start"; "echo"]
    ∧ nodes cycleWithSender !! "response_sender" = Some sender
    ∧ node_type sender = "action"
    ∧ currentNode r = Some sender
    ∧ ¬ ("response_sender" ∈ dispatchedIds (dispatches r))
    ∧ finalResponse (context r) = None
    ∧ errors (context r) = ["Infinite loop detected at node start"]
    ∧ chatResponse (context r)
      = "I encountered an error: Infinite loop detected at node start. Please try again or contact support.".
Proof.
  destruct (run_returns offline cycleWithSender (textMessage "hello")) as [r Hrun].
  exists r, (mkNode "response_sender" "action" (Some (configNext "end"))).
  split; [exact Hrun|].
  assert (dispatchedIds (dispatches r)
          = ["start"; "echo"; "start"; "echo"; "start"; "echo"; "start"; "echo"]) as Hids.
  { apply (run_observe (λ r, dispatchedIds (dispatches r)) _ _ _ _ _ Hrun).
    vm_compute. reflexivity. }
  split; [exact Hids|].
  split; [vm_compute; reflexivity|]. split; [reflexivity|].
  split.
  { apply (run_observe currentNode _ _ _ _ _ Hrun). vm_compute. reflexivity. }
  split.
  { rewrite Hids. intros Hin.
    repeat (apply elem_of_cons in Hin as [Hin|Hin]; [discriminate Hin|]).
    by apply elem_of_nil in Hin. }
  split.
  { apply (run_observe (λ r, finalResponse (context r)) _ _ _ _ _ Hrun).
    vm_compute. reflexivity. }
  split.
  { apply (run_observe (λ r, errors (context r)) _ _ _ _ _ Hrun).
    vm_compute. reflexivity. }
  apply (run_observe (λ r, chatResponse (context r)) _ _ _ _ _ Hrun).
  vm_compute. reflexivity.
Qed.

(** ** Faults *)

(** No step of the engine adds to [visitedNodes], so the test
    [visitedNodes.has('agent_escalation')] fails at every point of every
    run and each fault sends the run to [agent_escalation]. *)
Lemma fault_always_routes_to_escalation ad engine input r :
  duringRun ad engine input r →
  visitedNodes (context r) = ∅
  ∧ afterFault engine (context r) = nodes engine !! "agent_escalation".
Proof.
  intros Hr. apply duringRun_invariant in Hr as Hinv.
  pose proof (inv_visited r Hinv) as Hv.
  split; [done|]. unfold afterFault. rewrite Hv.
  rewrite bool_decide_eq_false_2; [done|]. set_solver.
Qed.

(** C1 on the graph [imageChecks] and a text message: both vision nodes
    return an error, and after each of these faults the run goes to
    [agent_escalation] again, until the repeated-visit guard stops it.
    The second and later faults do not go to [response_sender]. *)
Theorem escalation_is_entered_after_each_fault :
  (λ r, (dispatchedIds (dispatches r), faultSuccessors (dispatches r)))
    <$> run offline imageChecks (textMessage "hello")
  = Some (["start"; "agent_escalation"; "photo_check"; "agent_escalation";
           "photo_check"; "agent_escalation"; "photo_check"; "agent_escalation";
           "photo_check"],
          ["agent_escalation"; "agent_escalation"; "agent_escalation";
           "agent_escalation"]).
Proof. vm_compute. reflexivity. Qed.

(** ** The result of a run *)

Lemma truthy_default o : truthy o = true → default "" o ≠ "".
Proof. intros (s & -> & Hs)%truthy_Some_inv. done. Qed.

(** The chat route always has a text to send. *)
Lemma chatResponse_nonempty c : chatResponse c ≠ "".
Proof.
  unfold chatResponse.
  match goal with |- (if truthy ?x then _ else _) ≠ _ => destruct (truthy x) eqn:Ht end.
  - by apply truthy_default.
  - destruct (errors c); done.
Qed.

(** What [handleAction] returns has a non-empty [finalResponse]. *)
Lemma handleAction_finalResponse engine n c result c' :
  handleAction engine n c = Returns result c' →
  truthy (get_str (data result) "finalResponse") = true.
Proof.
  unfold handleAction. cbv zeta.
  set (response := if truthy (responseIn (lastData c)) then responseIn (lastData c)
                   else scanResults (allResults c)).
  destruct (truthy response) eqn:Ht.
  - intros [= <- <-]. simpl.
    destruct response as [s|]; [|done].
    unfold set_opt. by rewrite lookup_insert_eq.
  - destruct (templates engine) as [tpls|]; [|done].
    intros [= <- <-]. unfold plainResult, get_str; cbn [data].
    rewrite lookup_singleton_eq.
    match goal with |- truthy (Some (if negb (String.eqb ?t "") then _ else _)) = true =>
      destruct (String.eqb t "") eqn:Ht2 end; simpl; [done|by rewrite Ht2].
Qed.

(** ** Failure of the language-understanding call *)

(** C4, as the code has it. When the completion of an NLP node fails,
    [handleNLP] does not raise: it returns the degraded result with
    intent [general_question], confidence 0.3 and the message of the
    failure as [error]. The run driver treats that error as a fault: it
    records it, does not store the result ([lastResult] and [allResults]
    are unchanged), and continues at [agent_escalation], not at the
    node the resolver would choose. *)
Theorem nlp_failure_degrades_and_escalates ad engine input r n text message :
  reachable ad engine input r →
  running r = Some n →
  kindOf (node_type n) = Nlp →
  is_Some (node_config n) →
  S (iterationCount (context r)) ≤ maxIterations (context r) →
  visitCount (context r) (node_id n) ≤ 3 →
  js_or (user_message (context r)) (get_str (lastData (context r)) "message") = Some text →
  text ≠ "" →
  nlp_complete ad n text (incrIteration (context r)) = Rejected message →
  message ≠ "" →
  executeNode ad engine n (incrIteration (context r))
  = Returns (nlpFallback message) (incrIteration (context r))
  ∧ get_str (data (nlpFallback message)) "intent" = Some "general_question"
  ∧ confidence (nlpFallback message) = Some c0_3
  ∧ error (nlpFallback message) = Some message
  ∧ ∃ r', pass ad engine n (context r) (dispatches r) = Continue r'
          ∧ currentNode r' = nodes engine !! "agent_escalation"
          ∧ lastResult (context r') = lastResult (context r)
          ∧ allResults (context r') = allResults (context r)
          ∧ errors (context r')
            = (errors (context r)
               ++ [("Error in node " ++ node_id n ++ " (" ++ node_name n ++ "): "
                    ++ message)%string])%list.
Proof.
  intros Hr Hrun Hkind [config Hc] Hceil Hvisit Hmsg Htext Hnlp Hmessage.
  assert (executeNode ad engine n (incrIteration (context r))
          = Returns (nlpFallback message) (incrIteration (context r))) as He.
  { unfold executeNode. rewrite Hkind. unfold handleNLP.
    change (user_message (incrIteration (context r))) with (user_message (context r)).
    change (lastData (incrIteration (context r))) with (lastData (context r)).
    rewrite Hmsg, Hc. simpl.
    destruct (String.eqb_spec text "") as [->|_]; [done|]. simpl.
    by rewrite Hnlp. }
  split; [done|]. split; [done|]. split; [done|]. split; [done|].
  assert (truthy (error (nlpFallback message)) = true) as Ht.
  { simpl. by destruct (String.eqb_spec message "") as [->|_]. }
  destruct (pass_cases ad engine n (context r) (dispatches r))
    as [[Hc' _]|[(_ & Hv & _)|(_ & _ & Hex)]]; [lia|lia|].
  destruct Hex as [(result' & c1' & He' & Ht' & Hp)
                  |[(result' & c1' & He' & Ht' & _)|(message' & He' & _)]];
    rewrite He in He'; simplify_eq; [|congruence].
  eexists. split; [done|]. simpl.
  destruct (fault_always_routes_to_escalation ad engine input r (or_introl Hr))
    as [_ Hesc].
  repeat split; done.
Qed.

Lemma nlp_failure_degrades_and_escalates_witness :
  executeNode offline textFlow (mkNode "start" "nlp" (Some (configNext "intent_router")))
    (incrIteration (initialContext (textMessage "hello")))
  = Returns (nlpFallback "connect ECONNREFUSED")
      (incrIteration (initialContext (textMessage "hello")))
  ∧ ∃ r', pass offline textFlow (mkNode "start" "nlp" (Some (configNext "intent_router")))
            (initialContext (textMessage "hello")) [] = Continue r'
          ∧ currentNode r' = Some (mkNode "agent_escalation" "escalation" (Some emptyConfig))
          ∧ lastResult (context r') = None
          ∧ allResults (context r') = []
          ∧ errors (context r') = ["Error in node start (start): connect ECONNREFUSED"].
Proof.
  destruct (nlp_failure_degrades_and_escalates offline textFlow (textMessage "hello")
              (initialRun textFlow (textMessage "hello"))
              (mkNode "start" "nlp" (Some (configNext "intent_router")))
              "hello" "connect ECONNREFUSED"
              (reachable_initial _ _ _) eq_refl eq_refl
              (ex_intro _ _ eq_refl)
              ltac:(vm_compute; lia) ltac:(vm_compute; lia)
              eq_refl ltac:(discriminate) eq_refl ltac:(discriminate))
    as (He & _ & _ & _ & r' & Hp & Hcur & Hlast & Hall & Herr).
  split; [exact He|].
  exists r'. repeat split; assumption.
Defined.

(** C4 does not hold as stated: with the language-understanding service
    down, the run of the text flow never dispatches the router. *)
Lemma nlp_failure_does_not_reach_router :
  ¬ (∀ r, run offline textFlow (textMessage "hello") = Some r →
          "intent_router" ∈ dispatchedIds (dispatches r)).
Proof.
  intros H.
  destruct (run_returns offline textFlow (textMessage "hello")) as [r Hrun].
  specialize (H r Hrun).
  assert (dispatchedIds (dispatches r) = ["start"; "agent_escalation"; "response_sender"])
    as Hobs.
  { apply (run_observe (λ r, dispatchedIds (dispatches r)) _ _ _ _ _ Hrun).
    vm_compute. reflexivity. }
  rewrite Hobs in H.
  repeat (apply elem_of_cons in H as [H|H]; [discriminate H|]).
  by apply elem_of_nil in H.
Qed.

(** ** Scenarios *)

(** The greeting scenario: trigger, classifier, language understanding
    ([greeting] at 0.9), router, handler, action, end. The final response
    is the greeting template and no error is recorded. *)
Example greeting_scenario :
  (λ r, (dispatchedIds (dispatches r), finalResponse (context r), errors (context r),
         ctx_tokensUsed (context r), chatResponse (context r)))
    <$> run greets greetingFlow (textMessage "hi there")
  = Some (["start"; "message_classifier"; "nlp_processor"; "intent_router";
           "greeting_handler"; "response_sender"],
          Some "Hello! How can I help you?", [], 42, "Hello! How can I help you?").
Proof. vm_compute. reflexivity. Qed.

(** The same flow with the language-understanding service down: the
    fault goes to the escalation node, whose text becomes the response. *)
Example nlp_down_scenario :
  (λ r, (dispatchedIds (dispatches r), finalResponse (context r), errors (context r)))
    <$> run offline greetingFlow (textMessage "hi there")
  = Some (["start"; "message_classifier"; "nlp_processor"; "agent_escalation";
           "response_sender"],
          Some "Let me connect you to an agent.",
          ["Error in node nlp_processor (nlp_processor): connect ECONNREFUSED"]).
Proof. vm_compute. reflexivity. Qed.

(** In the node [product_recommender] the fallback ranking of
    [rankProducts] scores every candidate 0.5, below the relevance bar of
    0.6 in [recommend]: the step returns no products, and the candidates
    under [fallbackProducts]. *)
Example recommender_fallback_is_filtered :
  ∃ result,
    handleML searchOnly (mkNode "product_recommender" "ml" (Some emptyConfig))
      (initialContext (textMessage "yamaha"))
    = Returns result (initialContext (textMessage "yamaha"))
    ∧ get_products (data result) = Some []
    ∧ confidence result = Some c0_5
    ∧ error result = None.
Proof. eexists. split; [reflexivity|]. vm_compute. done. Qed.

(** ** The node index *)

Lemma index_lookup_inv (l : list Node) (m : gmap string Node) k n :
  foldl (λ m n, <[node_id n := n]> m) m l !! k = Some n →
  m !! k = Some n ∨ (n ∈ l ∧ node_id n = k).
Proof.
  revert m. induction l as [|x l IH]; intros m H; [by left|].
  simpl in H. apply IH in H as [H|[H1 H2]].
  - destruct (decide (node_id x = k)) as [<-|Hne].
    + rewrite lookup_insert_eq in H. injection H as ->. right. split; [left|done].
    + rewrite lookup_insert_ne in H by done. by left.
  - right. split; [by right|done].
Qed.

Lemma index_lookup_skip (l : list Node) (m : gmap string Node) k :
  k ∉ node_id <$> l →
  foldl (λ m n, <[node_id n := n]> m) m l !! k = m !! k.
Proof.
  revert m. induction l as [|x l IH]; intros m Hk; [done|].
  simpl. rewrite IH.
  - apply lookup_insert_ne. intros Heq. apply Hk. rewrite <- Heq. left.
  - intros Hin. apply Hk. by right.
Qed.

(** X1. The constructor indexes the nodes by id: a node found under a key
    has that id and comes from the workflow; and of the nodes of the
    workflow that share an id, the last one is the one found. *)
Theorem engine_indexes_nodes_by_id wf :
  (∀ k n, nodes (newWorkflowEngine wf) !! k = Some n →
          node_id n = k ∧ n ∈ wf_nodes wf)
  ∧ (∀ before n after,
       wf_nodes wf = (before ++ n :: after)%list →
       node_id n ∉ node_id <$> after →
       nodes (newWorkflowEngine wf) !! node_id n = Some n).
Proof.
  split.
  - intros k n H. apply index_lookup_inv in H as [H|[H1 H2]]; [|done].
    by rewrite lookup_empty in H.
  - intros before n after Hwf Hlast. simpl. rewrite Hwf, foldl_app. simpl.
    rewrite index_lookup_skip by done. apply lookup_insert_eq.
Qed.

Lemma engine_indexes_nodes_by_id_witness :
  nodes (newWorkflowEngine
           {| wf_nodes := [mkNode "start" "trigger" None;
                           mkNode "start" "nlp" (Some emptyConfig);
                           mkNode "end" "end" None];
              wf_templates := None |}) !! "start"
  = Some (mkNode "start" "nlp" (Some emptyConfig)).
Proof.
  apply (proj2 (engine_indexes_nodes_by_id
                  {| wf_nodes := [mkNode "start" "trigger" None;
                                  mkNode "start" "nlp" (Some emptyConfig);
                                  mkNode "end" "end" None];
                     wf_templates := None |})
           [mkNode "start" "trigger" None] (mkNode "start" "nlp" (Some emptyConfig))
           [mkNode "end" "end" None] eq_refl).
  simpl. intros H. apply list_elem_of_singleton in H. discriminate H.
Defined.

(** ** More on the resolver *)

Lemma priority_in_graph engine cond ref rest m :
  priority engine cond ref rest = Some m →
  (∃ k, nodes engine !! k = Some m) ∨ rest = Some m.
Proof.
  unfold priority, nodes_get. destruct cond; [|by right].
  destruct ref as [k|]; simpl; [|by right].
  destruct (nodes engine !! k) as [x|] eqn:Hk; [|by right].
  intros [= <-]. left. by exists k.
Qed.

(** X2. The resolver only returns nodes of the graph. *)
Theorem resolver_returns_graph_nodes engine n result m :
  getNextNode engine n result = Some m →
  ∃ k, nodes engine !! k = Some m.
Proof.
  unfold getNextNode. intros H.
  repeat (apply priority_in_graph in H as [H|H]; [done|]).
  by exists "end".
Qed.

Lemma resolver_returns_graph_nodes_witness :
  ∃ k, nodes textFlow !! k
       = Some (mkNode "greeting_handler" "handler"
                 (Some (configTemplate "greeting" "response_sender"))).
Proof.
  apply (resolver_returns_graph_nodes textFlow confidenceGate (stepWith None (Some c0_7))).
  vm_compute. reflexivity.
Defined.

(** The static [config.next] of a node, when its target exists, is taken
    before any route that depends on the step result: the confidence and
    the [found] flag of the result are not consulted. Only an explicit
    [next] of the result that resolves comes first. *)
Theorem static_next_precedes_conditional_routes engine n config result target :
  node_config n = Some config →
  resolves engine (next result) = None →
  resolves engine (cfg_next config) = Some target →
  getNextNode engine n result = Some target.
Proof.
  intros Hc Hn Ht. unfold getNextNode. rewrite Hc. simpl.
  rewrite !priority_resolves_plain, Hn, Ht. done.
Qed.

Lemma static_next_precedes_conditional_routes_witness :
  getNextNode textFlow
    (mkNode "search" "database"
       (Some
       {| cfg_next := Some "response_sender";
          cfg_next_high_confidence := Some "greeting_handler";
          cfg_next_low_confidence := Some "clarification_handler";
          cfg_next_found := Some "greeting_handler";
          cfg_next_not_found := Some "clarification_handler";
          cfg_fallback := Some "agent_escalation";
          cfg_classify := None; cfg_routes := None; cfg_operation := None;
          cfg_template := None; cfg_top_n := None; cfg_max_tokens := None;
          cfg_limit := None; cfg_include_context := false;
          cfg_language := None; cfg_category := None |}))
    (foundResult ∅ true)
  = Some (mkNode "response_sender" "action" (Some (configNext "end"))).
Proof.
  eapply static_next_precedes_conditional_routes; reflexivity.
Defined.

(** A step result whose [found] is missing routes like one whose
    [found] is false: the test is [!result.found]. With no confidence in
    the result and no earlier reference that resolves, the resolver
    returns the target of [next_not_found]. *)
Theorem missing_found_counts_as_not_found engine n config result target :
  node_config n = Some config →
  resolves engine (next result) = None →
  resolves engine (cfg_next config) = None →
  confidence result = None →
  found result ≠ Some true →
  resolves engine (cfg_next_not_found config) = Some target →
  getNextNode engine n result = Some target.
Proof.
  intros Hc Hn Hcn Hconf Hf Ht. unfold getNextNode. rewrite Hc, Hconf. simpl.
  rewrite !andb_false_r.
  rewrite bool_decide_eq_false_2 by done. rewrite andb_false_r. simpl.
  rewrite andb_true_r.
  rewrite !priority_resolves_plain, Hn, Hcn, Ht.
  unfold priority. done.
Qed.

Lemma missing_found_counts_as_not_found_witness :
  getNextNode textFlow
    (mkNode "order_lookup" "database"
       (Some
       {| cfg_next := None; cfg_next_high_confidence := None;
          cfg_next_low_confidence := None;
          cfg_next_found := Some "greeting_handler";
          cfg_next_not_found := Some "clarification_handler";
          cfg_fallback := None;
          cfg_classify := None; cfg_routes := None; cfg_operation := Some "log";
          cfg_template := None; cfg_top_n := None; cfg_max_tokens := None;
          cfg_limit := None; cfg_include_context := false;
          cfg_language := None; cfg_category := None |}))
    (plainResult {[ "logged" := VBool true ]})
  = Some (mkNode "clarification_handler" "handler"
            (Some (configTemplate "clarification" "response_sender"))).
Proof.
  eapply missing_found_counts_as_not_found; try reflexivity. discriminate.
Defined.

(** ** More on the handlers *)

Lemma find_first_match {A} (f : A → bool) (before after : list A) x :
  (∀ y, y ∈ before → f y = false) → f x = true →
  List.find f (before ++ x :: after) = Some x.
Proof.
  intros Hb Hx. induction before as [|y before IH]; simpl; [by rewrite Hx|].
  rewrite (Hb y) by left. apply IH. intros z Hz. apply Hb. by right.
Qed.

Lemma find_no_match {A} (f : A → bool) (l : list A) :
  (∀ y, y ∈ l → f y = false) → List.find f l = None.
Proof.
  intros Hl. induction l as [|y l IH]; simpl; [done|].
  rewrite (Hl y) by left. apply IH. intros z Hz. apply Hl. by right.
Qed.

(** X3. The router takes the first route whose intent is the intent of the
    last result, and the resolver follows it when its target exists;
    when no route has that intent, or there is no intent at all, the run
    goes to the node of [config.fallback]. The router spends no tokens
    and reports no error. *)
Theorem router_follows_first_route_or_fallback engine node config routes c :
  node_config node = Some config →
  cfg_routes config = Some routes →
  ∃ result,
    handleRouter node c = Returns result c
    ∧ tokensUsed result = 0 ∧ error result = None
    ∧ (∀ before route after target,
         routes = (before ++ route :: after)%list →
         (∀ r, r ∈ before → ir_intent r ≠ get_str (lastData c) "intent") →
         ir_intent route = get_str (lastData c) "intent" →
         resolves engine (ir_next route) = Some target →
         getNextNode engine node result = Some target)
    ∧ (∀ target,
         (∀ r, r ∈ routes → ir_intent r ≠ get_str (lastData c) "intent") →
         resolves engine (cfg_fallback config) = Some target →
         getNextNode engine node result = Some target).
Proof.
  intros Hc Hr. unfold handleRouter. rewrite Hc, Hr. eexists.
  split; [reflexivity|]. split; [done|]. split; [done|]. split.
  - intros before route after target -> Hb Hi Ht.
    unfold getNextNode. cbn [next].
    rewrite (find_first_match _ before after route).
    + simpl. rewrite priority_resolves_plain.
      assert (truthy (ir_next route) = true) as Htr.
      { unfold resolves in Ht. by destruct (truthy (ir_next route)). }
      unfold js_or. rewrite Htr, Ht. done.
    + intros y Hy. apply bool_decide_eq_false_2. by apply Hb.
    + by apply bool_decide_eq_true_2.
  - intros target Hall Ht.
    unfold getNextNode. cbn [next].
    rewrite find_no_match.
    + simpl. rewrite priority_resolves_plain. unfold js_or at 1. simpl.
      rewrite Ht. done.
    + intros y Hy. apply bool_decide_eq_false_2. by apply Hall.
Qed.

Lemma router_follows_first_route_or_fallback_witness :
  ∃ result,
    handleRouter (mkNode "intent_router" "router"
                    (Some (configRoutes
                             [{| ir_intent := Some "greeting";
                                 ir_next := Some "greeting_handler" |}]
                             "clarification_handler")))
      (recordResult (nlpFallback "") (initialContext (textMessage "hello")))
    = Returns result
        (recordResult (nlpFallback "") (initialContext (textMessage "hello")))
    ∧ getNextNode greetingFlow
        (mkNode "intent_router" "router"
           (Some (configRoutes
                    [{| ir_intent := Some "greeting";
                        ir_next := Some "greeting_handler" |}]
                    "clarification_handler")))
        result
      = Some (mkNode "clarification_handler" "handler"
                (Some (configTemplate "clarification" "response_sender"))).
Proof.
  destruct (router_follows_first_route_or_fallback greetingFlow
              (mkNode "intent_router" "router"
                 (Some (configRoutes
                          [{| ir_intent := Some "greeting";
                              ir_next := Some "greeting_handler" |}]
                          "clarification_handler")))
              (configRoutes
                 [{| ir_intent := Some "greeting"; ir_next := Some "greeting_handler" |}]
                 "clarification_handler")
              [{| ir_intent := Some "greeting"; ir_next := Some "greeting_handler" |}]
              (recordResult (nlpFallback "") (initialContext (textMessage "hello")))
              eq_refl eq_refl)
    as (result & Hrun & _ & _ & _ & Hfallback).
  exists result. split; [exact Hrun|].
  apply Hfallback; [|reflexivity].
  intros r Hr. apply list_elem_of_singleton in Hr as ->. vm_compute. discriminate.
Defined.

(** X4. The classifier takes the message type from the metadata, and
    ["text"] when the metadata has none; it writes the type to the
    context and sets the [next] of the first entry of that type. When no
    entry has the type, the step result has no [next]. *)
Theorem classifier_defaults_to_text node config classify c :
  node_config node = Some config →
  cfg_classify config = Some classify →
  ∃ messageType result,
    handleClassifier node c = Returns result (with_messageType messageType c)
    ∧ (truthy (metadata c ≫= message_type) = false → messageType = "text")
    ∧ (truthy (metadata c ≫= message_type) = true →
       metadata c ≫= message_type = Some messageType)
    ∧ (∀ before entry after,
         classify = (before ++ entry :: after)%list →
         (∀ r, r ∈ before → cr_type r ≠ Some messageType) →
         cr_type entry = Some messageType →
         next result = cr_next entry)
    ∧ ((∀ r, r ∈ classify → cr_type r ≠ Some messageType) → next result = None).
Proof.
  intros Hc Hcl. unfold handleClassifier. rewrite Hc, Hcl.
  eexists _, _. split; [reflexivity|]. split; [|split; [|split]].
  - intros Hf. unfold js_or. by rewrite Hf.
  - intros Ht. unfold js_or. rewrite Ht.
    by destruct (metadata c ≫= message_type).
  - intros before entry after -> Hb He. cbn [next].
    rewrite (find_first_match _ before after entry); [done| |].
    + intros y Hy. apply bool_decide_eq_false_2. by apply Hb.
    + by apply bool_decide_eq_true_2.
  - intros Hall. cbn [next]. rewrite find_no_match; [done|].
    intros y Hy. apply bool_decide_eq_false_2. by apply Hall.
Qed.

Lemma classifier_defaults_to_text_witness :
  ∃ result,
    handleClassifier
      (mkNode "message_classifier" "classifier"
         (Some (configClassify
                  [{| cr_type := Some "image"; cr_next := Some "image_analyzer" |};
                   {| cr_type := Some "text"; cr_next := Some "nlp_processor" |}])))
      (initialContext {| in_user_message := Some "hello"; in_metadata := None;
                         in_language := None |})
    = Returns result
        (with_messageType "text"
           (initialContext {| in_user_message := Some "hello"; in_metadata := None;
                              in_language := None |}))
    ∧ next result = Some "nlp_processor".
Proof.
  destruct (classifier_defaults_to_text
              (mkNode "message_classifier" "classifier"
                 (Some (configClassify
                          [{| cr_type := Some "image"; cr_next := Some "image_analyzer" |};
                           {| cr_type := Some "text"; cr_next := Some "nlp_processor" |}])))
              (configClassify
                 [{| cr_type := Some "image"; cr_next := Some "image_analyzer" |};
                  {| cr_type := Some "text"; cr_next := Some "nlp_processor" |}])
              [{| cr_type := Some "image"; cr_next := Some "image_analyzer" |};
               {| cr_type := Some "text"; cr_next := Some "nlp_processor" |}]
              (initialContext {| in_user_message := Some "hello"; in_metadata := None;
                                 in_language := None |})
              eq_refl eq_refl)
    as (messageType & result & Hrun & Hdefault & _ & Hfirst & _).
  rewrite (Hdefault eq_refl) in *.
  exists result. split; [exact Hrun|].
  apply (Hfirst [{| cr_type := Some "image"; cr_next := Some "image_analyzer" |}]
           {| cr_type := Some "text"; cr_next := Some "nlp_processor" |} [] eq_refl);
    [|reflexivity].
  intros r Hr. apply list_elem_of_singleton in Hr as ->. discriminate.
Defined.

(** Without a message (none in the context, none in the last result, or
    an empty one) the NLP handler makes no completion call and reads no
    config: whatever the adapters and the node, it returns the degraded
    result with the error [No message to process]. *)
Theorem nlp_without_message_makes_no_call ad ad' node node' c :
  truthy (js_or (user_message c) (get_str (lastData c) "message")) = false →
  handleNLP ad node c = Returns (nlpFallback "No message to process") c
  ∧ handleNLP ad node c = handleNLP ad' node' c.
Proof.
  intros H. unfold handleNLP. rewrite H. done.
Qed.

Lemma nlp_without_message_makes_no_call_witness :
  handleNLP greets (mkNode "nlp_processor" "nlp" None)
    (initialContext {| in_user_message := Some ""; in_metadata := None;
                       in_language := None |})
  = Returns (nlpFallback "No message to process")
      (initialContext {| in_user_message := Some ""; in_metadata := None;
                         in_language := None |}).
Proof.
  apply (proj1 (nlp_without_message_makes_no_call greets offline
                  (mkNode "nlp_processor" "nlp" None) (mkNode "nlp_processor" "nlp" None)
                  (initialContext {| in_user_message := Some ""; in_metadata := None;
                                     in_language := None |})
                  eq_refl)).
Defined.

(** Without a media URL in the metadata, the vision and the speech
    handler call no adapter: they return an error result with no tokens
    and leave the context as it is, whatever the adapters and the node. *)
Theorem media_handlers_need_a_url ad ad' node node' c :
  (truthy (js_or (metadata c ≫= media_url) (metadata c ≫= image_url)) = false →
   (∃ result, handleVision ad node c = Returns result c
              ∧ error result = Some "Missing image URL" ∧ tokensUsed result = 0)
   ∧ handleVision ad node c = handleVision ad' node' c)
  ∧ (truthy (js_or (metadata c ≫= voice_url) (metadata c ≫= audio_url)) = false →
     (∃ result, handleSpeech ad node c = Returns result c
                ∧ error result = Some "Missing audio URL" ∧ tokensUsed result = 0)
     ∧ handleSpeech ad node c = handleSpeech ad' node' c).
Proof.
  split; intros H.
  - unfold handleVision. rewrite H. simpl. split; [|done]. by eexists.
  - unfold handleSpeech. rewrite H. simpl. split; [|done]. by eexists.
Qed.

Lemma media_handlers_need_a_url_witness :
  ∃ result,
    handleSpeech offline (mkNode "voice" "speech" None)
      (initialContext (textMessage "hello"))
    = Returns result (initialContext (textMessage "hello"))
    ∧ error result = Some "Missing audio URL" ∧ tokensUsed result = 0.
Proof.
  apply (proj2 (media_handlers_need_a_url offline offline
                  (mkNode "voice" "speech" None) (mkNode "voice" "speech" None)
                  (initialContext (textMessage "hello")))
           eq_refl).
Defined.

(** X5. The speech handler never raises and reports no tokens, and
    what it does follows the transcription. Without an audio URL it
    calls nothing and returns the error [Missing audio URL]; with a URL
    but no config it returns the error of the failed read; when the
    transcription fails it returns the error of the transcription. In
    these three cases the context is unchanged. Only when the
    transcription succeeds does it write to the context: the transcript
    replaces the user message and [transcribed] is set, while the fields
    of the run driver stay as they are. *)
Theorem speech_writes_only_on_success ad node c :
  (truthy (js_or (metadata c ≫= voice_url) (metadata c ≫= audio_url)) = false →
   handleSpeech ad node c
   = Returns {| data := Some {[ "error" := VStr "No audio URL provided" ]};
                next := None; confidence := None; found := None; tokensUsed := 0;
                error := Some "Missing audio URL" |} c)
  ∧ (∀ url,
       js_or (metadata c ≫= voice_url) (metadata c ≫= audio_url) = Some url →
       url ≠ "" →
       (node_config node = None →
        handleSpeech ad node c = Returns (errorResult (Some (typeError "language")) 0) c)
       ∧ ∀ config,
           node_config node = Some config →
           (∀ message,
              voice_transcribe ad c url
                (if truthy (cfg_language config) then cfg_language config else None)
              = Rejected message →
              handleSpeech ad node c = Returns (errorResult (Some message) 0) c)
           ∧ (∀ t,
                voice_transcribe ad c url
                  (if truthy (cfg_language config) then cfg_language config else None)
                = Resolved t →
                handleSpeech ad node c
                = Returns
                    (plainResult
                       (set_opt "text" (t_text t) (set_opt "language" (t_language t) ∅)))
                    (with_transcription (t_text t) c)
                ∧ user_message (with_transcription (t_text t) c) = t_text t
                ∧ transcribed (with_transcription (t_text t) c) = true
                ∧ sameBookkeeping c (with_transcription (t_text t) c)))
  ∧ ∃ result c',
      handleSpeech ad node c = Returns result c'
      ∧ tokensUsed result = 0
      ∧ ((c' = c ∧ is_Some (error result))
         ∨ (error result = None ∧ transcribed c' = true
            ∧ user_message c' = get_str (data result) "text"
            ∧ sameBookkeeping c c')).
Proof.
  split; [|split].
  - intros Hno. unfold handleSpeech. by rewrite Hno.
  - intros url Hurl Hne.
    assert (truthy (Some url) = true) as Ht.
    { unfold truthy. by destruct (String.eqb_spec url ""). }
    unfold handleSpeech. rewrite Hurl, Ht. cbn [negb].
    change (default "" (Some url)) with url.
    split; [by intros ->|].
    intros config ->. unfold transcribe. split.
    + by intros message ->.
    + intros t ->. cbn [tr_success negb tr_text tr_language tr_error].
      split; [done|]. split; [done|]. split; [done|]. by repeat split.
  - unfold handleSpeech.
    destruct (negb (truthy _)); [eexists _, _; split; [done|split; [done|by left]]|].
    destruct (node_config node) as [config|];
      [|eexists _, _; split; [done|split; [done|by left]]].
    unfold transcribe.
    destruct (voice_transcribe ad c _ _) as [t|message]; simpl.
    + eexists _, _. split; [done|]. split; [done|]. right.
      split; [done|]. split; [done|]. split; [|by repeat split].
      simpl. unfold set_opt.
      destruct (t_text t) as [text|]; destruct (t_language t) as [l|]; simpl;
        rewrite ?lookup_insert_eq, ?lookup_insert_ne, ?lookup_insert_eq, ?lookup_empty; done.
    + eexists _, _. split; [done|]. split; [done|]. by left.
Qed.

Lemma speech_writes_only_on_success_witness :
  handleSpeech dictation (mkNode "voice_transcriber" "speech" (Some emptyConfig))
    (initialContext (voiceMessage "https://cdn.example/1.ogg"))
  = Returns
      (plainResult {[ "text" := VStr "bike below 5k"; "language" := VStr "english" ]})
      (with_transcription (Some "bike below 5k")
         (initialContext (voiceMessage "https://cdn.example/1.ogg")))
  ∧ handleSpeech offline (mkNode "voice_transcriber" "speech" (Some emptyConfig))
      (initialContext (voiceMessage "https://cdn.example/1.ogg"))
    = Returns (errorResult (Some "connect ECONNREFUSED") 0)
        (initialContext (voiceMessage "https://cdn.example/1.ogg")).
Proof.
  split.
  - refine (proj1 (proj2 (proj2 (proj1 (proj2 (speech_writes_only_on_success dictation
              (mkNode "voice_transcriber" "speech" (Some emptyConfig))
              (initialContext (voiceMessage "https://cdn.example/1.ogg"))))
            "https://cdn.example/1.ogg" eq_refl _) emptyConfig eq_refl)
          {| t_text := Some "bike below 5k"; t_language := Some "english" |} eq_refl)).
    discriminate.
  - refine (proj1 (proj2 (proj1 (proj2 (speech_writes_only_on_success offline
              (mkNode "voice_transcriber" "speech" (Some emptyConfig))
              (initialContext (voiceMessage "https://cdn.example/1.ogg"))))
            "https://cdn.example/1.ogg" eq_refl _) emptyConfig eq_refl)
          "connect ECONNREFUSED" eq_refl).
    discriminate.
Defined.

(** A node whose type is none of the thirteen the dispatcher knows (the
    comparison is exact, so [Trigger] is not [trigger]) is a no-op: the
    step result carries the payload of the last result on, with no
    tokens, no error and no [next], and the context is unchanged. *)
Theorem unknown_type_is_a_no_op ad engine n c :
  node_type n ∉ knownTypes →
  executeNode ad engine n c
  = Returns {| data := lastData c; next := None; confidence := None;
               found := None; tokensUsed := 0; error := None |} c.
Proof.
  intros H. unfold executeNode, kindOf.
  repeat match goal with
  | |- context [String.eqb (node_type n) ?k] =>
    replace (String.eqb (node_type n) k) with false
      by (symmetry; apply String.eqb_neq; intros Heq; apply H; rewrite Heq;
          unfold knownTypes; set_solver)
  end.
  done.
Qed.

Lemma unknown_type_is_a_no_op_witness :
  executeNode offline textFlow (mkNode "start" "Trigger" None)
    (initialContext (textMessage "hello"))
  = Returns {| data := None; next := None; confidence := None;
               found := None; tokensUsed := 0; error := None |}
      (initialContext (textMessage "hello")).
Proof.
  apply (unknown_type_is_a_no_op offline textFlow (mkNode "start" "Trigger" None)
           (initialContext (textMessage "hello"))).
  unfold knownTypes. simpl. intros H.
  repeat (apply elem_of_cons in H as [H|H]; [discriminate H|]).
  by apply elem_of_nil in H.
Defined.



Lemma filter_sublist {A} (f : A → bool) (l : list A) :
  List.filter f l `sublist_of` l.
Proof.
  induction l as [|x l IH]; simpl; [constructor|].
  destruct (f x); by constructor.
Qed.

(** X7. The semantic search reports [found] exactly when the query returned
    products. Without an area among the entities it returns the products
    of the query as they are. With an area it keeps, in their order,
    the products that have no location list or a location that contains
    the area; when no product of the query is kept by this test, all
    the products of the query are returned. So the filter only removes
    products and never leaves the list empty. *)
Theorem semantic_search_keeps_some_hit ad node c d products :
  semantic_findMany ad node c = Resolved products →
  ∃ kept,
    semanticProductSearch ad node c d
    = Resolved (foundResult {[ "products" := VProducts kept ]}
                            (negb (bool_decide (length products = 0))))
    ∧ kept `sublist_of` products
    ∧ (products ≠ [] → kept ≠ [])
    ∧ (truthy (e_area (default noEntities (get_entities d))) = false → kept = products)
    ∧ (∀ area,
         e_area (default noEntities (get_entities d)) = Some area →
         area ≠ "" →
         ((∀ p, p ∈ products → inArea ad area p = false) → kept = products)
         ∧ (∀ p, p ∈ products → inArea ad area p = true →
                 kept = List.filter (inArea ad area) products ∧ p ∈ kept)).
Proof.
  intros Hq. unfold semanticProductSearch. rewrite Hq.
  set (entities := default noEntities (get_entities d)).
  set (kept := match e_area entities with
               | Some area => if truthy (Some area) then _ else products
               | None => products
               end).
  exists kept. split; [|split; [|split; [|split]]].
  - do 2 f_equal.
    assert (bool_decide (length kept = 0) = bool_decide (length products = 0)) as ->; [|done].
    subst kept. destruct (e_area entities) as [area|]; [|done].
    destruct (truthy (Some area)); [|done].
    match goal with |- context [List.filter ?f products] =>
      destruct (bool_decide_reflect (length (List.filter f products) = 0)) as [Hk|Hk] end;
      [done|].
    rewrite !bool_decide_eq_false_2; [done| |done].
    intros Hp. apply Hk. apply length_zero_iff_nil in Hp. by rewrite Hp.
  - subst kept. destruct (e_area entities) as [area|]; [|done].
    destruct (truthy (Some area)); [|done].
    case_bool_decide; [done|apply filter_sublist].
  - intros Hne. subst kept. destruct (e_area entities) as [area|]; [|done].
    destruct (truthy (Some area)); [|done].
    case_bool_decide as Hk; [done|].
    intros Hnil. apply Hk. by rewrite Hnil.
  - intros Hno. subst kept. destruct (e_area entities) as [area|]; [|done].
    by rewrite Hno.
  - intros area Harea Hne. subst kept. rewrite Harea.
    assert (truthy (Some area) = true) as ->.
    { unfold truthy. by destruct (String.eqb_spec area ""). }
    change (List.filter _ products) with (List.filter (inArea ad area) products).
    split.
    + intros Hnone.
      assert (List.filter (inArea ad area) products = []) as ->; [|done].
      clear -Hnone. induction products as [|x l IH]; [done|]. simpl.
      rewrite (Hnone x) by apply list_elem_of_here.
      apply IH. intros p Hp. apply Hnone. by apply list_elem_of_further.
    + intros p Hp Hin.
      assert (p ∈ List.filter (inArea ad area) products) as Hkept.
      { apply list_elem_of_In, filter_In. split; [by apply list_elem_of_In|done]. }
      rewrite bool_decide_eq_false_2; [done|].
      intros Hlen. apply length_zero_iff_nil in Hlen. rewrite Hlen in Hkept.
      by apply elem_of_nil in Hkept.
Qed.

Lemma semantic_search_keeps_some_hit_witness :
  semanticProductSearch catalogue
    (mkNode "bike_search" "database" (Some emptyConfig))
    (initialContext (textMessage "bike in Bahau"))
    (Some {[ "entities" := VEntities bahau ]})
  = Resolved (foundResult {[ "products" := VProducts cityBikes ]} true).
Proof.
  destruct (semantic_search_keeps_some_hit catalogue
              (mkNode "bike_search" "database" (Some emptyConfig))
              (initialContext (textMessage "bike in Bahau"))
              (Some {[ "entities" := VEntities bahau ]}) cityBikes eq_refl)
    as (kept & Hrun & _ & _ & _ & Harea).
  destruct (Harea "Bahau" eq_refl ltac:(discriminate)) as [Hall _].
  rewrite Hrun, Hall; [reflexivity|].
  intros p Hp.
  repeat (apply elem_of_cons in Hp as [->|Hp]; [vm_compute; reflexivity|]).
  by apply elem_of_nil in Hp.
Defined.

(** X8. The log step carries the response of the step before it over: when
    the last result has a response text (its [finalResponse], else its
    [optimized], [response] or [formatted]), the log result holds that
    text under [finalResponse], [response] and [optimized]; the driver
    tracks it as the final response and the chat route sends it. *)
Theorem log_step_carries_response_over c c' p :
  js_or (get_str (lastData c) "finalResponse")
    (js_or (get_str (lastData c) "optimized")
       (js_or (get_str (lastData c) "response") (get_str (lastData c) "formatted"))) = p →
  truthy p = true →
  get_str (data (logConversation c)) "finalResponse" = p
  ∧ get_str (data (logConversation c)) "response" = p
  ∧ get_str (data (logConversation c)) "optimized" = p
  ∧ finalResponse (recordResult (logConversation c) c') = p
  ∧ chatResponse (recordResult (logConversation c) c') = default "" p.
Proof.
  intros Hp Ht. unfold logConversation. rewrite Hp.
  destruct p as [text|]; [|done].
  assert (∀ k, k = "finalResponse" ∨ k = "response" ∨ k = "optimized" →
               get_str (Some (set_opt "finalResponse" (Some text)
                                (set_opt "response" (Some text)
                                   (set_opt "optimized" (Some text)
                                      {[ "logged" := VBool true ]})))) k = Some text)
    as Hget.
  { intros k [-> | [-> | ->]]; reflexivity. }
  split; [apply Hget; auto|]. split; [apply Hget; auto|]. split; [apply Hget; auto|].
  split.
  - unfold recordResult. cbn [finalResponse data plainResult].
    rewrite (Hget "finalResponse") by auto. unfold js_or. rewrite Ht. by rewrite Ht.
  - unfold chatResponse, lastData. cbn [lastResult recordResult]. cbn [mbind option_bind].
    cbn [data plainResult]. rewrite (Hget "finalResponse") by auto.
    rewrite !Ht. done.
Qed.

Lemma log_step_carries_response_over_witness :
  chatResponse
    (recordResult
       (logConversation
          (recordResult (plainResult {[ "optimized" := VStr "Here are 3 bikes." ]})
             (initialContext (textMessage "hello"))))
       (initialContext (textMessage "hello")))
  = "Here are 3 bikes.".
Proof.
  refine (proj2 (proj2 (proj2 (proj2
            (log_step_carries_response_over
               (recordResult (plainResult {[ "optimized" := VStr "Here are 3 bikes." ]})
                  (initialContext (textMessage "hello")))
               (initialContext (textMessage "hello"))
               (Some "Here are 3 bikes.") _ _)))));
    vm_compute; reflexivity.
Defined.







(** X10. Whenever the escalation node returns, its step result has a
    non-empty response text and an explicit, non-empty [next]: the
    node's [config.next], or [response_sender] when that is not set; then
    the resolver continues at [response_sender] if the graph has it. The
    handler raises only when the workflow has no templates or the node no
    config. *)
Theorem escalation_always_names_its_successor engine node c :
  (∀ result c',
     handleEscalation engine node c = Returns result c' →
     c' = c
     ∧ truthy (next result) = true
     ∧ truthy (get_str (data result) "finalResponse") = true
     ∧ get_str (data result) "response" = get_str (data result) "finalResponse"
     ∧ tokensUsed result = 0 ∧ error result = None
     ∧ ∀ config sender,
         node_config node = Some config →
         truthy (cfg_next config) = false →
         nodes engine !! "response_sender" = Some sender →
         getNextNode engine node result = Some sender)
  ∧ (is_Some (templates engine) → is_Some (node_config node) →
     ∃ result, handleEscalation engine node c = Returns result c).
Proof.
  split.
  - unfold handleEscalation. intros result c' H.
    destruct (templates engine) as [tpls|]; [|done].
    destruct (node_config node) as [config|] eqn:Hc; [|done].
    injection H as <- <-.
    set (literal := "I'm connecting you with a human agent...") in *.
    set (response := match tpls !! "agent_transfer" with
                     | Some (TLang m) => _ | Some (TText s) => _ | None => literal end).
    assert (truthy (Some response) = true) as Hresp.
    { subst response. destruct (tpls !! "agent_transfer") as [[s|m]|]; [| |done].
      - unfold js_or. by destruct (truthy (Some s)) eqn:Hs.
      - unfold js_or. destruct (truthy (m !! languageOf c)) eqn:H1.
        + by destruct (m !! languageOf c).
        + destruct (truthy (m !! "english")) eqn:H2; [|done].
          by destruct (m !! "english"). }
    assert (truthy (js_or (cfg_next config) (Some "response_sender")) = true) as Hnext.
    { unfold js_or. by destruct (truthy (cfg_next config)) eqn:Hn. }
    split; [done|]. split; [done|]. split; [done|]. split; [done|].
    split; [done|]. split; [done|].
    intros config' sender [= <-] Hunset Hsender.
    unfold getNextNode. cbn [next]. rewrite priority_resolves_plain.
    unfold resolves. rewrite Hnext. unfold js_or. rewrite Hunset. simpl.
    by rewrite Hsender.
  - intros [tpls Ht] [config Hc]. unfold handleEscalation. rewrite Ht, Hc. by eexists.
Qed.

Lemma escalation_always_names_its_successor_witness :
  ∃ result,
    handleEscalation textFlow (mkNode "agent_escalation" "escalation" (Some emptyConfig))
      (initialContext (textMessage "hello"))
    = Returns result (initialContext (textMessage "hello")).
Proof.
  apply (proj2 (escalation_always_names_its_successor textFlow
                  (mkNode "agent_escalation" "escalation" (Some emptyConfig))
                  (initialContext (textMessage "hello"))));
    vm_compute; eauto.
Defined.

(** X11. The action node answers from what the run has produced: when the
    last result has a response text it returns that text, and otherwise
    the text of the most recent stored result that has one. Whatever it
    returns is non-empty, costs no tokens and carries no error. It
    raises only when neither has a text and the workflow has no
    templates. *)
Theorem action_answers_from_the_latest_text engine node c :
  (∀ result c',
     handleAction engine node c = Returns result c' →
     c' = c
     ∧ truthy (get_str (data result) "finalResponse") = true
     ∧ tokensUsed result = 0 ∧ error result = None ∧ next result = None)
  ∧ (truthy (responseIn (lastData c)) = true →
     handleAction engine node c
     = Returns (plainResult (set_opt "finalResponse" (responseIn (lastData c)) ∅)) c)
  ∧ (truthy (responseIn (lastData c)) = false →
     truthy (scanResults (allResults c)) = true →
     handleAction engine node c
     = Returns (plainResult (set_opt "finalResponse" (scanResults (allResults c)) ∅)) c)
  ∧ (is_Some (templates engine) →
     ∃ result, handleAction engine node c = Returns result c).
Proof.
  split; [|split; [|split]].
  - intros result c' H.
    pose proof (handleAction_finalResponse engine node c result c' H) as Hf.
    revert H. unfold handleAction. cbv zeta.
    repeat case_match; intros [= <- <-]; done.
  - intros Ht. unfold handleAction. by rewrite !Ht.
  - intros Hf Ht. unfold handleAction. by rewrite Hf, Ht.
  - intros [tpls Htp]. unfold handleAction. cbv zeta. rewrite Htp.
    case_match; by eexists.
Qed.

Lemma action_answers_from_the_latest_text_witness :
  handleAction triggerOnly (mkNode "response_sender" "action" None)
    (recordResult (plainResult {[ "logged" := VBool true ]})
       (recordResult (plainResult {[ "formatted" := VStr "Here are 3 bikes." ]})
          (initialContext (textMessage "hello"))))
  = Returns (plainResult {[ "finalResponse" := VStr "Here are 3 bikes." ]})
      (recordResult (plainResult {[ "logged" := VBool true ]})
         (recordResult (plainResult {[ "formatted" := VStr "Here are 3 bikes." ]})
            (initialContext (textMessage "hello")))).
Proof.
  refine (proj1 (proj2 (proj2 (action_answers_from_the_latest_text triggerOnly
                                 (mkNode "response_sender" "action" None) _))) _ _);
    vm_compute; reflexivity.
Defined.

(** ** Ranking *)

Lemma SFltb_asym x y : SFltb x y = true → SFltb y x = false.
Proof.
  unfold SFltb.
  destruct x as [sx|sx| |sx mx ex], y as [sy|sy| |sy my ey]; simpl;
    repeat match goal with s : bool |- _ => destruct s end; simpl; try done.
  - rewrite (Z.compare_antisym ex ey).
    destruct (ex ?= ey)%Z; simpl; try done.
    rewrite !Pos.compare_cont_spec. simpl.
    rewrite (Pos.compare_antisym mx my). by destruct (mx ?= my)%positive.
  - rewrite (Z.compare_antisym ex ey).
    destruct (ex ?= ey)%Z; simpl; try done.
    rewrite !Pos.compare_cont_spec. simpl.
    rewrite (Pos.compare_antisym mx my). by destruct (mx ?= my)%positive.
Qed.

Lemma ltb_asym x y : PrimFloat.ltb x y = true → PrimFloat.ltb y x = false.
Proof. rewrite !FloatAxioms.ltb_spec. apply SFltb_asym. Qed.

Lemma insertByScore_Permutation x l : insertByScore x l ≡ₚ x :: l.
Proof.
  induction l as [|y rest IH]; [done|]. simpl.
  destruct (PrimFloat.ltb (scoreOf x) (scoreOf y)); [|done].
  rewrite IH. apply Permutation_swap.
Qed.

Lemma sortByScore_Permutation l : sortByScore l ≡ₚ l.
Proof.
  induction l as [|x l IH]; [done|]. unfold sortByScore in *. simpl.
  by rewrite insertByScore_Permutation, IH.
Qed.

Lemma insertByScore_byScore x l : byScore l → byScore (insertByScore x l).
Proof.
  unfold byScore. induction l as [|y rest IH]; intros Hs; simpl.
  - by repeat constructor.
  - destruct (PrimFloat.ltb (scoreOf x) (scoreOf y)) eqn:Hxy.
    + inversion Hs as [|? ? Hrest Hhd]; subst.
      constructor; [by apply IH|].
      destruct rest as [|z rest']; simpl.
      * constructor. by apply ltb_asym.
      * destruct (PrimFloat.ltb (scoreOf x) (scoreOf z)).
        -- constructor. by inversion Hhd.
        -- constructor. by apply ltb_asym.
    + constructor; [done|]. by constructor.
Qed.

Lemma sortByScore_byScore l : byScore (sortByScore l).
Proof.
  induction l as [|x l IH]; [constructor|].
  unfold sortByScore in *. simpl. by apply insertByScore_byScore.
Qed.

Lemma byScore_take n l : byScore l → byScore (take n l).
Proof.
  unfold byScore. revert n. induction l as [|x l IH]; intros [|n] Hs; simpl;
    try constructor.
  - apply IH. by inversion Hs.
  - inversion Hs as [|? ? _ Hhd]; subst.
    destruct l as [|y l'], n as [|n']; simpl; constructor. by inversion Hhd.
Qed.

Lemma omap_length_le {A B} (f : A → option B) (l : list A) :
  length (omap f l) ≤ length l.
Proof.
  induction l as [|x l IH]; [done|].
  change (omap f (x :: l)) with (match f x with Some y => y :: omap f l | None => omap f l end).
  destruct (f x); simpl; lia.
Qed.

(** X12. The sort by score keeps exactly the products it is given, and
    leaves no product directly before one with a strictly higher score;
    a list that is already in that order is returned as it is, so its
    products with equal scores are not swapped. *)
Theorem sort_by_score_permutes_and_orders l :
  sortByScore l ≡ₚ l
  ∧ byScore (sortByScore l)
  ∧ (byScore l → sortByScore l = l).
Proof.
  split; [apply sortByScore_Permutation|]. split; [apply sortByScore_byScore|].
  unfold byScore. induction l as [|x l IH]; intros Hs; [done|].
  unfold sortByScore in *. simpl. inversion Hs as [|? ? Hrest Hhd]; subst.
  rewrite (IH Hrest). destruct l as [|y l']; [done|]. simpl.
  inversion Hhd as [|? ? Hxy]; subst. by rewrite Hxy.
Qed.

Lemma sort_by_score_permutes_and_orders_witness :
  sortByScore (scored 0.5%float "" <$> threeBikes) = scored 0.5%float "" <$> threeBikes.
Proof.
  apply (proj2 (proj2 (sort_by_score_permutes_and_orders _))).
  unfold byScore. vm_compute. repeat constructor.
Defined.

(** X13. When the ranking completion of a ranker node answers, the step
    returns at most [top_n] (default 5) products and no more than the
    reply has entries; every returned product is one of the candidates of
    the previous step with a score and a reasoning attached, entries that
    name no candidate are dropped, and no product is directly followed
    by one with a strictly higher score. The step reports the tokens of
    the completion. *)
Theorem ranker_returns_scored_candidates ad n config c products content :
  node_id n = "bike_ranker" ∨ node_id n = "product_ranker" →
  node_config n = Some config →
  get_products (lastData c) = Some products →
  products ≠ [] →
  rank_complete ad n products c = Resolved content →
  ∃ result ranked,
    handleML ad n c = Returns result c
    ∧ get_products (data result) = Some ranked
    ∧ length ranked ≤ nat_or (cfg_top_n config) 5
    ∧ length ranked ≤ length (default [] (rank_products content))
    ∧ (∀ p, p ∈ ranked →
         ∃ q score reason, q ∈ products ∧ p = scored score reason q)
    ∧ byScore ranked
    ∧ tokensUsed result = rank_total_tokens content
    ∧ error result = None.
Proof.
  intros Hid Hc Hp Hne Hrank.
  unfold handleML. rewrite Hp, Hc.
  change (default [] (Some products)) with products. rewrite Hrank.
  assert (String.eqb (node_id n) "product_recommender" = false) as ->.
  { by destruct Hid as [-> | ->]. }
  assert (String.eqb (node_id n) "bike_ranker"
          || String.eqb (node_id n) "product_ranker" = true) as ->.
  { by destruct Hid as [-> | ->]. }
  rewrite bool_decide_eq_false_2; [|by destruct products].
  eexists _, _. split; [reflexivity|]. cbn [data tokensUsed error].
  split.
  { unfold get_products, set_opt.
    destruct (js_or _ _); [rewrite lookup_insert_ne by done|];
      by rewrite lookup_singleton_eq. }
  split; [rewrite length_take; lia|].
  split.
  { rewrite length_take.
    etrans; [apply Nat.le_min_r|].
    rewrite (Permutation_length (sortByScore_Permutation _)).
    apply omap_length_le. }
  split.
  { intros p Hin. apply elem_of_take in Hin as (i & Hin & _).
    apply list_elem_of_lookup_2 in Hin.
    rewrite sortByScore_Permutation in Hin.
    apply list_elem_of_omap in Hin as (ranked & _ & Hf).
    destruct (List.find (namedBy ad ranked) products) as [q|] eqn:Hq; [|done].
    injection Hf as <-. apply find_some in Hq as [Hq _].
    exists q. eexists _, _. split; [|reflexivity]. by apply list_elem_of_In. }
  split; [|done].
  apply byScore_take, sortByScore_byScore.
Qed.

Lemma ranker_returns_scored_candidates_witness :
  ∃ result,
    handleML ranking bikeRanker afterSearch = Returns result afterSearch
    ∧ get_products (data result)
      = Some [scored 0.75%float "Relevant product" (bike "p3" "Modenas Kriss" 40);
              scored c0_5 "Relevant product" (bike "p1" "Yamaha Y15ZR" 90)]
    ∧ tokensUsed result = 120.
Proof.
  destruct (ranker_returns_scored_candidates ranking bikeRanker
              (configTopN 2 "bike_response_formatter") afterSearch threeBikes bikeReply
              (or_introl eq_refl) eq_refl eq_refl ltac:(discriminate) eq_refl)
    as (result & ranked & Hrun & _).
  exists result. split; [exact Hrun|].
  vm_compute in Hrun. injection Hrun as <-. vm_compute. done.
Defined.

Lemma filter_length_le {A} (f : A → bool) (l : list A) :
  length (List.filter f l) ≤ length l.
Proof. induction l as [|x l IH]; simpl; [done|]. destruct (f x); simpl; lia. Qed.

Lemma recommend_resolved ad now query r :
  recommend ad now query = Resolved r →
  length (rec_products r) ≤ 3
  ∧ (∀ p, p ∈ rec_products r →
       ∃ score, p_relevance_score p = Some score ∧ PrimFloat.leb c0_6 score = true)
  ∧ (∀ l, rec_fallbackProducts r = Some l → rec_products r = [] ∧ length l ≤ 3).
Proof.
  unfold recommend. intros H.
  destruct (searchProducts ad now query 10) as [products|]; [|done].
  repeat case_bool_decide; injection H as <-; cbn [rec_products rec_fallbackProducts].
  - split; [simpl; lia|]. split; [by intros p ?%elem_of_nil|done].
  - split; [simpl; lia|]. split; [by intros p ?%elem_of_nil|].
    intros l [= <-]. split; [done|]. rewrite length_take. lia.
  - split; [rewrite length_take; lia|]. split; [|done].
    intros p Hin. apply elem_of_take in Hin as (i & Hin & _).
    apply list_elem_of_lookup_2, list_elem_of_In, filter_In in Hin as [_ Hin].
    destruct (p_relevance_score p) as [score|]; [|done]. by exists score.
Qed.

Lemma recommend_rejected ad now query message :
  recommend ad now query = Rejected message
  ↔ searchProducts ad now query 10 = Rejected message.
Proof.
  unfold recommend.
  destruct (searchProducts ad now query 10) as [products|];
    [|split; congruence].
  split; [|done]. by repeat case_bool_decide.
Qed.

(** X14. Whatever the search and the ranking answer, the recommender
    recommends at most 3 products, each with a relevance score of at
    least 0.6; it offers fallback products, at most 3, only when it
    recommends none. It raises exactly when the product search raises,
    never because of the ranking. *)
Theorem recommender_recommends_at_most_three_relevant ad now query :
  (∀ r, recommend ad now query = Resolved r →
     length (rec_products r) ≤ 3
     ∧ (∀ p, p ∈ rec_products r →
          ∃ score, p_relevance_score p = Some score ∧ PrimFloat.leb c0_6 score = true)
     ∧ (∀ l, rec_fallbackProducts r = Some l → rec_products r = [] ∧ length l ≤ 3))
  ∧ (∀ message, recommend ad now query = Rejected message
                ↔ searchProducts ad now query 10 = Rejected message).
Proof.
  split; [apply recommend_resolved|apply recommend_rejected].
Qed.

Lemma recommender_recommends_at_most_three_relevant_witness :
  ∃ r, recommend ranking (initialContext (textMessage "bike")) (Some "bike") = Resolved r
       ∧ length (rec_products r) ≤ 3
       ∧ productIds (rec_products r) = ["p2"; "p3"].
Proof.
  eexists. split; [reflexivity|]. split.
  - refine (proj1 (proj1 (recommender_recommends_at_most_three_relevant ranking
                            (initialContext (textMessage "bike")) (Some "bike")) _ _)).
    reflexivity.
  - vm_compute. reflexivity.
Defined.

(** X15. When the product search finds candidates and the ranking
    completion of the recommender fails (or its reply has no product
    list), the recommender recommends nothing: the fallback ranking
    scores every candidate 0.5, below the relevance bar of 0.6, so the
    first 3 candidates are only offered under [fallbackProducts], with
    confidence 0.5. *)
Theorem recommender_outage_recommends_nothing ad now query products :
  searchProducts_findMany ad now query 10 = Resolved products →
  products ≠ [] →
  (∀ reply, recommender_complete ad now query products = Resolved reply →
            rank_products reply = None) →
  recommend ad now (Some query)
  = Resolved
      {| rec_products := [];
         rec_confidence := c0_5;
         rec_reasoning := "I found products, but none are highly relevant to your query. Would you like to see them anyway, or refine your search?";
         rec_fallbackProducts :=
           Some (scored c0_5 "Fallback ranking by popularity" <$> take 3 products) |}.
Proof. apply recommend_outage. Qed.

Lemma recommender_outage_recommends_nothing_witness :
  recommend searchOnly (initialContext (textMessage "yamaha")) (Some "yamaha")
  = Resolved
      {| rec_products := [];
         rec_confidence := c0_5;
         rec_reasoning := "I found products, but none are highly relevant to your query. Would you like to see them anyway, or refine your search?";
         rec_fallbackProducts :=
           Some [scored c0_5 "Fallback ranking by popularity" (bike "p1" "Yamaha Y15ZR" 90)] |}.
Proof.
  refine (recommender_outage_recommends_nothing searchOnly _ "yamaha"
            [bike "p1" "Yamaha Y15ZR" 90] _ _ _).
  - reflexivity.
  - discriminate.
  - intros reply H. vm_compute in H. discriminate.
Defined.

(** X16. The recommender node passes the recommendation on without tokens
    and without error, whatever the ranking call cost, and raises exactly
    when the product search does; without a user message it raises
    before any search. *)
Theorem recommender_node_reports_no_tokens ad n c :
  node_id n = "product_recommender" →
  (∀ result c', handleML ad n c = Returns result c' →
     c' = c ∧ tokensUsed result = 0 ∧ error result = None ∧ next result = None
     ∧ ∃ l, get_products (data result) = Some l ∧ length l ≤ 3)
  ∧ (∀ message, handleML ad n c = Throws message
                ↔ searchProducts ad c (user_message c) 10 = Rejected message)
  ∧ (user_message c = None → handleML ad n c = Throws (typeError "toLowerCase")).
Proof.
  intros Hid. unfold handleML. rewrite Hid.
  change (String.eqb "product_recommender" "product_recommender") with true. cbv iota.
  pose proof (recommend_resolved ad c (user_message c)) as Hres.
  pose proof (recommend_rejected ad c (user_message c)) as Hrej.
  split; [|split].
  - intros result c' H.
    destruct (recommend ad c (user_message c)) as [r|] eqn:Hr; [|done].
    injection H as <- <-. do 4 (split; [done|]).
    exists (rec_products r). split; [|exact (proj1 (Hres r eq_refl))].
    unfold get_products. cbn [data].
    destruct (rec_fallbackProducts r);
      [rewrite lookup_insert_ne by done|];
      by rewrite lookup_insert_eq.
  - intros message. rewrite <- Hrej.
    destruct (recommend ad c (user_message c)); split; congruence.
  - intros Hnone. unfold recommend, searchProducts. by rewrite Hnone.
Qed.

Lemma recommender_node_reports_no_tokens_witness :
  ∃ result,
    handleML ranking (mkNode "product_recommender" "ml" None)
      (initialContext (textMessage "bike"))
    = Returns result (initialContext (textMessage "bike"))
    ∧ tokensUsed result = 0.
Proof.
  eexists. split; [reflexivity|].
  refine (proj1 (proj2 (proj1 (recommender_node_reports_no_tokens ranking
                                 (mkNode "product_recommender" "ml" None)
                                 (initialContext (textMessage "bike")) eq_refl)
                          _ _ _))).
  reflexivity.
Defined.

(** ** The ledger of a run *)

Lemma latestResponse_snoc results result :
  latestResponse (results ++ [result])%list
  = if truthy (responseOf result) then responseOf result else latestResponse results.
Proof.
  unfold latestResponse. rewrite reverse_snoc, fmap_cons. simpl.
  by destruct (truthy (responseOf result)).
Qed.

Lemma faults_snoc log d :
  faults (log ++ [d])%list = faults log + (if isFault d then 1 else 0).
Proof.
  unfold faults. rewrite List.filter_app, length_app. simpl.
  by destruct (isFault d).
Qed.

(** No handler writes the metadata or the language of the context, and
    only a transcription replaces the user message. *)
Lemma executeNode_keeps_input ad engine n c result c' :
  executeNode ad engine n c = Returns result c' →
  metadata c' = metadata c ∧ language c' = language c
  ∧ (transcribed c' = true
     ∨ (transcribed c' = transcribed c ∧ user_message c' = user_message c)).
Proof.
  unfold executeNode, handleTrigger, handleClassifier, handleNLP, handleRouter,
    handleDatabase, handleML, handleFormatter, handleOptimizer, handleHandler,
    handleEscalation, handleAction, handleVision, handleSpeech.
  intros H.
  repeat case_match; simplify_eq; simpl; auto.
Qed.

Section Ledger.
Context (ad : Adapters) (engine : WorkflowEngine) (input : Input).

Lemma pass_ledger n r :
  Ledger input r →
  Ledger input (stateAfter (pass ad engine n (context r) (dispatches r))).
Proof.
  intros [Hlast Hfinal Herrors Htrace Hmeta Hlang Hmsg].
  destruct (pass_cases ad engine n (context r) (dispatches r))
    as [[Hc ->]|[(Hc & Hv & ->)|(Hc & Hv & Hex)]]; simpl.
  - split; simpl; auto. rewrite length_app. simpl. lia.
  - split; simpl; auto. rewrite length_app. simpl. lia.
  - destruct Hex as [(result & c1 & He & Ht & ->)
                    |[(result & c1 & He & Ht & ->)|(message & He & ->)]]; simpl.
    + pose proof (executeNode_bookkeeping _ _ _ _ _ _ He)
        as (Hb1 & Hb2 & Hb3 & Hb4 & Hb5 & Hb6 & Hb7 & Hb8 & Hb9).
      pose proof (executeNode_keeps_input _ _ _ _ _ _ He) as (Hk1 & Hk2 & Hk3).
      simpl in *. split; simpl.
      * by rewrite Hb9, Hb4.
      * by rewrite Hb5, Hb4.
      * rewrite !length_app, faults_snoc, Hb3, Hb8. simpl. rewrite Ht. lia.
      * rewrite Hb2, fmap_app, returnedResults_snoc, fmap_app, Htrace. done.
      * by rewrite Hk1.
      * by rewrite Hk2.
      * intros Hf. destruct Hk3 as [Hk3|[Hk3 Hk4]]; [congruence|].
        rewrite Hk4. apply Hmsg. congruence.
    + pose proof (executeNode_bookkeeping _ _ _ _ _ _ He)
        as (Hb1 & Hb2 & Hb3 & Hb4 & Hb5 & Hb6 & Hb7 & Hb8 & Hb9).
      pose proof (executeNode_keeps_input _ _ _ _ _ _ He) as (Hk1 & Hk2 & Hk3).
      simpl in *. split; simpl.
      * by rewrite last_snoc.
      * rewrite latestResponse_snoc. fold (responseOf result).
        destruct (truthy (responseOf result)); [done|].
        by rewrite Hb5, Hb4.
      * rewrite !length_app, faults_snoc, Hb3, Hb8. simpl. rewrite Ht. lia.
      * rewrite Hb2, fmap_app, returnedResults_snoc, fmap_app, Htrace. done.
      * by rewrite Hk1.
      * by rewrite Hk2.
      * intros Hf. destruct Hk3 as [Hk3|[Hk3 Hk4]]; [congruence|].
        rewrite Hk4. apply Hmsg. congruence.
    + split; simpl; auto.
      * rewrite !length_app, faults_snoc. simpl. lia.
      * by rewrite returnedResults_snoc, app_nil_r.
Qed.

Lemma initial_ledger : Ledger input (initialRun engine input).
Proof. by split. Qed.

Lemma reachable_ledger r : reachable ad engine input r → Ledger input r.
Proof.
  induction 1 as [|r n r' _ IH _ Hp]; [apply initial_ledger|].
  pose proof (pass_ledger n r IH) as Hl. by rewrite Hp in Hl.
Qed.

Lemma duringRun_ledger r : duringRun ad engine input r → Ledger input r.
Proof.
  intros [Hr|Hrun]; [by apply reachable_ledger|].
  unfold run in Hrun.
  destruct (loop_final ad engine input _ _ _ (reachable_initial _ _ _) Hrun)
    as [[Hr _]|(r0 & n & Hr & _ & Hp)]; [by apply reachable_ledger|].
  pose proof (pass_ledger n r0 (reachable_ledger _ Hr)) as Hl.
  by rewrite Hp in Hl.
Qed.

(** A pass that continues counts one iteration and makes one
    dispatch. *)
Lemma reachable_iterations r :
  reachable ad engine input r → iterationCount (context r) = length (dispatches r).
Proof.
  induction 1 as [|r n r' _ IH _ Hp]; [done|].
  destruct (pass_cases ad engine n (context r) (dispatches r))
    as [[Hc Hq]|[(Hc & Hv & Hq)|(Hc & Hv & Hex)]]; [congruence|congruence|].
  destruct Hex as [(result & c1 & He & Ht & Hq)
                  |[(result & c1 & He & Ht & Hq)|(message & He & Hq)]];
    rewrite Hq in Hp; injection Hp as <-; simpl; rewrite length_app; simpl.
  - pose proof (executeNode_bookkeeping _ _ _ _ _ _ He)
      as (_ & _ & _ & _ & _ & _ & _ & Hb8 & _).
    simpl in Hb8. lia.
  - pose proof (executeNode_bookkeeping _ _ _ _ _ _ He)
      as (_ & _ & _ & _ & _ & _ & _ & Hb8 & _).
    simpl in Hb8. lia.
  - lia.
Qed.

End Ledger.

Lemma latestResponse_None results :
  latestResponse results = None
  ↔ Forall (λ x, truthy (responseOf x) = false) results.
Proof.
  induction results as [|x results IH] using rev_ind.
  - split; [constructor|done].
  - rewrite latestResponse_snoc, Forall_app, Forall_singleton.
    destruct (truthy (responseOf x)) eqn:Hx.
    + split; [|by intros [_ ?]]. intros Hn. rewrite Hn in Hx. done.
    + rewrite IH. tauto.
Qed.

Lemma latestResponse_Some results s :
  latestResponse results = Some s →
  s ≠ "" ∧ ∃ x, x ∈ results ∧ responseOf x = Some s.
Proof.
  induction results as [|x results IH] using rev_ind; [done|].
  rewrite latestResponse_snoc.
  destruct (truthy (responseOf x)) eqn:Hx.
  - intros Hs. rewrite Hs in Hx. split.
    + apply truthy_Some_inv in Hx as (s' & [= <-] & Hne). done.
    + exists x. split; [|done]. apply elem_of_app. right. apply list_elem_of_here.
  - intros Hs. destruct (IH Hs) as [Hne (y & Hy & Hr)].
    split; [done|]. exists y. split; [|done]. apply elem_of_app. by left.
Qed.

(** A step result with an error has no response text: the error
    results of the handlers carry the error, or the degraded payload of
    the NLP node, and nothing else. *)
Lemma executeNode_error_no_response ad engine n c result c' :
  executeNode ad engine n c = Returns result c' →
  truthy (error result) = true →
  responseOf result = None.
Proof.
  unfold executeNode, handleTrigger, handleClassifier, handleNLP, handleRouter,
    handleDatabase, handleML, handleFormatter, handleOptimizer, handleHandler,
    handleEscalation, handleAction, handleVision, handleSpeech,
    semanticProductSearch, getProductPrice, visualProductSearch, processImage,
    transcribe, errorResult, nlpFallback.
  intros H He.
  repeat case_match; simplify_eq; simpl in *; try done;
    unfold responseOf, set_opt; cbn [data];
    repeat case_match; simplify_eq; vm_compute; reflexivity.
Qed.

Lemma duringRun_error_no_response ad engine input r :
  duringRun ad engine input r →
  Forall (λ x, truthy (error x) = true → responseOf x = None)
         (returnedResults (dispatches r)).
Proof.
  assert (∀ n r,
            Forall (λ x, truthy (error x) = true → responseOf x = None)
                   (returnedResults (dispatches r)) →
            Forall (λ x, truthy (error x) = true → responseOf x = None)
                   (returnedResults
                      (dispatches (stateAfter (pass ad engine n (context r) (dispatches r))))))
    as Hpass.
  { intros n r0 IH.
    destruct (pass_cases ad engine n (context r0) (dispatches r0))
      as [[_ ->]|[(_ & _ & ->)|(_ & _ & Hex)]]; [done|done|].
    destruct Hex as [(result & c1 & He & _ & ->)
                    |[(result & c1 & He & _ & ->)|(message & _ & ->)]]; simpl;
      rewrite returnedResults_snoc; apply Forall_app; (split; [done|]).
    - apply Forall_singleton. by eapply executeNode_error_no_response.
    - apply Forall_singleton. by eapply executeNode_error_no_response.
    - constructor. }
  assert (∀ r, reachable ad engine input r →
               Forall (λ x, truthy (error x) = true → responseOf x = None)
                      (returnedResults (dispatches r))) as Hreach.
  { induction 1 as [|r0 n r' _ IH _ Hp]; [constructor|].
    specialize (Hpass n r0 IH). by rewrite Hp in Hpass. }
  intros [Hr|Hrun]; [by apply Hreach|].
  unfold run in Hrun.
  destruct (loop_final ad engine input _ _ _ (reachable_initial _ _ _) Hrun)
    as [[Hr _]|(r0 & n & Hr & _ & Hp)]; [by apply Hreach|].
  specialize (Hpass n r0 (Hreach r0 Hr)). by rewrite Hp in Hpass.
Qed.

Lemma latestResponse_withoutError results :
  Forall (λ x, truthy (error x) = true → responseOf x = None) results →
  latestResponse (withoutError results) = latestResponse results.
Proof.
  induction results as [|x results IH] using rev_ind; [done|].
  rewrite Forall_app, Forall_singleton. intros [Hall Hx].
  rewrite withoutError_snoc, latestResponse_snoc.
  destruct (truthy (error x)) eqn:He.
  - rewrite app_nil_r, (Hx eq_refl), IH by done. done.
  - rewrite latestResponse_snoc, IH by done. done.
Qed.

(** C2, as the code has it. [execute] returns, after at most as many
    dispatches as the iteration ceiling (100); and the text that the
    chat route extracts from the returned context is never empty. The
    [finalResponse] field of the returned context itself is the response
    text ([finalResponse], else [optimized], else [response]) of the
    most recent dispatched step that produced one: it is [null] exactly
    when no dispatched step produced a response text, and otherwise a
    non-empty text of one of the step results. *)
Theorem execute_is_bounded_and_answered ad engine input :
  ∃ r, run ad engine input = Some r
       ∧ execute ad engine input = Some (context r)
       ∧ length (dispatches r) ≤ 100
       ∧ chatResponse (context r) ≠ ""
       ∧ finalResponse (context r) = latestResponse (returnedResults (dispatches r))
       ∧ (finalResponse (context r) = None
          ↔ Forall (λ x, truthy (responseOf x) = false) (returnedResults (dispatches r)))
       ∧ (∀ s, finalResponse (context r) = Some s →
               s ≠ "" ∧ ∃ x, x ∈ returnedResults (dispatches r) ∧ responseOf x = Some s).
Proof.
  destruct (run_returns ad engine input) as [r Hrun].
  exists r. split; [done|]. split; [unfold execute; by rewrite Hrun|].
  assert (duringRun ad engine input r) as Hr by (by right).
  pose proof (duringRun_invariant ad engine input r Hr) as Hinv.
  split.
  { destruct (inv_dispatches r Hinv) as [_ Hd]. by rewrite (inv_ceiling r Hinv) in Hd. }
  split; [apply chatResponse_nonempty|].
  assert (finalResponse (context r) = latestResponse (returnedResults (dispatches r)))
    as Hfinal.
  { rewrite (led_final input r (duringRun_ledger ad engine input r Hr)).
    rewrite (inv_results r Hinv).
    apply latestResponse_withoutError, (duringRun_error_no_response ad engine input r Hr). }
  split; [done|]. rewrite Hfinal. split.
  - apply latestResponse_None.
  - apply latestResponse_Some.
Qed.

(** C2 does not hold as stated: a graph with a trigger node and the end
    node yields a context whose [finalResponse] is still [null]. *)
Lemma finalResponse_can_stay_null :
  ¬ (∃ c, execute offline triggerOnly (textMessage "hello") = Some c
          ∧ truthy (finalResponse c) = true).
Proof.
  intros (c & Hc & Ht).
  assert (finalResponse <$> execute offline triggerOnly (textMessage "hello") = Some None)
    as Hobs by (vm_compute; reflexivity).
  rewrite Hc in Hobs. simpl in Hobs. injection Hobs as Hobs.
  by rewrite Hobs in Ht.
Qed.

(** X19. At every point of a run, [lastResult] is the last entry of
    [allResults], and the tracked [finalResponse] is the response text
    ([finalResponse], else [optimized], else [response]) of the most
    recent stored step result that has one: it is [null] exactly when no
    stored result has a response text, and never the empty string. *)
Theorem final_response_tracks_latest_stored_text ad engine input r :
  duringRun ad engine input r →
  lastResult (context r) = last (allResults (context r))
  ∧ finalResponse (context r) = latestResponse (allResults (context r))
  ∧ (finalResponse (context r) = None
     ↔ Forall (λ x, truthy (responseOf x) = false) (allResults (context r)))
  ∧ (∀ s, finalResponse (context r) = Some s →
          s ≠ "" ∧ ∃ x, x ∈ allResults (context r) ∧ responseOf x = Some s).
Proof.
  intros Hr. destruct (duringRun_ledger ad engine input r Hr) as [Hlast Hfinal _ _ _ _ _].
  split; [done|]. split; [done|]. rewrite Hfinal. split.
  - apply latestResponse_None.
  - apply latestResponse_Some.
Qed.

Lemma final_response_tracks_latest_stored_text_witness :
  ∃ r, run offline textFlow (textMessage "hello") = Some r
       ∧ finalResponse (context r) = latestResponse (allResults (context r)).
Proof.
  destruct (run_returns offline textFlow (textMessage "hello")) as [r Hrun].
  exists r. split; [exact Hrun|].
  apply (final_response_tracks_latest_stored_text offline textFlow (textMessage "hello") r).
  right. exact Hrun.
Defined.

Lemma duringRun_iterations ad engine input r :
  duringRun ad engine input r →
  iterationCount (context r) = length (dispatches r)
  ∨ (iterationCount (context r) = S (length (dispatches r))
     ∧ run ad engine input = Some r).
Proof.
  intros [Hr|Hrun]; [left; by eapply reachable_iterations|].
  pose proof Hrun as Hrun'. unfold run in Hrun'.
  destruct (loop_final ad engine input _ _ _ (reachable_initial _ _ _) Hrun')
    as [[Hr _]|(r0 & n & Hr & _ & Hp)]; [left; by eapply reachable_iterations|].
  right. split; [|done].
  pose proof (reachable_iterations ad engine input r0 Hr) as Hit.
  destruct (pass_cases ad engine n (context r0) (dispatches r0))
    as [[Hc Hq]|[(Hc & Hv & Hq)|(Hc & Hv & Hex)]].
  - rewrite Hq in Hp. injection Hp as <-. simpl. lia.
  - rewrite Hq in Hp. injection Hp as <-. simpl. lia.
  - destruct Hex as [(result & c1 & He & Ht & Hq)
                    |[(result & c1 & He & Ht & Hq)|(message & He & Hq)]];
      congruence.
Qed.

(** X20. The error list has one message per fault (a step result with an
    error, or a raised exception): exactly as many while the loop goes
    on, and at most one more in the context that [execute] returns, which
    is the message of the guard that stopped the run; in that case the
    iteration counter is one ahead of the number of dispatches. *)
Theorem errors_list_has_one_entry_per_fault ad engine input r :
  duringRun ad engine input r →
  (reachable ad engine input r →
     length (errors (context r)) = faults (dispatches r)
     ∧ iterationCount (context r) = length (dispatches r))
  ∧ faults (dispatches r) ≤ length (errors (context r)) ≤ S (faults (dispatches r))
  ∧ (length (errors (context r)) = S (faults (dispatches r))
     ↔ iterationCount (context r) = S (length (dispatches r))).
Proof.
  intros Hr.
  destruct (duringRun_ledger ad engine input r Hr) as [_ _ Herrors _ _ _ _].
  split.
  - intros Hreach. pose proof (reachable_iterations ad engine input r Hreach). lia.
  - destruct (duringRun_iterations ad engine input r Hr) as [Hit|[Hit _]]; lia.
Qed.

Lemma errors_list_has_one_entry_per_fault_witness :
  ∃ r, run offline twoNodeCycle (textMessage "hello") = Some r
       ∧ length (errors (context r)) = S (faults (dispatches r)).
Proof.
  destruct (run_returns offline twoNodeCycle (textMessage "hello")) as [r Hrun].
  exists r. split; [exact Hrun|].
  apply (proj2 (proj2 (errors_list_has_one_entry_per_fault offline twoNodeCycle
                         (textMessage "hello") r (or_intror Hrun)))).
  assert ((λ r, (iterationCount (context r), length (dispatches r))) r = (9, 8)) as Hobs.
  { apply (run_observe (λ r, (iterationCount (context r), length (dispatches r)))
             offline twoNodeCycle (textMessage "hello") r (9, 8) Hrun).
    vm_compute. reflexivity. }
  injection Hobs as -> ->. reflexivity.
Defined.

Lemma trace_tokens_sum (steps : list StepTrace) (results : list StepResult) :
  traceFacts <$> steps = resultFacts <$> results →
  sum_list_with trace_tokensUsed steps = sum_list_with tokensUsed results
  ∧ length (List.filter hasError steps)
    = length (List.filter (λ x, truthy (error x)) results).
Proof.
  revert results. induction steps as [|s steps IH]; intros [|x results] H; try done.
  rewrite !fmap_cons in H. injection H as Hd He Ht Hc Hf Hrest.
  destruct (IH results Hrest) as [IH1 IH2]. simpl.
  rewrite Ht, IH1, He. split; [done|].
  destruct (truthy (error x)); simpl; by rewrite IH2.
Qed.

Lemma withoutError_complement results :
  length (withoutError results)
  + length (List.filter (λ x, truthy (error x)) results)
  = length results.
Proof.
  unfold withoutError. induction results as [|x results IH]; [done|]. simpl.
  destruct (truthy (error x)); simpl; lia.
Qed.

(** X21. At every point of a run, the trace entries mirror, in order, the
    step results the dispatcher returned: same node id, same error and
    data flags, same tokens, confidence and [found]. So the tokens of the
    trace entries add up to the token counter of the context, and the
    entries flagged with an error are exactly those missing from
    [allResults]. *)
Theorem trace_mirrors_returned_results ad engine input r :
  duringRun ad engine input r →
  node <$> workflowSteps (context r) = returnedIds (dispatches r)
  ∧ traceFacts <$> workflowSteps (context r)
    = resultFacts <$> returnedResults (dispatches r)
  ∧ sum_list_with trace_tokensUsed (workflowSteps (context r))
    = ctx_tokensUsed (context r)
  ∧ length (allResults (context r))
    + length (List.filter hasError (workflowSteps (context r)))
    = length (workflowSteps (context r)).
Proof.
  intros Hr.
  destruct (duringRun_ledger ad engine input r Hr) as [_ _ _ Htrace _ _ _].
  pose proof (duringRun_invariant ad engine input r Hr) as Hinv.
  destruct (trace_tokens_sum _ _ Htrace) as [Hsum Hflag].
  split; [apply (inv_steps r Hinv)|]. split; [done|]. split.
  - rewrite Hsum, (inv_tokens r Hinv), (inv_results r Hinv).
    symmetry. apply withoutError_tokens, (inv_error_tokens r Hinv).
  - rewrite Hflag, (inv_results r Hinv), withoutError_complement.
    apply (f_equal length) in Htrace. by rewrite !length_fmap in Htrace.
Qed.

Lemma trace_mirrors_returned_results_witness :
  ∃ r, run offline textFlow (textMessage "hello") = Some r
       ∧ sum_list_with trace_tokensUsed (workflowSteps (context r))
         = ctx_tokensUsed (context r).
Proof.
  destruct (run_returns offline textFlow (textMessage "hello")) as [r Hrun].
  exists r. split; [exact Hrun|].
  apply (trace_mirrors_returned_results offline textFlow (textMessage "hello") r).
  right. exact Hrun.
Defined.

(** X22. A run never changes the metadata or the language of the context it
    was given, and the user message is the one of the input unless a
    speech node has replaced it by a transcription (and set
    [transcribed]). *)
Theorem run_keeps_the_input_fields ad engine input r :
  duringRun ad engine input r →
  metadata (context r) = in_metadata input
  ∧ language (context r) = in_language input
  ∧ maxIterations (context r) = 100
  ∧ (transcribed (context r) = false →
     user_message (context r) = in_user_message input).
Proof.
  intros Hr.
  destruct (duringRun_ledger ad engine input r Hr) as [_ _ _ _ Hmeta Hlang Hmsg].
  pose proof (duringRun_invariant ad engine input r Hr) as Hinv.
  split; [done|]. split; [done|]. split; [apply (inv_ceiling r Hinv)|done].
Qed.

Lemma run_keeps_the_input_fields_witness :
  ∃ r, run offline textFlow (textMessage "hello") = Some r
       ∧ metadata (context r) = in_metadata (textMessage "hello").
Proof.
  destruct (run_returns offline textFlow (textMessage "hello")) as [r Hrun].
  exists r. split; [exact Hrun|].
  apply (run_keeps_the_input_fields offline textFlow (textMessage "hello") r).
  right. exact Hrun.
Defined.

(** ** The callers *)

Lemma truthy_default_any d o : truthy o = true → default d o ≠ "" ∧ o = Some (default d o).
Proof. intros (s & -> & Hs)%truthy_Some_inv. done. Qed.

(** X25. The terminal front end and the chat route read the context that
    [execute] returns differently, but agree whenever the last stored
    step result has a response text ([finalResponse], [optimized] or
    [response]): both answer with that text. Without one, the terminal
    prints its own apology, whatever the earlier steps produced. The
    terminal never prints an empty answer. *)
Theorem terminal_and_route_agree_on_the_last_step ad engine input r :
  duringRun ad engine input r →
  terminalResponse (context r) ≠ ""
  ∧ (∀ x, lastResult (context r) = Some x →
          truthy (responseOf x) = true →
          terminalResponse (context r) = chatResponse (context r)
          ∧ Some (chatResponse (context r)) = responseOf x)
  ∧ (truthy (lastResult (context r) ≫= responseOf) = false →
     terminalResponse (context r) = "I apologize, I couldn't process that request.").
Proof.
  intros Hr. destruct (duringRun_ledger ad engine input r Hr) as [Hlast _ _ _ _ _ _].
  split; [|split].
  - unfold terminalResponse, js_or. repeat case_match; try done;
      by apply truthy_default_any.
  - intros x Hx Ht.
    destruct (allResults (context r)) as [|y l _] eqn:Hall using rev_ind;
      [rewrite Hx in Hlast; done|].
    rewrite Hx, last_snoc in Hlast. injection Hlast as <-.
    unfold terminalResponse, chatResponse, lastData. rewrite Hx, Hall, reverse_snoc.
    rewrite fmap_cons. cbn [mbind option_bind List.find].
    revert Ht. unfold responseOf, js_or, truthy.
    destruct (get_str (data x) "finalResponse") as [sf|],
             (get_str (data x) "optimized") as [so|],
             (get_str (data x) "response") as [sp|];
      repeat match goal with
             | |- context [String.eqb ?s ""] => destruct (String.eqb s "") eqn:?
             end; simpl;
      repeat (match goal with
              | H : String.eqb _ _ = _ |- _ => rewrite !H
              end; simpl);
      done.
  - intros Ht. unfold terminalResponse, lastData.
    destruct (lastResult (context r)) as [x|]; [|done]. simpl in *.
    unfold responseOf, js_or in Ht. unfold js_or.
    destruct (truthy (get_str (data x) "finalResponse")) eqn:H1; [congruence|].
    destruct (truthy (get_str (data x) "optimized")) eqn:H2; [congruence|].
    by rewrite Ht.
Qed.

Lemma terminal_and_route_agree_on_the_last_step_witness :
  ∃ r, run offline textFlow (textMessage "hello") = Some r
       ∧ terminalResponse (context r) ≠ "".
Proof.
  destruct (run_returns offline textFlow (textMessage "hello")) as [r Hrun].
  exists r. split; [exact Hrun|].
  apply (terminal_and_route_agree_on_the_last_step offline textFlow
           (textMessage "hello") r).
  right. exact Hrun.
Defined.

Lemma postTestChat_answers ad engine clock sessions rq :
  rq_clearSession rq = false →
  ∃ result,
    execute ad engine (chatInput rq) = Some result
    ∧ postTestChat ad engine clock sessions rq
      = (<[currentSessionId clock rq :=
             {| session_id := session_id (sessionOrNew sessions (currentSessionId clock rq));
                phoneNumber := phoneNumber (sessionOrNew sessions (currentSessionId clock rq));
                messages :=
                  (messages (sessionOrNew sessions (currentSessionId clock rq))
                   ++ [{| cm_type := "user"; cm_content := rq_message rq |};
                       {| cm_type := "bot";
                          cm_content := Some (chatResponse result) |}])%list;
                totalTokens :=
                  totalTokens (sessionOrNew sessions (currentSessionId clock rq))
                  + ctx_tokensUsed result |}]> sessions,
         Answered (currentSessionId clock rq) (chatResponse result)
           (messages (sessionOrNew sessions (currentSessionId clock rq))
            ++ [{| cm_type := "user"; cm_content := rq_message rq |};
                {| cm_type := "bot"; cm_content := Some (chatResponse result) |}])%list
           (length (messages (sessionOrNew sessions (currentSessionId clock rq))) + 2)
           (totalTokens (sessionOrNew sessions (currentSessionId clock rq))
            + ctx_tokensUsed result)).
Proof.
  intros Hclear.
  destruct (run_returns ad engine (chatInput rq)) as [r Hrun].
  assert (execute ad engine (chatInput rq) = Some (context r)) as Hex.
  { unfold execute. by rewrite Hrun. }
  exists (context r). split; [done|].
  unfold postTestChat. rewrite Hclear, Hex.
  unfold addTokens, pushMessage. cbn [messages totalTokens session_id phoneNumber].
  rewrite nat_or_zero, !length_app, <- !app_assoc. cbn [length app].
  do 2 f_equal. lia.
Qed.

(** X26. A chat request that does not clear the session is always answered
    (the route never takes its [catch] branch): the answer is non-empty,
    the session gains exactly the user message and the bot message, in
    this order, its token total grows by the tokens of this run, and no
    other session changes. *)
Theorem chat_route_appends_one_exchange ad engine clock sessions rq :
  rq_clearSession rq = false →
  ∃ result,
    execute ad engine (chatInput rq) = Some result
    ∧ chatResponse result ≠ ""
    ∧ (postTestChat ad engine clock sessions rq).2
      = Answered (currentSessionId clock rq) (chatResponse result)
          (messages (sessionOrNew sessions (currentSessionId clock rq))
           ++ [{| cm_type := "user"; cm_content := rq_message rq |};
               {| cm_type := "bot"; cm_content := Some (chatResponse result) |}])%list
          (length (messages (sessionOrNew sessions (currentSessionId clock rq))) + 2)
          (totalTokens (sessionOrNew sessions (currentSessionId clock rq))
           + ctx_tokensUsed result)
    ∧ (∃ session,
         getTestChat (postTestChat ad engine clock sessions rq).1
                     (currentSessionId clock rq) = Some session
         ∧ messages session
           = (messages (sessionOrNew sessions (currentSessionId clock rq))
              ++ [{| cm_type := "user"; cm_content := rq_message rq |};
                  {| cm_type := "bot"; cm_content := Some (chatResponse result) |}])%list
         ∧ totalTokens session
           = totalTokens (sessionOrNew sessions (currentSessionId clock rq))
             + ctx_tokensUsed result)
    ∧ ∀ k, k ≠ currentSessionId clock rq →
           getTestChat (postTestChat ad engine clock sessions rq).1 k
           = getTestChat sessions k.
Proof.
  intros Hclear.
  destruct (postTestChat_answers ad engine clock sessions rq Hclear)
    as (result & Hex & ->).
  exists result. split; [done|]. split; [apply chatResponse_nonempty|].
  cbn [fst snd]. unfold getTestChat. split; [done|]. split.
  - rewrite lookup_insert_eq. eexists. split; [reflexivity|]. done.
  - intros k Hk. by rewrite lookup_insert_ne.
Qed.

Lemma chat_route_appends_one_exchange_witness :
  ∃ result,
    execute offline textFlow
      (chatInput {| rq_message := Some "hello"; rq_sessionId := Some "s1";
                    rq_clearSession := false |}) = Some result
    ∧ chatResponse result ≠ "".
Proof.
  destruct (chat_route_appends_one_exchange offline textFlow 0 ∅
              {| rq_message := Some "hello"; rq_sessionId := Some "s1";
                 rq_clearSession := false |} eq_refl)
    as (result & Hex & Hne & _).
  exists result. split; [exact Hex|exact Hne].
Defined.

(** X27. A request with [clearSession] runs no workflow and stores no
    message: it deletes the session with the id of the request and
    nothing else, so the session is not found afterwards, and the next
    message to the same id starts a conversation of two messages whose
    token total is that of its own run. *)
Theorem clearing_forgets_only_that_session ad engine clock sessions rq :
  rq_clearSession rq = true →
  postTestChat ad engine clock sessions rq
  = (delete (currentSessionId clock rq) sessions,
     SessionCleared (currentSessionId clock rq))
  ∧ getTestChat (delete (currentSessionId clock rq) sessions)
                (currentSessionId clock rq) = None
  ∧ (∀ k, k ≠ currentSessionId clock rq →
          getTestChat (delete (currentSessionId clock rq) sessions) k
          = getTestChat sessions k)
  ∧ ∀ clock' rq',
      rq_clearSession rq' = false →
      currentSessionId clock' rq' = currentSessionId clock rq →
      ∃ result,
        execute ad engine (chatInput rq') = Some result
        ∧ (postTestChat ad engine clock'
             (postTestChat ad engine clock sessions rq).1 rq').2
          = Answered (currentSessionId clock rq) (chatResponse result)
              [{| cm_type := "user"; cm_content := rq_message rq' |};
               {| cm_type := "bot"; cm_content := Some (chatResponse result) |}]
              2 (ctx_tokensUsed result).
Proof.
  intros Hclear.
  assert (postTestChat ad engine clock sessions rq
          = (delete (currentSessionId clock rq) sessions,
             SessionCleared (currentSessionId clock rq))) as Hpost.
  { unfold postTestChat. by rewrite Hclear. }
  rewrite Hpost. cbn [fst]. unfold getTestChat.
  split; [done|]. split; [apply lookup_delete_eq|].
  split; [intros k Hk; by rewrite lookup_delete_ne|].
  intros clock' rq' Hclear' Hid.
  destruct (postTestChat_answers ad engine clock'
              (delete (currentSessionId clock rq) sessions) rq' Hclear')
    as (result & Hex & ->).
  exists result. split; [done|]. cbn [snd].
  rewrite Hid. unfold sessionOrNew. rewrite lookup_delete_eq. done.
Qed.

Lemma clearing_forgets_only_that_session_witness :
  postTestChat offline textFlow 0
    {[ "s1" := {| session_id := "s1"; phoneNumber := "test-s1";
                  messages := [{| cm_type := "user"; cm_content := Some "hi" |}];
                  totalTokens := 12 |} ]}
    {| rq_message := None; rq_sessionId := Some "s1"; rq_clearSession := true |}
  = (delete "s1"
       {[ "s1" := {| session_id := "s1"; phoneNumber := "test-s1";
                     messages := [{| cm_type := "user"; cm_content := Some "hi" |}];
                     totalTokens := 12 |} ]},
     SessionCleared "s1").
Proof.
  apply (proj1 (clearing_forgets_only_that_session offline textFlow 0 _
                  {| rq_message := None; rq_sessionId := Some "s1";
                     rq_clearSession := true |} eq_refl)).
Defined.

(** ** Search by image *)

Lemma concat_nonempty (l : list string) :
  Forall (λ s, s ≠ "") l → l ≠ [] → String.concat " " l ≠ "".
Proof.
  intros Hall Hne. destruct l as [|s l]; [done|].
  inversion Hall as [|? ? Hs _]; subst. simpl.
  destruct s as [|a s]; [done|]. by destruct l.
Qed.

(** [filter(Boolean).join(' ')] is empty exactly when no part is a
    non-empty string. *)
Lemma joinTruthy_empty parts :
  joinTruthy parts = "" ↔ Forall (λ o, truthy o = false) parts.
Proof.
  unfold joinTruthy. split.
  - intros H. apply Forall_forall. intros o Ho.
    destruct (truthy o) eqn:Ht; [|done]. exfalso. revert H.
    apply concat_nonempty.
    + apply Forall_forall. intros s Hs.
      apply list_elem_of_omap in Hs as (o' & _ & Hs).
      destruct (truthy o') eqn:Ht'; [|done]. subst o'.
      by apply truthy_Some_inv in Ht' as (? & [= <-] & ?).
    + intros Hnil. apply truthy_Some_inv in Ht as (s & -> & Hs).
      assert (s ∈ omap (λ o, if truthy o then o else None) parts) as Hin.
      { apply list_elem_of_omap. exists (Some s). split; [done|].
        unfold truthy. by destruct (String.eqb_spec s ""). }
      rewrite Hnil in Hin. by apply elem_of_nil in Hin.
  - intros Hall.
    assert (omap (λ o, if truthy o then o else None) parts = []) as ->; [|done].
    induction Hall as [|o l Ho _ IH]; [done|].
    change (omap ?f (o :: l)) with (match f o with Some y => y :: omap f l | None => omap f l end).
    cbv beta. by rewrite Ho.
Qed.

(** X29. After a vision step that succeeded, the visual search of the engine
    looks for what the image names: it queries the product search with
    the product name, category and brand of the analysis joined by
    spaces, limited to [config.limit] (default 10), and reports [found]
    when the query returns a product. When the analysis names nothing,
    it makes no query and reports no product. *)
Theorem visual_search_queries_what_the_image_names ad vision node config c c' url reply :
  js_or (metadata c ≫= media_url) (metadata c ≫= image_url) = Some url →
  url ≠ "" →
  image_complete ad c url = Resolved reply →
  ∃ result,
    handleVision ad vision c = Returns result c
    ∧ error result = None
    ∧ tokensUsed result = img_total_tokens reply
    ∧ (lastResult c' = Some result →
       (searchTermsOf reply = ""
        ↔ truthy (img_product_name reply) = false ∧ truthy (img_category reply) = false
          ∧ truthy (img_brand reply) = false)
       ∧ (searchTermsOf reply = "" →
          visualProductSearch ad node config c'
          = Resolved (foundResult {[ "products" := VProducts [] ]} false))
       ∧ (searchTermsOf reply ≠ "" →
          ∃ analysis,
            get_analysis (data result) = Some analysis
            ∧ visualProductSearch ad node config c'
              = match searchProducts_findMany ad c' (searchTermsOf reply)
                        (nat_or (cfg_limit config) 10) with
                | Rejected message => Rejected message
                | Resolved products =>
                  Resolved
                    (foundResult {[ "products" := VProducts products;
                                    "analysis" := VAnalysis analysis ]}
                                 (negb (bool_decide (length products = 0))))
                end)).
Proof.
  intros Hurl Hne Himg.
  assert (truthy (Some url) = true) as Ht.
  { unfold truthy. by destruct (String.eqb_spec url ""). }
  unfold handleVision. rewrite Hurl, Ht. cbn [negb].
  change (default "" (Some url)) with url.
  unfold processImage. rewrite Himg. cbn [a_success negb].
  eexists. split; [reflexivity|]. cbn [error tokensUsed data].
  split; [done|]. split; [apply nat_or_zero|].
  intros Hlast.
  assert (∀ (a : Analysis) v1 v2 v3,
            get_analysis
              (Some (set_opt "product_name" v1 (set_opt "category" v2 (set_opt "brand" v3
                       {[ "analysis" := VAnalysis a ]}))))
            = Some a) as Hget.
  { intros a v1 v2 v3. unfold get_analysis, set_opt.
    destruct v1, v2, v3;
      rewrite ?lookup_insert_ne by done; by rewrite lookup_singleton_eq. }
  split; [|split].
  - unfold searchTermsOf. rewrite joinTruthy_empty, !Forall_cons, Forall_nil. tauto.
  - intros Hterms. unfold visualProductSearch, lastData. rewrite Hlast.
    cbn [mbind option_bind data]. rewrite Hget.
    cbn [a_success negb a_product_name a_category a_brand].
    fold (searchTermsOf reply). by rewrite Hterms.
  - intros Hterms. eexists. split; [apply Hget|].
    unfold visualProductSearch, lastData. rewrite Hlast.
    cbn [mbind option_bind data]. rewrite Hget.
    cbn [a_success negb a_product_name a_category a_brand].
    fold (searchTermsOf reply).
    assert (truthy (Some (searchTermsOf reply)) = true) as ->.
    { unfold truthy. by destruct (String.eqb_spec (searchTermsOf reply) ""). }
    cbn [negb]. unfold searchProducts. done.
Qed.

Lemma visual_search_queries_what_the_image_names_witness :
  ∃ result,
    handleVision camera (mkNode "image_analyzer" "vision" None)
      (initialContext (imageMessage "https://cdn.example/1.jpg"))
    = Returns result (initialContext (imageMessage "https://cdn.example/1.jpg"))
    ∧ error result = None
    ∧ tokensUsed result = 210.
Proof.
  destruct (visual_search_queries_what_the_image_names camera
              (mkNode "image_analyzer" "vision" None)
              (mkNode "visual_search" "database" None) emptyConfig
              (initialContext (imageMessage "https://cdn.example/1.jpg"))
              (initialContext (imageMessage "https://cdn.example/1.jpg"))
              "https://cdn.example/1.jpg" scooterReply
              eq_refl ltac:(discriminate) eq_refl)
    as (result & Hrun & Herr & Htok & _).
  exists result. split; [exact Hrun|]. split; [exact Herr|exact Htok].
Defined.

(** X30. [ImageProcessor.searchProductsByImage] never raises because of the
    image analysis: when the analysis fails it resolves to no products
    and the error, and makes no product search. When the analysis
    succeeds it searches, with the default limit of 10, for the same
    terms as the visual search of the engine, also when they are empty,
    and raises exactly when that search raises. *)
Theorem image_search_helper_reports_analysis_failure ad now url :
  (∀ message,
     image_complete ad now url = Rejected message →
     searchProductsByImage ad now url
     = Resolved {| is_products := []; is_error := Some message;
                   is_analysis := None; is_searchTerms := None |})
  ∧ (∀ reply,
       image_complete ad now url = Resolved reply →
       (∀ message,
          searchProductsByImage ad now url = Rejected message
          ↔ searchProducts_findMany ad now (searchTermsOf reply) 10 = Rejected message)
       ∧ (∀ products,
            searchProducts_findMany ad now (searchTermsOf reply) 10 = Resolved products →
            ∃ found,
              searchProductsByImage ad now url = Resolved found
              ∧ is_products found = products
              ∧ is_error found = None
              ∧ is_searchTerms found = Some (searchTermsOf reply)
              ∧ (a_tokensUsed <$> is_analysis found) = Some (img_total_tokens reply))).
Proof.
  unfold searchProductsByImage, processImage, searchProducts. split.
  - by intros message ->.
  - intros reply ->. cbn [a_success negb a_product_name a_category a_brand].
    fold (searchTermsOf reply). split.
    + intros message.
      destruct (searchProducts_findMany ad now (searchTermsOf reply) 10);
        split; congruence.
    + intros products ->. eexists. split; [reflexivity|]. done.
Qed.

Lemma image_search_helper_reports_analysis_failure_witness :
  searchProductsByImage offline (initialContext (imageMessage "https://cdn.example/1.jpg"))
    "https://cdn.example/1.jpg"
  = Resolved {| is_products := []; is_error := Some "connect ECONNREFUSED";
                is_analysis := None; is_searchTerms := None |}.
Proof.
  apply (proj1 (image_search_helper_reports_analysis_failure offline
                  (initialContext (imageMessage "https://cdn.example/1.jpg"))
                  "https://cdn.example/1.jpg")).
  reflexivity.
Defined.

(** ** The entry of a run *)

Lemma first_pass_dispatches ad engine input n r :
  pass ad engine n (initialContext input) [] = r →
  ∃ r' d, r = Continue r' ∧ dispatches r' = [d] ∧ dispatchedId d = node_id n.
Proof.
  intros <-.
  destruct (pass_cases ad engine n (initialContext input) [])
    as [[Hc _]|[(_ & Hv & _)|(_ & _ & Hex)]].
  - simpl in Hc. lia.
  - unfold visitCount in Hv. simpl in Hv. lia.
  - destruct Hex as [(result & c1 & _ & _ & ->)
                    |[(result & c1 & _ & _ & ->)|(message & _ & ->)]];
      eexists _, _; (split; [reflexivity|]); simpl; done.
Qed.

Lemma reachable_first_dispatch ad engine input r :
  reachable ad engine input r →
  r = initialRun engine input
  ∨ ∃ n d log, running (initialRun engine input) = Some n
               ∧ dispatches r = d :: log ∧ dispatchedId d = node_id n.
Proof.
  induction 1 as [|r n r' Hr IH Hrun Hp]; [by left|]. right.
  destruct IH as [->|(n0 & d & log & Hn0 & Hd & Hid)].
  - exists n. simpl in Hp.
    destruct (first_pass_dispatches ad engine input n _ Hp) as (r1 & d & [= <-] & Hd & Hid).
    exists d, []. done.
  - exists n0, d.
    destruct (pass_cases ad engine n (context r) (dispatches r))
      as [[_ Hq]|[(_ & _ & Hq)|(_ & _ & Hex)]]; [congruence|congruence|].
    destruct Hex as [(result & c1 & _ & _ & Hq)
                    |[(result & c1 & _ & _ & Hq)|(message & _ & Hq)]];
      rewrite Hq in Hp; injection Hp as <-; simpl; rewrite Hd;
      eexists; (split; [done|]); (split; [reflexivity|done]).
Qed.

(** X24. A workflow without a node [start] (or whose [start] node has type
    [end]) makes no dispatch: [execute] returns the context it began
    with, and the chat route answers with its apology. Otherwise the
    first dispatch of the run is that of the node stored under
    [start]. *)
Theorem run_begins_at_the_start_node ad engine input r :
  run ad engine input = Some r →
  (running (initialRun engine input) = None →
   r = initialRun engine input
   ∧ execute ad engine input = Some (initialContext input)
   ∧ chatResponse (context r) = apology)
  ∧ (∀ n, nodes engine !! "start" = Some n → node_type n ≠ "end" →
          ∃ d log, dispatches r = d :: log ∧ dispatchedId d = node_id n).
Proof.
  intros Hrun. split.
  - intros Hnone. unfold execute. revert Hrun. unfold run. simpl. rewrite Hnone.
    intros [= <-]. done.
  - intros n Hstart Hend.
    assert (running (initialRun engine input) = Some n) as Hn.
    { unfold running. simpl. rewrite Hstart.
      by destruct (String.eqb_spec (node_type n) "end"). }
    pose proof Hrun as Hrun'. unfold run in Hrun'.
    destruct (loop_final ad engine input _ _ _ (reachable_initial _ _ _) Hrun')
      as [[Hr Hstop]|(r0 & m & Hr & Hm & Hp)].
    + destruct (reachable_first_dispatch ad engine input r Hr)
        as [->|(n0 & d & log & Hn0 & Hd & Hid)]; [congruence|].
      exists d, log. split; [done|]. congruence.
    + destruct (reachable_first_dispatch ad engine input r0 Hr)
        as [->|(n0 & d & log & Hn0 & Hd & Hid)].
      * simpl in Hp.
        destruct (first_pass_dispatches ad engine input m _ Hp) as (? & ? & ? & _).
        done.
      * exists d, log. split; [|congruence].
        destruct (pass_cases ad engine m (context r0) (dispatches r0))
          as [[_ Hq]|[(_ & _ & Hq)|(_ & _ & Hex)]].
        -- rewrite Hq in Hp. by injection Hp as <-.
        -- rewrite Hq in Hp. by injection Hp as <-.
        -- destruct Hex as [(result & c1 & _ & _ & Hq)
                           |[(result & c1 & _ & _ & Hq)|(message & _ & Hq)]];
             congruence.
Qed.

Lemma run_begins_at_the_start_node_witness :
  ∃ r, run offline textFlow (textMessage "hello") = Some r
       ∧ ∃ d log, dispatches r = d :: log ∧ dispatchedId d = "start".
Proof.
  destruct (run_returns offline textFlow (textMessage "hello")) as [r Hrun].
  exists r. split; [exact Hrun|].
  apply (proj2 (run_begins_at_the_start_node offline textFlow (textMessage "hello") r Hrun)
           (mkNode "start" "nlp" (Some (configNext "intent_router")))).
  - vm_compute. reflexivity.
  - discriminate.
Defined.

(** ** The session store *)

(** X28. The session list reports every stored session once, with its id,
    its number of messages and its tokens. A message to an id that has no
    session adds one session to the list, a message to a known id adds
    none; clearing removes the session of that id, if there is one. The
    route keeps every session under its own id. *)
Theorem session_list_reports_every_session ad engine clock sessions rq :
  keyedById sessions →
  keyedById (postTestChat ad engine clock sessions rq).1
  ∧ (listTestChats sessions).2 = size sessions
  ∧ (∀ id n t,
       (id, n, t) ∈ (listTestChats sessions).1
       ↔ ∃ s, getTestChat sessions id = Some s
              ∧ n = length (messages s) ∧ t = totalTokens s)
  ∧ (listTestChats (postTestChat ad engine clock sessions rq).1).2
    = match getTestChat sessions (currentSessionId clock rq) with
      | Some _ => if rq_clearSession rq then pred (size sessions) else size sessions
      | None => if rq_clearSession rq then size sessions else S (size sessions)
      end.
Proof.
  intros Hkeyed.
  assert (∀ m : gmap string Session, (listTestChats m).2 = size m) as Hcount.
  { intros m. unfold listTestChats. cbn [snd].
    by rewrite length_fmap, length_map_to_list. }
  split; [|split; [apply Hcount|split]].
  - destruct (rq_clearSession rq) eqn:Hclear.
    + unfold postTestChat. rewrite Hclear. cbn [fst]. intros k s Hk.
      apply lookup_delete_Some in Hk as [_ Hk]. by apply Hkeyed.
    + destruct (postTestChat_answers ad engine clock sessions rq Hclear)
        as (result & _ & ->).
      cbn [fst]. intros k s Hk.
      destruct (decide (k = currentSessionId clock rq)) as [->|Hne].
      * rewrite lookup_insert_eq in Hk. injection Hk as <-. cbn [session_id].
        unfold sessionOrNew.
        destruct (sessions !! currentSessionId clock rq) as [s0|] eqn:Hs0; [|done].
        by apply Hkeyed.
      * rewrite lookup_insert_ne in Hk by done. by apply Hkeyed.
  - intros id n t. unfold listTestChats, getTestChat. cbn [fst]. split.
    + intros Hin. apply list_elem_of_fmap in Hin as ([k s] & Heq & Hin).
      apply elem_of_map_to_list in Hin. cbn [snd] in Heq. injection Heq as -> -> ->.
      exists s. by rewrite (Hkeyed k s Hin).
    + intros (s & Hs & -> & ->). apply list_elem_of_fmap.
      exists (id, s). cbn [snd]. split; [by rewrite (Hkeyed id s Hs)|].
      by apply elem_of_map_to_list.
  - rewrite Hcount. unfold getTestChat.
    destruct (rq_clearSession rq) eqn:Hclear.
    + unfold postTestChat. rewrite Hclear. cbn [fst]. rewrite map_size_delete.
      by destruct (sessions !! currentSessionId clock rq).
    + destruct (postTestChat_answers ad engine clock sessions rq Hclear)
        as (result & _ & ->).
      cbn [fst]. rewrite map_size_insert.
      by destruct (sessions !! currentSessionId clock rq).
Qed.

Lemma session_list_reports_every_session_witness :
  (listTestChats
     (postTestChat offline textFlow 0 ∅
        {| rq_message := Some "hello"; rq_sessionId := Some "s1";
           rq_clearSession := false |}).1).2 = 1.
Proof.
  refine (eq_trans
            (proj2 (proj2 (proj2 (session_list_reports_every_session offline textFlow 0 ∅
                                    {| rq_message := Some "hello"; rq_sessionId := Some "s1";
                                       rq_clearSession := false |} _)))) _).
  - intros k s Hk. rewrite lookup_empty in Hk. discriminate.
  - reflexivity.
Defined.

(** X17. When the ranking completion of the recommender answers with a
    product list, [rankProducts] maps each entry to the candidate at its
    1-based index: every ranked product is a candidate with the score and
    the reasoning of an entry that points at it, entries whose index
    points outside the candidates are dropped, no product is directly
    followed by one with a strictly higher score, and the tokens of the
    completion are reported. *)
Theorem recommender_ranking_maps_indexes_to_candidates
    ad now query products reply rankings :
  products ≠ [] →
  recommender_complete ad now query products = Resolved reply →
  rank_products reply = Some rankings →
  ranking_tokensUsed (rankProducts ad now query products) = Some (rank_total_tokens reply)
  ∧ length (ranking_products (rankProducts ad now query products)) ≤ length rankings
  ∧ byScore (ranking_products (rankProducts ad now query products))
  ∧ ∀ p, p ∈ ranking_products (rankProducts ad now query products) →
         ∃ entry i q,
           entry ∈ rankings ∧ rk_index entry = Some (S i) ∧ products !! i = Some q
           ∧ p = scored (num_or (rk_relevance_score entry) c0_5)
                        (default "Relevant product"
                           (js_or (rk_reasoning entry) (Some "Relevant product")))
                        q.
Proof.
  intros Hne Hreply Hrank. unfold rankProducts.
  rewrite bool_decide_eq_false_2 by (by destruct products).
  rewrite Hreply, Hrank. cbn [ranking_tokensUsed ranking_products].
  split; [done|]. split.
  { rewrite (Permutation_length (sortByScore_Permutation _)). apply omap_length_le. }
  split; [apply sortByScore_byScore|].
  intros p Hin. rewrite sortByScore_Permutation in Hin.
  apply list_elem_of_omap in Hin as (entry & Hentry & Hf).
  destruct (rk_index entry) as [[|i]|] eqn:Hi; [done| |done].
  destruct (products !! i) as [q|] eqn:Hq; [|done].
  injection Hf as <-. by exists entry, i, q.
Qed.

Lemma recommender_ranking_maps_indexes_to_candidates_witness :
  productIds (ranking_products
                (rankProducts ranking (initialContext (textMessage "bike")) "bike" threeBikes))
  = ["p2"; "p3"; "p1"]
  ∧ ranking_tokensUsed
      (rankProducts ranking (initialContext (textMessage "bike")) "bike" threeBikes)
    = Some 95.
Proof.
  split; [vm_compute; reflexivity|].
  refine (proj1 (recommender_ranking_maps_indexes_to_candidates ranking
                   (initialContext (textMessage "bike")) "bike" threeBikes indexReply
                   _ _ eq_refl eq_refl)).
  discriminate.
Defined.
